(** * THERMASCAN battery-pack engine: a shallow embedding of [script.js]

    The development follows the JavaScript source function by function:
    the [BatteryCell] class, pack generation, the neighbour index, anomaly
    detection, the metrics history and fault injection.

    Modelling conventions.
    - A JavaScript number stored in a cell is an exact rational ([Q]).
      Rounding of IEEE-754 doubles is not modelled.  Every value the program
      ever stores in a cell is finite (creation draws, bounded perturbations,
      fault values computed from a non-empty pack), hence the field type.
      Values that the program derives and that can be non-finite (a division
      by a zero average, the statistics of an empty pack) live in [JSNum].
      The statements about the values written by a fault, the step of an
      update, the voltage test and the recorded mean are phrased so that
      they do not hang on the last binary digit: an equation repeats the
      expression of the source, an interval is closed where a rounded
      result can reach its end, a bound that the exact value meets with
      equality is given with the margin [roundoff], and the cell that
      [Math.floor] selects is named by what is written to it, not by the
      exact product.
    - The global variables are the fields of [World]; a function that
      mutates them is an action of the monad [JS], which also carries the
      exceptions ([TypeError] on a property read of [undefined]).  State
      written before a throw stays written, as in JavaScript.
    - [Math.random] and [Date] are oracles: the n-th call returns [rand n],
      respectively [localeTime n].
    - Of the DOM only the class list of every grid element and the status
      banner are kept; formatted texts ([toFixed], [rgb(...)]) are not part
      of the model.  Of the charts only the data that [updateCharts] hands
      over is kept, as the value of a function of the world. *)

From Stdlib Require Import ZArith QArith Qround Qabs Qminmax Lia Lqa String.
From stdpp Require Import base list strings pretty.

Local Open Scope Q_scope.

(** ** JavaScript numbers that may be non-finite *)

Inductive JSNum : Type :=
| Fin (q : Q)
| PInf
| NInf
| NaN.

Definition Qlt_bool (x y : Q) : bool := negb (Qle_bool y x).

(** [n / d] on finite operands.  The divisors of the program are array
    lengths and sums started at [+0], so the sign of a zero divisor is
    always positive. *)
Definition js_div (n d : Q) : JSNum :=
  if Qeq_bool d 0 then
    if Qlt_bool 0 n then PInf
    else if Qlt_bool n 0 then NInf
    else NaN
  else Fin (n / d).

(** [x > t] for a finite [t]; any comparison with [NaN] is [false]. *)
Definition js_gt (x : JSNum) (t : Q) : bool :=
  match x with
  | Fin q => Qlt_bool t q
  | PInf => true
  | NInf | NaN => false
  end.

(** [Math.max(...xs)] and [Math.min(...xs)]. *)
Definition Math_max (xs : list Q) : JSNum :=
  match xs with
  | [] => NInf
  | x :: rest => Fin (fold_left Qmax rest x)
  end.

Definition Math_min (xs : list Q) : JSNum :=
  match xs with
  | [] => PInf
  | x :: rest => Fin (fold_left Qmin rest x)
  end.

(** [xs.reduce((a, b) => a + b, 0)] *)
Definition sumQ (xs : list Q) : Q := fold_left Qplus xs 0.

(** ** Configuration *)

Module CONFIG.
Definition ROWS : Z := 8.
Definition COLS : Z := 12.
Definition TOTAL_CELLS : Z := 96.
Module TEMP_THRESHOLDS.
Definition COOL_MAX : Q := 28.
Definition NORMAL_MAX : Q := 40.
Definition ELEVATED_MAX : Q := 45.
Definition WARNING_MAX : Q := 55.
Definition CRITICAL : Q := 55.
End TEMP_THRESHOLDS.
Definition VOLTAGE_DEVIATION : Q := 0.1.
Definition SOH_CRITICAL : Q := 70.
End CONFIG.

(** ** Data model *)

Inductive AnomalyStatus : Type := NORMAL | WARNING | CRITICAL.

Global Instance AnomalyStatus_eq_dec : EqDecision AnomalyStatus.
Proof. solve_decision. Defined.

Record BatteryCell : Type := mkCell {
  id : string;
  row : Z;
  col : Z;
  temperature : Q;
  voltage : Q;
  current : Q;
  soc : Q;
  soh : Q;
  resistance : Q;
  cycles : Z;
  anomalyStatus : AnomalyStatus
}.

Definition set_temperature (t : Q) (c : BatteryCell) : BatteryCell :=
  mkCell (id c) (row c) (col c) t (voltage c) (current c) (soc c) (soh c)
         (resistance c) (cycles c) (anomalyStatus c).

Definition set_voltage (v : Q) (c : BatteryCell) : BatteryCell :=
  mkCell (id c) (row c) (col c) (temperature c) v (current c) (soc c) (soh c)
         (resistance c) (cycles c) (anomalyStatus c).

Definition set_current (i : Q) (c : BatteryCell) : BatteryCell :=
  mkCell (id c) (row c) (col c) (temperature c) (voltage c) i (soc c) (soh c)
         (resistance c) (cycles c) (anomalyStatus c).

Definition set_soc (s : Q) (c : BatteryCell) : BatteryCell :=
  mkCell (id c) (row c) (col c) (temperature c) (voltage c) (current c) s (soh c)
         (resistance c) (cycles c) (anomalyStatus c).

Definition set_anomalyStatus (s : AnomalyStatus) (c : BatteryCell) : BatteryCell :=
  mkCell (id c) (row c) (col c) (temperature c) (voltage c) (current c) (soc c)
         (soh c) (resistance c) (cycles c) s.

(** One entry of [tempHistory]. *)
Module Sample.
Record t : Type := mk {
  time : string;
  avg : JSNum;
  max : JSNum;
  min : JSNum
}.
End Sample.

(** The status banner: the class list of [#anomalyStatus] and the text of
    [#statusText]. *)
Record Banner : Type := mkBanner {
  className : list string;
  textContent : string
}.

(** The global state.  [gridClasses] holds the class list of each
    [.battery-cell] element, [randomCalls] and [dateReads] count the calls
    made so far to the two oracles. *)
Record World : Type := mkWorld {
  batteryData : list BatteryCell;
  tempHistory : list Sample.t;
  statusBanner : Banner;
  gridClasses : list (list string);
  randomCalls : nat;
  dateReads : nat
}.

Definition set_batteryData (d : list BatteryCell) (w : World) : World :=
  mkWorld d (tempHistory w) (statusBanner w) (gridClasses w) (randomCalls w) (dateReads w).

Definition set_tempHistory (h : list Sample.t) (w : World) : World :=
  mkWorld (batteryData w) h (statusBanner w) (gridClasses w) (randomCalls w) (dateReads w).

Definition set_statusBanner (b : Banner) (w : World) : World :=
  mkWorld (batteryData w) (tempHistory w) b (gridClasses w) (randomCalls w) (dateReads w).

Definition set_gridClasses (g : list (list string)) (w : World) : World :=
  mkWorld (batteryData w) (tempHistory w) (statusBanner w) g (randomCalls w) (dateReads w).

(** ** Completions and the [JS] monad *)

Inductive Completion (A : Type) : Type :=
| Normal (a : A)
| Throw (e : string).
Arguments Normal {A} a.
Arguments Throw {A} e.

Definition TypeError : string := "TypeError".

Definition JS (A : Type) : Type := World -> Completion A * World.

Definition ret {A} (a : A) : JS A := fun w => (Normal a, w).

Definition bind {A B} (m : JS A) (k : A -> JS B) : JS B :=
  fun w =>
    match m w with
    | (Normal a, w') => k a w'
    | (Throw e, w') => (Throw e, w')
    end.

Definition throw {A} (e : string) : JS A := fun w => (Throw e, w).

Definition gets {A} (f : World -> A) : JS A := fun w => (Normal (f w), w).

Definition modify (f : World -> World) : JS unit := fun w => (Normal tt, f w).

Declare Scope js_scope.
Delimit Scope js_scope with js.
Notation "'let*' x ':=' m 'in' k" := (bind m (fun x => k))
  (at level 10, x name, m at level 100, k at level 200) : js_scope.

(** The world in which an action leaves the program. *)
Definition exec {A} (m : JS A) (w : World) : World := snd (m w).

(** Completions without state, for the functions that only read. *)
Definition cbind {A B} (m : Completion A) (k : A -> Completion B) : Completion B :=
  match m with
  | Normal a => k a
  | Throw e => Throw e
  end.

Definition lift {A} (f : World -> Completion A) : JS A := fun w => (f w, w).

(** [arr[index]]: [None] is [undefined]. *)
Definition index_get {A} (arr : list A) (index : Z) : option A :=
  if (0 <=? index)%Z then arr !! Z.to_nat index else None.

(** [arr.filter(p)] where the callback may throw. *)
Fixpoint filterC {A} (p : A -> Completion bool) (l : list A) : Completion (list A) :=
  match l with
  | [] => Normal []
  | x :: rest =>
      cbind (p x) (fun keep =>
      cbind (filterC p rest) (fun rest' =>
      Normal (if keep then x :: rest' else rest')))
  end.

(** [arr.map(f)] / [arr.forEach(f)] for a callback in [JS]. *)
Fixpoint mapJS {A B} (f : A -> JS B) (l : list A) : JS (list B) :=
  match l with
  | [] => ret []
  | x :: rest =>
      (let* y := f x in
       let* ys := mapJS f rest in
       ret (y :: ys))%js
  end.

(** [arr.forEach(f)] for a callback in [JS]. *)
Fixpoint forEachJS {A} (f : A -> JS unit) (l : list A) : JS unit :=
  match l with
  | [] => ret tt
  | x :: rest => (let* _ := f x in forEachJS f rest)%js
  end.

(** [arr.filter((x, index) => p(x, index))], entered at position [index]. *)
Fixpoint filterIndexC {A} (p : A -> Z -> Completion bool) (l : list A) (index : Z)
  : Completion (list A) :=
  match l with
  | [] => Normal []
  | x :: rest =>
      cbind (p x index) (fun keep =>
      cbind (filterIndexC p rest (index + 1)%Z) (fun rest' =>
      Normal (if keep then x :: rest' else rest')))
  end.

(** [s.padStart(n, pad)] for a one-character [pad]. *)
Definition padStart (s : string) (n : nat) (pad : string) : string :=
  String.concat "" (replicate (n - String.length s) pad) +:+ s.

(** ** Spatial neighbour index *)

Definition getNeighbors (index : Z) : list Z :=
  let row := (index / CONFIG.COLS)%Z in
  let col := Z.rem index CONFIG.COLS in
  flat_map (fun dr : Z =>
    flat_map (fun dc : Z =>
      if ((dr =? 0) && (dc =? 0))%Z then []
      else
        let newRow := (row + dr)%Z in
        let newCol := (col + dc)%Z in
        if ((0 <=? newRow) && (newRow <? CONFIG.ROWS) &&
            (0 <=? newCol) && (newCol <? CONFIG.COLS))%Z
        then [(newRow * CONFIG.COLS + newCol)%Z]
        else [])
      [-1; 0; 1]%Z)
    [-1; 0; 1]%Z.

(** ** Thermal cluster detection *)

Definition isHot (data : list BatteryCell) (n : Z) : Completion bool :=
  match index_get data n with
  | None => Throw TypeError
  | Some cell => Normal (Qle_bool CONFIG.TEMP_THRESHOLDS.ELEVATED_MAX (temperature cell))
  end.

Definition isThermalCluster (data : list BatteryCell) (index : Z) : Completion bool :=
  match index_get data index with
  | None => Throw TypeError
  | Some cell =>
      if Qlt_bool (temperature cell) CONFIG.TEMP_THRESHOLDS.ELEVATED_MAX then Normal false
      else
        let neighbors := getNeighbors index in
        cbind (filterC (isHot data) neighbors) (fun hotNeighbors =>
        Normal (2 <=? length hotNeighbors)%nat)
  end.

(** ** The [BatteryCell] methods that only read *)

Definition getTempClass (this : BatteryCell) : string :=
  if Qlt_bool (temperature this) CONFIG.TEMP_THRESHOLDS.COOL_MAX then "temp-cool"
  else if Qlt_bool (temperature this) CONFIG.TEMP_THRESHOLDS.NORMAL_MAX then "temp-normal"
  else if Qlt_bool (temperature this) CONFIG.TEMP_THRESHOLDS.ELEVATED_MAX then "temp-elevated"
  else if Qlt_bool (temperature this) CONFIG.TEMP_THRESHOLDS.WARNING_MAX then "temp-warning"
  else "temp-critical".

(** ** Anomaly detection: the per-cell pass *)

(** [batteryData.reduce((sum, cell) => sum + cell.voltage, 0) / batteryData.length].
    On an empty pack JavaScript yields [NaN]; both callers then never use
    the value (no iteration, respectively a throw on the cell write), so
    the quotient is taken in [Q].  Sum and quotient are exact here, while
    the program rounds after every addition and after the division. *)
Definition avgVoltageOf (data : list BatteryCell) : Q :=
  fold_left (fun sum cell => sum + voltage cell) data 0
  / inject_Z (Z.of_nat (length data)).

(** [Math.abs(cell.voltage - avgVoltage) / avgVoltage] *)
Definition voltageDeviation (avgVoltage : Q) (cell : BatteryCell) : JSNum :=
  js_div (Qabs (voltage cell - avgVoltage)) avgVoltage.

(** The body of the [forEach] callback of [detectAnomalies]. *)
Definition detectCell (avgVoltage : Q) (cell : BatteryCell) : BatteryCell :=
  let cell := set_anomalyStatus NORMAL cell in
  let cell :=
    if Qlt_bool CONFIG.TEMP_THRESHOLDS.CRITICAL (temperature cell)
    then set_anomalyStatus CRITICAL cell
    else if Qlt_bool CONFIG.TEMP_THRESHOLDS.WARNING_MAX (temperature cell)
    then set_anomalyStatus WARNING cell
    else cell in
  let cell :=
    if js_gt (voltageDeviation avgVoltage cell) CONFIG.VOLTAGE_DEVIATION
    then (if decide (anomalyStatus cell = NORMAL)
          then set_anomalyStatus WARNING cell
          else cell)
    else cell in
  let cell :=
    if Qlt_bool (soh cell) CONFIG.SOH_CRITICAL
    then set_anomalyStatus CRITICAL cell
    else cell in
  cell.

(** ** Status banner *)

Definition updateAnomalyStatus : JS unit :=
  (let* data := gets batteryData in
   let criticalCells := filter (fun cell => anomalyStatus cell = CRITICAL) data in
   let warningCells := filter (fun cell => anomalyStatus cell = WARNING) data in
   let* clusterCells :=
     lift (fun _ => filterIndexC (fun _ index => isThermalCluster data index) data 0) in
   let* _ := modify (fun w =>
     set_statusBanner (mkBanner ["anomaly-status"] (textContent (statusBanner w))) w) in
   if (0 <? length criticalCells)%nat then
     if (3 <=? length clusterCells)%nat then
       modify (set_statusBanner
                 (mkBanner ["anomaly-status"; "critical"] "THERMAL CLUSTER DETECTED"))
     else
       modify (set_statusBanner (mkBanner ["anomaly-status"; "critical"] "CRITICAL"))
   else if (0 <? length warningCells)%nat then
     modify (set_statusBanner (mkBanner ["anomaly-status"; "warning"] "WARNING"))
   else
     modify (set_statusBanner (mkBanner ["anomaly-status"] "NORMAL")))%js.

Definition detectAnomalies : JS unit :=
  (let* data := gets batteryData in
   let avgVoltage := avgVoltageOf data in
   let* _ := modify (set_batteryData (map (detectCell avgVoltage) data)) in
   updateAnomalyStatus)%js.

(** ** The part of the engine that draws random numbers or reads the clock *)

Section Engine.

(** [rand n] is the value of the [n]-th call of [Math.random()],
    [localeTime n] the string of the [n]-th [new Date().toLocaleTimeString()]. *)
Variable rand : nat -> Q.
Variable localeTime : nat -> string.

Definition Math_random : JS Q :=
  fun w =>
    (Normal (rand (randomCalls w)),
     mkWorld (batteryData w) (tempHistory w) (statusBanner w) (gridClasses w)
             (S (randomCalls w)) (dateReads w)).

Definition Date_toLocaleTimeString : JS string :=
  fun w =>
    (Normal (localeTime (dateReads w)),
     mkWorld (batteryData w) (tempHistory w) (statusBanner w) (gridClasses w)
             (randomCalls w) (S (dateReads w))).

(** *** class BatteryCell *)

Definition randomInRange (min max : Q) : JS Q :=
  (let* r := Math_random in
   ret (r * (max - min) + min))%js.

Definition BatteryCell_new (id : string) (row col : Z) : JS BatteryCell :=
  (let* temperature := randomInRange 25 35 in
   let* voltage := randomInRange 3.6 3.8 in
   let* current := randomInRange (-5) 20 in
   let* soc := randomInRange 60 100 in
   let* soh := randomInRange 80 100 in
   let* resistance := randomInRange 1 5 in
   let* cycles := randomInRange 200 1200 in
   ret (mkCell id row col temperature voltage current soc soh resistance
               (Qfloor cycles) NORMAL))%js.

(** The four perturbations are added exactly; the clamps compare and copy,
    which no rounding affects. *)
Definition update (this : BatteryCell) : JS BatteryCell :=
  (let* r1 := Math_random in
   let this := set_temperature (temperature this + (r1 - 0.5) * 0.5) this in
   let* r2 := Math_random in
   let this := set_voltage (voltage this + (r2 - 0.5) * 0.01) this in
   let* r3 := Math_random in
   let this := set_current (current this + (r3 - 0.5) * 2) this in
   let* r4 := Math_random in
   let this := set_soc (soc this + (r4 - 0.5) * 0.5) this in
   let this := set_temperature (Qmax 20 (Qmin 60 (temperature this))) this in
   let this := set_voltage (Qmax 3.0 (Qmin 4.2 (voltage this))) this in
   let this := set_soc (Qmax 0 (Qmin 100 (soc this))) this in
   ret this)%js.

(** *** generateBatteryData *)

Definition cellName (cellId : nat) : string :=
  "CELL-" +:+ padStart (pretty cellId) 3 "0".

Fixpoint forCols (row : Z) (cols : list Z) (cellId : nat) : JS nat :=
  match cols with
  | [] => ret cellId
  | col :: rest =>
      (let* cell := BatteryCell_new (cellName cellId) row col in
       let* _ := modify (fun w => set_batteryData (batteryData w ++ [cell]) w) in
       forCols row rest (S cellId))%js
  end.

Fixpoint forRows (rows : list Z) (cellId : nat) : JS nat :=
  match rows with
  | [] => ret cellId
  | row :: rest =>
      (let* cellId := forCols row (seqZ 0 CONFIG.COLS) cellId in
       forRows rest cellId)%js
  end.

Definition generateBatteryData : JS unit :=
  (let* _ := modify (set_batteryData []) in
   let* _ := forRows (seqZ 0 CONFIG.ROWS) 1%nat in
   ret tt)%js.

(** *** renderBatteryGrid: one element per cell *)

Definition renderBatteryGrid : JS unit :=
  modify (fun w =>
    set_gridClasses (map (fun cell => ["battery-cell"; getTempClass cell]) (batteryData w)) w).

(** *** updateMetrics *)

(** The object pushed on [tempHistory].  [Math.max] and [Math.min] return
    one of their arguments; the mean is the exact one, which the rounded
    sum of the program can miss by a few units in the last place. *)
Definition metricsSample (data : list BatteryCell) (time : string) : Sample.t :=
  let temps := map temperature data in
  let avgTemp := js_div (sumQ temps) (inject_Z (Z.of_nat (length temps))) in
  let maxTemp := Math_max temps in
  let minTemp := Math_min temps in
  Sample.mk time avgTemp maxTemp minTemp.

Definition updateMetrics : JS unit :=
  (let* data := gets batteryData in
   let* time := Date_toLocaleTimeString in
   let* _ := modify (fun w =>
     set_tempHistory (tempHistory w ++ [metricsSample data time]) w) in
   let* history := gets tempHistory in
   if (20 <? length history)%nat
   then modify (fun w => set_tempHistory (tail (tempHistory w)) w)
   else ret tt)%js.

(** *** updateBatteryGrid *)

Definition updateCellElement (index : nat) : JS unit :=
  (let* data := gets batteryData in
   let* _ := modify (fun w =>
     set_gridClasses (<[index := ["battery-cell"]]> (gridClasses w)) w) in
   match data !! index with
   | None => throw TypeError
   | Some cell =>
       let* _ := modify (fun w =>
         set_gridClasses (alter (fun cl => cl ++ [getTempClass cell]) index (gridClasses w)) w) in
       let* cluster := lift (fun _ => isThermalCluster data (Z.of_nat index)) in
       if cluster
       then modify (fun w =>
         set_gridClasses (alter (fun cl => cl ++ ["thermal-cluster"]) index (gridClasses w)) w)
       else ret tt
   end)%js.

Definition updateBatteryGrid : JS unit :=
  (let* cells := gets gridClasses in
   let* _ := forEachJS updateCellElement (seq 0 (length cells)) in
   updateMetrics)%js.

(** *** simulateFault *)

(** [batteryData[index].temperature = t]; the value [t] has been computed. *)
Definition assignTemperature (index : Z) (t : Q) : JS unit :=
  (let* data := gets batteryData in
   match index_get data index with
   | None => throw TypeError
   | Some _ => modify (set_batteryData (alter (set_temperature t) (Z.to_nat index) data))
   end)%js.

Definition assignVoltage (index : Z) (v : Q) : JS unit :=
  (let* data := gets batteryData in
   match index_get data index with
   | None => throw TypeError
   | Some _ => modify (set_batteryData (alter (set_voltage v) (Z.to_nat index) data))
   end)%js.

(** [Math.floor(Math.random() * batteryData.length)].  The product is exact
    here; the rounded product of the program can reach the next integer,
    so for some draws the program selects the cell after this one. *)
Definition randomCellIndex : JS Z :=
  (let* r := Math_random in
   let* data := gets batteryData in
   ret (Qfloor (r * inject_Z (Z.of_nat (length data)))))%js.

(** The callback of the loop over the first neighbours of the cluster
    fault.  For a draw just below 1 the rounded sum of the program is
    exactly 50. *)
Definition heatNeighbor (n : Z) : JS unit :=
  (let* r := Math_random in
   assignTemperature n (CONFIG.TEMP_THRESHOLDS.ELEVATED_MAX + r * 5))%js.

(** The values written are exact: the rounded hotspot temperature of the
    program ranges over [55, 65] with both ends, and its voltage factor
    [1 + 0.1 + 0.05] is the double next above 1.15. *)
Definition simulateFault : JS unit :=
  (let* faultType := Math_random in
   if Qlt_bool faultType 0.33 then
     let* randomIndex := randomCellIndex in
     let* r := Math_random in
     assignTemperature randomIndex (CONFIG.TEMP_THRESHOLDS.CRITICAL + r * 10)
   else if Qlt_bool faultType 0.66 then
     let* centerIndex := randomCellIndex in
     let neighbors := getNeighbors centerIndex in
     let* r := Math_random in
     let* _ := assignTemperature centerIndex (CONFIG.TEMP_THRESHOLDS.ELEVATED_MAX + r * 5) in
     forEachJS heatNeighbor (take 3 neighbors)
   else
     let* randomIndex := randomCellIndex in
     let* data := gets batteryData in
     let avgVoltage := avgVoltageOf data in
     assignVoltage randomIndex (avgVoltage * (1 + CONFIG.VOLTAGE_DEVIATION + 0.05)))%js.

(** *** The event handlers *)

(** The callback of [startUpdateLoop].  Its last call, [updateCharts], only
    copies [tempHistory] and a histogram of [soh] into the chart objects and
    writes no global of the model; see [updateCharts] below. *)
Definition tick : JS unit :=
  (let* data := gets batteryData in
   let* data' := mapJS update data in
   let* _ := modify (set_batteryData data') in
   let* _ := detectAnomalies in
   updateBatteryGrid)%js.

(** The callback of [startFaultSimulation]. *)
Definition faultOpportunity : JS unit :=
  (let* r := Math_random in
   if Qlt_bool 0.7 r then simulateFault else ret tt)%js.

Definition manualFaultSimulation : JS unit :=
  (let* _ := simulateFault in
   let* _ := updateBatteryGrid in
   detectAnomalies)%js.

(** [initialize] up to the first render. *)
Definition initialize : JS unit :=
  (let* _ := generateBatteryData in
   renderBatteryGrid)%js.

(** [n] ticks in a row; a tick that throws ends its handler only. *)
Fixpoint ticks (n : nat) (w : World) : World :=
  match n with
  | O => w
  | S k => exec tick (ticks k w)
  end.

End Engine.

Definition emptyWorld : World :=
  mkWorld [] [] (mkBanner [] "") [] 0 0.

(** ** Vocabulary of the statements *)

(** The 8x12 grid coordinates of a linear index. *)
Definition rowOf (i : Z) : Z := (i / 12)%Z.
Definition colOf (i : Z) : Z := (i mod 12)%Z.

Definition onRowBorder (i : Z) : Prop := rowOf i = 0%Z \/ rowOf i = 7%Z.
Definition onColBorder (i : Z) : Prop := colOf i = 0%Z \/ colOf i = 11%Z.

(** [n] is a cell of the grid next to cell [i], diagonals included. *)
Definition adjacent (i n : Z) : Prop :=
  (0 <= n < 96)%Z /\ n <> i /\
  (Z.abs (rowOf n - rowOf i) <= 1)%Z /\ (Z.abs (colOf n - colOf i) <= 1)%Z.

Definition adjacentb (i n : Z) : bool :=
  ((0 <=? n) && (n <? 96) && negb (n =? i) &&
   (Z.abs (rowOf n - rowOf i) <=? 1) && (Z.abs (colOf n - colOf i) <=? 1))%Z.

(** The cell at index [k] exists and is at or above [threshold]. *)
Definition atLeast (threshold : Q) (data : list BatteryCell) (k : Z) : Prop :=
  exists c, index_get data k = Some c /\ threshold <= temperature c.

(** [isThermalCluster] answered [true]. *)
Definition clusterMember (data : list BatteryCell) (index : Z) : bool :=
  match isThermalCluster data index with
  | Normal true => true
  | _ => false
  end.

(** Number of cluster members among the indices of the pack. *)
Definition clusterCount (data : list BatteryCell) : nat :=
  length (List.filter (clusterMember data) (seqZ 0 (Z.of_nat (length data)))).

Definition inBounds (c : BatteryCell) : Prop :=
  (20 <= temperature c /\ temperature c <= 60) /\
  (3.0 <= voltage c /\ voltage c <= 4.2) /\
  (0 <= soc c /\ soc c <= 100).

(** The last [n] entries of a list, oldest first. *)
Definition lastn {A} (n : nat) (l : list A) : list A := drop (length l - n) l.

Definition unitDraws (rand : nat -> Q) : Prop := forall n, 0 <= rand n /\ rand n < 1.

(** The margin left in numeric bounds for the rounding of the double
    operations.  The cell values stay below 2^10 and a sum has at most 96
    terms, so a computed cell value or mean lies within 10^-12 of the exact
    one. *)
Definition roundoff : Q := 1 # 1000000000.


(** The samples pushed by the first [n] ticks started in [w], oldest first. *)
Definition tickSamples (rand : nat -> Q) (localeTime : nat -> string)
    (n : nat) (w : World) : list Sample.t :=
  map (fun k =>
         metricsSample (batteryData (ticks rand localeTime (S k) w))
                       (localeTime (dateReads (ticks rand localeTime k w))))
      (seq 0 n).

(** Boolean census of one index: the neighbour count of its position, the
    range of the neighbours, their distinctness and their agreement with
    [adjacentb]. *)
Definition censusb (i : Z) : bool :=
  let rb := ((rowOf i =? 0) || (rowOf i =? 7))%Z in
  let cb := ((colOf i =? 0) || (colOf i =? 11))%Z in
  let ns := getNeighbors i in
  (length ns =? (if rb && cb then 3 else if rb || cb then 5 else 8))%nat
  && forallb (fun n => (0 <=? n) && (n <? 96) && negb (n =? i))%Z ns
  && bool_decide (NoDup ns)
  && forallb (fun n : Z => Bool.eqb (bool_decide (n ∈ ns)) (adjacentb i n)) (seqZ 0 96).

(** The cell at [n] exists and is at or above [ELEVATED_MAX]. *)
Definition hotAt (data : list BatteryCell) (n : Z) : bool :=
  match index_get data n with
  | Some cell => Qle_bool CONFIG.TEMP_THRESHOLDS.ELEVATED_MAX (temperature cell)
  | None => false
  end.

(** The status a detection pass leaves on a cell, read off [detectCell]. *)
Definition verdict (avgVoltage : Q) (cell : BatteryCell) : AnomalyStatus :=
  if Qlt_bool (soh cell) CONFIG.SOH_CRITICAL then CRITICAL
  else if Qlt_bool CONFIG.TEMP_THRESHOLDS.CRITICAL (temperature cell) then CRITICAL
  else if js_gt (voltageDeviation avgVoltage cell) CONFIG.VOLTAGE_DEVIATION then WARNING
  else NORMAL.

(** ** Sample data for the concrete instances *)

Definition uniformCell (t : Q) : BatteryCell :=
  mkCell "CELL-000" 0 0 t 4 0 80 90 3 700 NORMAL.
Definition uniformPack (t : Q) : list BatteryCell := replicate 96 (uniformCell t).
Definition worldOf (data : list BatteryCell) : World :=
  mkWorld data [] (mkBanner [] "") (replicate (length data) []) 0 0.

(** [k] more calls of [Math.random()] have been made. *)
Definition advance (k : nat) (w : World) : World :=
  mkWorld (batteryData w) (tempHistory w) (statusBanner w) (gridClasses w)
          (k + randomCalls w) (dateReads w).

(** A pack at 30 degrees whose first cell sits exactly on the 55-degree
    threshold, and one whose first cell has soh 65 at 25 degrees. *)
Definition boundaryPack : list BatteryCell := <[0%nat := uniformCell 55]> (uniformPack 30).
Definition weakCell : BatteryCell := mkCell "CELL-001" 0 0 25 4 0 80 65 3 700 NORMAL.
Definition weakPack : list BatteryCell := <[0%nat := weakCell]> (uniformPack 30).

(** The ranges in which the constructor draws the fields of a new cell. *)
Definition freshRanges (c : BatteryCell) : Prop :=
  (25 <= temperature c /\ temperature c < 35) /\
  (3.6 <= voltage c /\ voltage c < 3.8) /\
  (-5 <= current c /\ current c < 20) /\
  (60 <= soc c /\ soc c < 100) /\
  (80 <= soh c /\ soh c < 100) /\
  (1 <= resistance c /\ resistance c < 5) /\
  (200 <= cycles c < 1200)%Z.

(** What the constructor call for ordinal [n] at grid position [(r, k)]
    leaves in the pack. *)
Definition created (rand : nat -> Q) (n : nat) (r k : Z) (c : BatteryCell) : Prop :=
  id c = cellName n /\ row c = r /\ col c = k /\ anomalyStatus c = NORMAL /\
  (unitDraws rand -> freshRanges c).

(** ** Frame conditions *)

(** Every run of [m] relates the world before to the world after by [R],
    whether [m] completes or throws. *)
Definition Preserves (R : World -> World -> Prop) {A} (m : JS A) : Prop :=
  forall w, R w (snd (m w)).

(** Two cells that differ at most in temperature and voltage. *)
Definition sameButHeatAndVoltage (c c' : BatteryCell) : Prop :=
  id c' = id c /\ row c' = row c /\ col c' = col c /\ current c' = current c /\
  soc c' = soc c /\ soh c' = soh c /\ resistance c' = resistance c /\
  cycles c' = cycles c /\ anomalyStatus c' = anomalyStatus c.

(** The pack is the same. *)
Definition keepsPack (w w' : World) : Prop := batteryData w' = batteryData w.

(** What a fault may change: temperatures and voltages, and the draw counter. *)
Definition faultFrame (w w' : World) : Prop :=
  Forall2 sameButHeatAndVoltage (batteryData w) (batteryData w') /\
  tempHistory w' = tempHistory w /\ statusBanner w' = statusBanner w /\
  gridClasses w' = gridClasses w /\ dateReads w' = dateReads w.

(** The sum of the voltages of a pack. *)
Definition voltageSum (d : list BatteryCell) : Q :=
  fold_right (fun c s => voltage c + s) 0 d.

(** The cells struck by a thermal-cluster fault centred at [index]. *)
Definition clusterSeed (index : Z) : list Z := index :: take 3 (getNeighbors index).

(** [j] is struck and so are at least two of its neighbours. *)
Definition seedMember (index j : Z) : bool :=
  bool_decide (j ∈ clusterSeed index)
  && (2 <=? length (List.filter (fun n => bool_decide (n ∈ clusterSeed index))
                                (getNeighbors j)))%nat.

(** How many cells become seed members when the fault is centred at [index]. *)
Definition seedCount (index : Z) : nat :=
  length (List.filter (seedMember index) (seqZ 0 96)).

(** ** updateCharts *)

(** The body of the [forEach] callback that fills [sohCounts]:
    [sohCounts[k]++] for the bucket [k] of the cell. *)
Definition countSoh (sohCounts : list nat) (cell : BatteryCell) : list nat :=
  let soh := soh cell in
  if Qlt_bool soh 75 then alter S 0%nat sohCounts
  else if Qlt_bool soh 80 then alter S 1%nat sohCounts
  else if Qlt_bool soh 85 then alter S 2%nat sohCounts
  else if Qlt_bool soh 90 then alter S 3%nat sohCounts
  else if Qlt_bool soh 95 then alter S 4%nat sohCounts
  else alter S 5%nat sohCounts.

Definition sohCountsOf (data : list BatteryCell) : list nat :=
  fold_left countSoh data [0; 0; 0; 0; 0; 0]%nat.

(** What [updateCharts] assigns to the two charts: the labels and the two
    data sets of the temperature chart, and the data set of the soh chart. *)
Record ChartData : Type := mkChartData {
  labels : list string;
  avgData : list JSNum;
  maxData : list JSNum;
  sohData : list nat
}.

Definition updateCharts (w : World) : ChartData :=
  let labels := map Sample.time (tempHistory w) in
  let avgData := map Sample.avg (tempHistory w) in
  let maxData := map Sample.max (tempHistory w) in
  let sohCounts := sohCountsOf (batteryData w) in
  mkChartData labels avgData maxData sohCounts.

(** Number of cells whose soh lies in [lo, hi). *)
Definition sohBetween (lo hi : Q) (data : list BatteryCell) : nat :=
  length (List.filter (fun c => Qle_bool lo (soh c) && Qlt_bool (soh c) hi) data).

Definition sohBelow (hi : Q) (data : list BatteryCell) : nat :=
  length (List.filter (fun c => Qlt_bool (soh c) hi) data).

Definition sohFrom (lo : Q) (data : list BatteryCell) : nat :=
  length (List.filter (fun c => Qle_bool lo (soh c)) data).

(** The class list [updateBatteryGrid] gives the element of cell [index]. *)
Definition cellClasses (data : list BatteryCell) (index : nat) (cell : BatteryCell)
  : list string :=
  ["battery-cell"; getTempClass cell]
  ++ (if clusterMember data (Z.of_nat index) then ["thermal-cluster"] else []).

(** * Verification *)

Section BasicFacts.

Lemma Qlt_bool_iff (x y : Q) : Qlt_bool x y = true <-> x < y.
Proof.
  unfold Qlt_bool. rewrite negb_true_iff.
  split; intros H.
  - apply Qnot_le_lt. intros Hle. apply Qle_bool_iff in Hle. congruence.
  - destruct (Qle_bool y x) eqn:E; [|reflexivity].
    apply Qle_bool_iff in E. exfalso. apply (Qlt_not_le _ _ H E).
Qed.

Lemma Qlt_bool_false_iff (x y : Q) : Qlt_bool x y = false <-> y <= x.
Proof.
  unfold Qlt_bool. rewrite negb_false_iff. apply Qle_bool_iff.
Qed.

Lemma index_get_Some {A} (l : list A) (i : Z) (x : A) :
  index_get l i = Some x <-> (0 <= i)%Z /\ l !! Z.to_nat i = Some x.
Proof.
  unfold index_get. destruct (0 <=? i)%Z eqn:E.
  - apply Z.leb_le in E. tauto.
  - apply Z.leb_gt in E. split; [discriminate | lia].
Qed.

Lemma index_get_in_range {A} (l : list A) (i : Z) :
  (0 <= i < Z.of_nat (length l))%Z -> exists x, index_get l i = Some x.
Proof.
  intros [H0 H1]. destruct (lookup_lt_is_Some_2 l (Z.to_nat i)) as [x Hx]; [lia|].
  exists x. apply index_get_Some. auto.
Qed.

Lemma index_get_of_nat {A} (l : list A) (i : nat) :
  index_get l (Z.of_nat i) = l !! i.
Proof.
  unfold index_get. destruct (0 <=? Z.of_nat i)%Z eqn:E.
  - by rewrite Nat2Z.id.
  - apply Z.leb_gt in E. lia.
Qed.

End BasicFacts.

Section Neighbours.

Lemma census_all : forallb censusb (seqZ 0 96) = true.
Proof. vm_compute. reflexivity. Qed.

Lemma census_at (i : Z) : (0 <= i < 96)%Z -> censusb i = true.
Proof.
  intros Hi. pose proof census_all as H.
  rewrite forallb_forall in H. apply H.
  apply list_elem_of_In, elem_of_seqZ. lia.
Qed.

Lemma getNeighbors_in_range (i n : Z) :
  (0 <= i < 96)%Z -> n ∈ getNeighbors i -> (0 <= n < 96)%Z /\ n <> i.
Proof.
  intros Hi Hn. pose proof (census_at i Hi) as H. unfold censusb in H.
  repeat (apply andb_prop in H; destruct H as [H ?]).
  match goal with H' : forallb _ (getNeighbors i) = true |- _ =>
    rewrite forallb_forall in H'; apply list_elem_of_In in Hn; specialize (H' n Hn) end.
  repeat match goal with H' : _ && _ = true |- _ => apply andb_prop in H'; destruct H' end.
  match goal with H' : negb _ = true |- _ => apply negb_true_iff, Z.eqb_neq in H' end.
  lia.
Qed.

Lemma getNeighbors_NoDup (i : Z) : (0 <= i < 96)%Z -> NoDup (getNeighbors i).
Proof.
  intros Hi. pose proof (census_at i Hi) as H. unfold censusb in H.
  repeat (apply andb_prop in H; destruct H as [H ?]).
  match goal with H' : bool_decide _ = true |- _ => exact (bool_decide_eq_true_1 _ H') end.
Qed.

Lemma adjacentb_spec (i n : Z) : adjacentb i n = true <-> adjacent i n.
Proof.
  unfold adjacentb, adjacent. rewrite !andb_true_iff, negb_true_iff.
  rewrite Z.eqb_neq, !Z.leb_le, Z.ltb_lt. tauto.
Qed.

Lemma getNeighbors_adjacent (i n : Z) :
  (0 <= i < 96)%Z -> n ∈ getNeighbors i <-> adjacent i n.
Proof.
  intros Hi. split.
  - intros Hn. destruct (getNeighbors_in_range i n Hi Hn) as [Hr _].
    pose proof (census_at i Hi) as H. unfold censusb in H.
    apply andb_prop in H. destruct H as [_ H].
    rewrite forallb_forall in H.
    assert (Hin : In n (seqZ 0 96)) by (apply list_elem_of_In, elem_of_seqZ; lia).
    specialize (H n Hin). apply Bool.eqb_prop in H.
    apply adjacentb_spec. rewrite <- H. by apply bool_decide_eq_true_2.
  - intros Ha. pose proof Ha as [Hr _].
    pose proof (census_at i Hi) as H. unfold censusb in H.
    apply andb_prop in H. destruct H as [_ H].
    rewrite forallb_forall in H.
    assert (Hin : In n (seqZ 0 96)) by (apply list_elem_of_In, elem_of_seqZ; lia).
    specialize (H n Hin). apply Bool.eqb_prop in H.
    apply adjacentb_spec in Ha. rewrite <- H in Ha.
    exact (bool_decide_eq_true_1 _ Ha).
Qed.

Lemma bool_decide_bool (P : Prop) `{Decision P} (b : bool) :
  (P <-> b = true) -> bool_decide P = b.
Proof.
  intros HP. destruct b.
  - apply bool_decide_eq_true_2. tauto.
  - apply bool_decide_eq_false_2. intros HP'. apply HP in HP'. discriminate.
Qed.

Lemma getNeighbors_length (i : Z) :
  (0 <= i < 96)%Z ->
  length (getNeighbors i) =
    if bool_decide (onRowBorder i) && bool_decide (onColBorder i) then 3%nat
    else if bool_decide (onRowBorder i) || bool_decide (onColBorder i) then 5%nat
    else 8%nat.
Proof.
  intros Hi. pose proof (census_at i Hi) as H. unfold censusb in H.
  repeat (apply andb_prop in H; destruct H as [H ?]).
  apply Nat.eqb_eq in H. rewrite H.
  assert (Hr : bool_decide (onRowBorder i) = ((rowOf i =? 0) || (rowOf i =? 7))%Z).
  { apply bool_decide_bool. unfold onRowBorder.
    rewrite orb_true_iff, !Z.eqb_eq. tauto. }
  assert (Hc : bool_decide (onColBorder i) = ((colOf i =? 0) || (colOf i =? 11))%Z).
  { apply bool_decide_bool. unfold onColBorder.
    rewrite orb_true_iff, !Z.eqb_eq. tauto. }
  rewrite Hr, Hc. reflexivity.
Qed.

(** C8: on the 8x12 grid [getNeighbors] returns 3 indices at the four
    corners, 5 on a border outside the corners and 8 in the interior; every
    returned index is a cell of the grid other than the argument. *)
Theorem getNeighbors_census (i : Z) :
  (0 <= i < 96)%Z ->
  (onRowBorder i /\ onColBorder i -> length (getNeighbors i) = 3%nat) /\
  ((onRowBorder i /\ ~ onColBorder i) \/ (~ onRowBorder i /\ onColBorder i) ->
     length (getNeighbors i) = 5%nat) /\
  (~ onRowBorder i /\ ~ onColBorder i -> length (getNeighbors i) = 8%nat) /\
  (forall n, n ∈ getNeighbors i -> (0 <= n < 96)%Z /\ n <> i) /\
  (onRowBorder i /\ onColBorder i <-> i = 0%Z \/ i = 11%Z \/ i = 84%Z \/ i = 95%Z).
Proof.
  intros Hi. pose proof (getNeighbors_length i Hi) as HL.
  split; [|split; [|split; [|split; [|split]]]].
  - intros [Hr Hc]. rewrite HL.
    by rewrite (bool_decide_eq_true_2 _ Hr), (bool_decide_eq_true_2 _ Hc).
  - intros [[Hr Hc] | [Hr Hc]]; rewrite HL.
    + by rewrite (bool_decide_eq_true_2 _ Hr), (bool_decide_eq_false_2 _ Hc).
    + by rewrite (bool_decide_eq_false_2 _ Hr), (bool_decide_eq_true_2 _ Hc).
  - intros [Hr Hc]. rewrite HL.
    by rewrite (bool_decide_eq_false_2 _ Hr), (bool_decide_eq_false_2 _ Hc).
  - intros n Hn. eapply getNeighbors_in_range; eauto.
  - unfold onRowBorder, onColBorder, rowOf, colOf. intros [Hr Hc].
    pose proof (Z.div_mod i 12 ltac:(lia)). lia.
  - unfold onRowBorder, onColBorder, rowOf, colOf.
    intros [-> | [-> | [-> | ->]]]; vm_compute; intuition congruence.
Qed.

Lemma getNeighbors_census_witness :
  length (getNeighbors 0) = 3%nat /\ length (getNeighbors 5) = 5%nat /\
  length (getNeighbors 13) = 8%nat.
Proof.
  destruct (getNeighbors_census 0 ltac:(lia)) as (H3 & _).
  destruct (getNeighbors_census 5 ltac:(lia)) as (_ & H5 & _).
  destruct (getNeighbors_census 13 ltac:(lia)) as (_ & _ & H8 & _).
  split; [|split].
  - apply H3. split; [left|left]; reflexivity.
  - apply H5. left. split; [left; reflexivity|].
    intros [H|H]; vm_compute in H; discriminate.
  - apply H8. split; intros [H|H]; vm_compute in H; discriminate.
Defined.
End Neighbours.

Section ThermalCluster.

Lemma filterC_isHot (data : list BatteryCell) (l : list Z) :
  (forall n, n ∈ l -> (0 <= n < Z.of_nat (length data))%Z) ->
  filterC (isHot data) l = Normal (List.filter (hotAt data) l).
Proof.
  induction l as [|n l IH]; intros Hl; [reflexivity|].
  simpl. unfold isHot at 1, hotAt at 1.
  destruct (index_get_in_range data n) as [c Hc]; [apply Hl; left|].
  rewrite Hc. simpl. rewrite IH; [|intros m Hm; apply Hl; by right].
  simpl. by destruct (Qle_bool _ _).
Qed.

Lemma two_in_filter {A} (p : A -> bool) (l : list A) :
  NoDup l ->
  (2 <= length (List.filter p l))%nat <->
  exists x y, x <> y /\ x ∈ l /\ y ∈ l /\ p x = true /\ p y = true.
Proof.
  intros Hnd. split.
  - intros Hlen.
    assert (Hnd' : NoDup (List.filter p l)).
    { apply NoDup_ListNoDup, List.NoDup_filter, NoDup_ListNoDup, Hnd. }
    destruct (List.filter p l) as [|x [|y r]] eqn:E; simpl in Hlen; try lia.
    assert (Hx : In x (List.filter p l)) by (rewrite E; left; reflexivity).
    assert (Hy : In y (List.filter p l)) by (rewrite E; right; left; reflexivity).
    apply filter_In in Hx, Hy. destruct Hx as [Hx Hpx], Hy as [Hy Hpy].
    exists x, y. repeat split; try (by apply list_elem_of_In); auto.
    intros ->. apply NoDup_cons in Hnd'. destruct Hnd' as [Hn _].
    apply Hn. left.
  - intros (x & y & Hxy & Hx & Hy & Hpx & Hpy).
    assert (Hx' : In x (List.filter p l)) by (apply filter_In; split; [by apply list_elem_of_In|done]).
    assert (Hy' : In y (List.filter p l)) by (apply filter_In; split; [by apply list_elem_of_In|done]).
    destruct (List.filter p l) as [|a [|b r]]; simpl in *; try lia; try tauto.
    destruct Hx' as [<-|[]], Hy' as [<-|[]]. congruence.
Qed.

Lemma hotAt_spec (data : list BatteryCell) (n : Z) :
  hotAt data n = true <-> atLeast CONFIG.TEMP_THRESHOLDS.ELEVATED_MAX data n.
Proof.
  unfold hotAt, atLeast. destruct (index_get data n) as [c|].
  - rewrite Qle_bool_iff. split; [eauto|]. intros (c' & [= <-] & H). exact H.
  - split; [discriminate|]. intros (c' & [=] & _).
Qed.

Lemma isThermalCluster_total (data : list BatteryCell) (i : Z) :
  length data = 96%nat -> (0 <= i < 96)%Z ->
  isThermalCluster data i =
    Normal (hotAt data i && (2 <=? length (List.filter (hotAt data) (getNeighbors i)))%nat).
Proof.
  intros Hlen Hi. unfold isThermalCluster, hotAt at 1.
  destruct (index_get_in_range data i) as [c Hc]; [lia|]. rewrite Hc.
  destruct (Qlt_bool (temperature c) _) eqn:E.
  - apply Qlt_bool_iff in E.
    destruct (Qle_bool _ (temperature c)) eqn:E'; [|reflexivity].
    apply Qle_bool_iff in E'. exfalso. apply (Qlt_not_le _ _ E E').
  - apply Qlt_bool_false_iff in E. apply Qle_bool_iff in E. rewrite E.
    rewrite filterC_isHot; [reflexivity|].
    intros n Hn. apply getNeighbors_in_range in Hn; lia.
Qed.

(** C2 (amended): on a 96-cell pack [isThermalCluster index] is [true]
    exactly when the cell is at or above 45 degrees ([ELEVATED_MAX]) and two
    distinct grid neighbours are at or above 45 degrees as well; it always
    answers, and a cell below 45 degrees is never a member. *)
Theorem isThermalCluster_spec (data : list BatteryCell) (i : Z) :
  length data = 96%nat -> (0 <= i < 96)%Z ->
  (isThermalCluster data i = Normal true <->
     atLeast 45 data i /\
     exists n1 n2, n1 <> n2 /\ adjacent i n1 /\ adjacent i n2 /\
                   atLeast 45 data n1 /\ atLeast 45 data n2) /\
  (isThermalCluster data i = Normal true \/ isThermalCluster data i = Normal false) /\
  (forall c, index_get data i = Some c -> temperature c < 45 ->
     isThermalCluster data i = Normal false).
Proof.
  intros Hlen Hi. rewrite (isThermalCluster_total data i Hlen Hi).
  split; [|split].
  - split.
    + intros H0.
      assert (H : hotAt data i
                  && (2 <=? length (List.filter (hotAt data) (getNeighbors i)))%nat = true)
        by congruence.
      apply andb_prop in H. destruct H as [Hh Hn].
      split; [by apply hotAt_spec|].
      apply Nat.leb_le in Hn.
      apply two_in_filter in Hn; [|by apply getNeighbors_NoDup].
      destruct Hn as (x & y & Hxy & Hx & Hy & Hpx & Hpy).
      exists x, y. split; [done|].
      split; [by apply getNeighbors_adjacent|].
      split; [by apply getNeighbors_adjacent|].
      split; by apply hotAt_spec.
    + intros (Hh & x & y & Hxy & Hx & Hy & Hpx & Hpy).
      f_equal. apply andb_true_intro. split; [by apply hotAt_spec|].
      apply Nat.leb_le. apply two_in_filter; [by apply getNeighbors_NoDup|].
      exists x, y. split; [done|].
      split; [by apply getNeighbors_adjacent|].
      split; [by apply getNeighbors_adjacent|].
      split; by apply hotAt_spec.
  - destruct (_ && _); auto.
  - intros c Hc Ht. unfold hotAt. rewrite Hc.
    destruct (Qle_bool _ (temperature c)) eqn:E; [|reflexivity].
    apply Qle_bool_iff in E. exfalso. apply (Qlt_not_le _ _ Ht E).
Qed.
End ThermalCluster.

Section Detection.

Lemma detectCell_verdict (a : Q) (c : BatteryCell) :
  detectCell a c = set_anomalyStatus (verdict a c) c.
Proof.
  destruct c as [i r k t v cu so sh re cy st].
  unfold detectCell, verdict, voltageDeviation, set_anomalyStatus,
    CONFIG.TEMP_THRESHOLDS.WARNING_MAX, CONFIG.TEMP_THRESHOLDS.CRITICAL.
  cbn [temperature voltage soh anomalyStatus id row col current soc resistance cycles].
  destruct (Qlt_bool 55 t);
    cbn [temperature voltage soh anomalyStatus id row col current soc resistance cycles];
    destruct (js_gt (js_div (Qabs (v - a)) a) CONFIG.VOLTAGE_DEVIATION);
    cbn [temperature voltage soh anomalyStatus id row col current soc resistance cycles];
    try (destruct (decide _) as [Hd|Hd]; try discriminate Hd; try (exfalso; apply Hd; reflexivity));
    cbn [temperature voltage soh anomalyStatus id row col current soc resistance cycles];
    destruct (Qlt_bool sh CONFIG.SOH_CRITICAL); reflexivity.
Qed.

Lemma verdict_ignores_status (a : Q) (s : AnomalyStatus) (c : BatteryCell) :
  verdict a (set_anomalyStatus s c) = verdict a c.
Proof. reflexivity. Qed.

Lemma detectCell_idempotent (a : Q) (c : BatteryCell) :
  detectCell a (detectCell a c) = detectCell a c.
Proof. rewrite !detectCell_verdict. reflexivity. Qed.

Lemma sum_voltage_map (f : BatteryCell -> BatteryCell) (d : list BatteryCell) (z : Q) :
  (forall c, voltage (f c) = voltage c) ->
  fold_left (fun sum cell => sum + voltage cell) (map f d) z
  = fold_left (fun sum cell => sum + voltage cell) d z.
Proof.
  intros Hf. revert z. induction d as [|c d IH]; intros z; simpl; [reflexivity|].
  rewrite Hf. apply IH.
Qed.

Lemma avgVoltageOf_detect (a : Q) (d : list BatteryCell) :
  avgVoltageOf (map (detectCell a) d) = avgVoltageOf d.
Proof.
  unfold avgVoltageOf. rewrite length_map, sum_voltage_map; [reflexivity|].
  intros c. rewrite detectCell_verdict. reflexivity.
Qed.

(** The banner update touches nothing but the banner, whether it completes
    or throws. *)
Lemma updateAnomalyStatus_frame (w : World) :
  exists r b, updateAnomalyStatus w = (r, set_statusBanner b w).
Proof.
  destruct w as [d h b g rc dr].
  unfold updateAnomalyStatus, bind, gets, lift, modify, set_statusBanner. simpl.
  destruct (filterIndexC _ d 0) as [cl|e]; simpl.
  - repeat match goal with
           | |- context [if ?b then _ else _] => destruct b
           end; eexists _, _; reflexivity.
  - eexists _, b. reflexivity.
Qed.

Lemma detectAnomalies_data (w : World) :
  batteryData (exec detectAnomalies w)
  = map (detectCell (avgVoltageOf (batteryData w))) (batteryData w).
Proof.
  unfold exec, detectAnomalies, bind, gets, modify. simpl.
  destruct (updateAnomalyStatus_frame
              (set_batteryData (map (detectCell (avgVoltageOf (batteryData w))) (batteryData w)) w))
    as (r & b & ->).
  destruct r; reflexivity.
Qed.

Lemma voltageDeviation_gt (a : Q) (c : BatteryCell) :
  0 < a ->
  js_gt (voltageDeviation a c) CONFIG.VOLTAGE_DEVIATION = true
  <-> 0.1 < Qabs (voltage c - a) / a.
Proof.
  intros Ha. unfold voltageDeviation, js_div.
  destruct (Qeq_bool a 0) eqn:E.
  - apply Qeq_bool_iff in E. rewrite E in Ha. exfalso. apply (Qlt_irrefl _ Ha).
  - simpl. apply Qlt_bool_iff.
Qed.

(** C10: a second detection pass in a row leaves every cell as the first
    pass left it. *)
Theorem detectAnomalies_idempotent (w : World) :
  batteryData (exec detectAnomalies (exec detectAnomalies w))
  = batteryData (exec detectAnomalies w).
Proof.
  rewrite (detectAnomalies_data (exec detectAnomalies w)).
  rewrite detectAnomalies_data, avgVoltageOf_detect.
  rewrite <- list_fmap_compose. apply list_fmap_ext.
  intros i c _. apply detectCell_idempotent.
Qed.

Lemma verdict_cases (a : Q) (c : BatteryCell) :
  (soh c < 70 -> verdict a c = CRITICAL) /\
  (55 < temperature c -> verdict a c = CRITICAL) /\
  (70 <= soh c -> temperature c <= 55 ->
     js_gt (voltageDeviation a c) CONFIG.VOLTAGE_DEVIATION = true ->
     verdict a c = WARNING) /\
  (70 <= soh c -> temperature c <= 55 ->
     js_gt (voltageDeviation a c) CONFIG.VOLTAGE_DEVIATION = false ->
     verdict a c = NORMAL).
Proof.
  unfold verdict, CONFIG.SOH_CRITICAL, CONFIG.TEMP_THRESHOLDS.CRITICAL.
  destruct (Qlt_bool (soh c) 70) eqn:Es;
    [apply Qlt_bool_iff in Es | apply Qlt_bool_false_iff in Es];
  (destruct (Qlt_bool 55 (temperature c)) eqn:Et;
    [apply Qlt_bool_iff in Et | apply Qlt_bool_false_iff in Et]).
  - repeat split; intros; try reflexivity; exfalso; lra.
  - repeat split; intros; try reflexivity; exfalso; lra.
  - repeat split; intros; try reflexivity; exfalso; lra.
  - repeat split; intros.
    + exfalso; lra.
    + exfalso; lra.
    + match goal with H : js_gt _ _ = _ |- _ => rewrite H end. reflexivity.
    + match goal with H : js_gt _ _ = _ |- _ => rewrite H end. reflexivity.
Qed.

(** C3: the soh rule forces CRITICAL whatever came before; a temperature
    above 55 stays CRITICAL whatever the voltage; the voltage rule turns an
    otherwise NORMAL cell into WARNING; a cell with soh 65 and temperature 25
    ends CRITICAL.  For a positive average the voltage test is
    [|v - avg| / avg > 0.1]. *)
Theorem detect_rule_precedence (w : World) (i : nat) (c : BatteryCell) :
  batteryData w !! i = Some c ->
  let avg := avgVoltageOf (batteryData w) in
  let deviates := js_gt (voltageDeviation avg c) CONFIG.VOLTAGE_DEVIATION in
  exists c', batteryData (exec detectAnomalies w) !! i = Some c' /\
    (soh c < 70 -> anomalyStatus c' = CRITICAL) /\
    (55 < temperature c -> anomalyStatus c' = CRITICAL) /\
    (70 <= soh c -> temperature c <= 55 -> deviates = true ->
       anomalyStatus c' = WARNING) /\
    (70 <= soh c -> temperature c <= 55 -> deviates = false ->
       anomalyStatus c' = NORMAL) /\
    (soh c == 65 -> temperature c == 25 -> anomalyStatus c' = CRITICAL) /\
    (0 < avg -> (deviates = true <-> 0.1 < Qabs (voltage c - avg) / avg)).
Proof.
  intros Hc avg deviates.
  exists (detectCell avg c). split.
  { rewrite detectAnomalies_data, list_lookup_fmap, Hc. reflexivity. }
  rewrite detectCell_verdict.
  change (anomalyStatus (set_anomalyStatus (verdict avg c) c)) with (verdict avg c).
  destruct (verdict_cases avg c) as (H1 & H2 & H3 & H4).
  split; [exact H1|]. split; [exact H2|]. split; [exact H3|]. split; [exact H4|].
  split.
  - intros Hs _. apply H1. rewrite Hs. reflexivity.
  - intros Ha. apply voltageDeviation_gt, Ha.
Qed.
End Detection.

Section CellModel.
Variable rand : nat -> Q.

Lemma BatteryCell_new_run (id : string) (row col : Z) (w : World) :
  let r k := rand (k + randomCalls w)%nat in
  BatteryCell_new rand id row col w =
    (Normal (mkCell id row col (r 0%nat * (35 - 25) + 25) (r 1%nat * (3.8 - 3.6) + 3.6)
                    (r 2%nat * (20 - -5) + -5) (r 3%nat * (100 - 60) + 60)
                    (r 4%nat * (100 - 80) + 80) (r 5%nat * (5 - 1) + 1)
                    (Qfloor (r 6%nat * (1200 - 200) + 200)) NORMAL),
     advance 7 w).
Proof. reflexivity. Qed.

Lemma clamp_bounds (lo hi x : Q) : lo <= hi -> lo <= Qmax lo (Qmin hi x) /\ Qmax lo (Qmin hi x) <= hi.
Proof.
  intros H. split.
  - apply Q.le_max_l.
  - apply Q.max_lub; [exact H | apply Q.le_min_l].
Qed.

Lemma update_inBounds (this : BatteryCell) (w : World) :
  exists this' w', update rand this w = (Normal this', w') /\ inBounds this'.
Proof.
  eexists _, _. split.
  { unfold update, bind, Math_random, ret. cbv beta iota zeta. reflexivity. }
  unfold inBounds. cbn [temperature voltage soc set_temperature set_voltage set_soc].
  split; [|split]; apply clamp_bounds; lra.
Qed.


(** C9: [update] leaves id, row, col, soh, resistance, cycles and
    anomalyStatus as they were, moves current by the raw perturbation without
    clamping it, and changes no global variable. *)
Theorem update_frame (this : BatteryCell) (w : World) :
  exists this' w', update rand this w = (Normal this', w') /\
    id this' = id this /\ row this' = row this /\ col this' = col this /\
    soh this' = soh this /\ resistance this' = resistance this /\
    cycles this' = cycles this /\ anomalyStatus this' = anomalyStatus this /\
    current this' = current this + (rand (2 + randomCalls w)%nat - 0.5) * 2 /\
    batteryData w' = batteryData w /\ tempHistory w' = tempHistory w /\
    statusBanner w' = statusBanner w /\ gridClasses w' = gridClasses w.
Proof.
  eexists _, _. split.
  { unfold update, bind, Math_random, ret. cbv beta iota zeta. reflexivity. }
  cbn [id row col soh resistance cycles anomalyStatus current randomCalls
       batteryData tempHistory statusBanner gridClasses
       set_temperature set_voltage set_soc set_current temperature voltage soc].
  repeat split.
Qed.

End CellModel.

Lemma zeroDraws_unit : unitDraws (fun _ => 0).
Proof. intros n. split; [apply Qle_refl | reflexivity]. Qed.


Section Instances.

(** C1 (amended): a temperature above 55, such as 56, yields CRITICAL; a
    cell at exactly 55 that no other rule touches stays NORMAL, since both
    temperature comparisons are strict. *)
Theorem detect_temperature_threshold (w : World) (i : nat) (c : BatteryCell) :
  batteryData w !! i = Some c ->
  let avg := avgVoltageOf (batteryData w) in
  let deviates := js_gt (voltageDeviation avg c) CONFIG.VOLTAGE_DEVIATION in
  exists c', batteryData (exec detectAnomalies w) !! i = Some c' /\
    (55 < temperature c -> anomalyStatus c' = CRITICAL) /\
    (temperature c == 56 -> anomalyStatus c' = CRITICAL) /\
    (temperature c == 55 -> 70 <= soh c -> deviates = false ->
       anomalyStatus c' = NORMAL).
Proof.
  intros Hc avg deviates.
  exists (detectCell avg c). split.
  { rewrite detectAnomalies_data, list_lookup_fmap, Hc. reflexivity. }
  rewrite detectCell_verdict.
  change (anomalyStatus (set_anomalyStatus (verdict avg c) c)) with (verdict avg c).
  destruct (verdict_cases avg c) as (H1 & H2 & H3 & H4).
  split; [exact H2|]. split.
  - intros Ht. apply H2. rewrite Ht. reflexivity.
  - intros Ht Hs Hd. apply H4; [exact Hs | | exact Hd]. rewrite Ht. apply Qle_refl.
Qed.

Lemma detect_temperature_threshold_witness :
  exists c', batteryData (exec detectAnomalies (worldOf boundaryPack)) !! 0%nat = Some c' /\
             anomalyStatus c' = NORMAL.
Proof.
  destruct (detect_temperature_threshold (worldOf boundaryPack) 0 (uniformCell 55) eq_refl)
    as (c' & Hc' & _ & _ & H55).
  exists c'. split; [exact Hc'|].
  apply H55.
  - reflexivity.
  - vm_compute. discriminate.
  - vm_compute. reflexivity.
Defined.

Lemma detect_boundary_55_counterexample :
  exists c c',
    boundaryPack !! 0%nat = Some c /\ temperature c == 55 /\ 70 <= soh c /\
    js_gt (voltageDeviation (avgVoltageOf boundaryPack) c) CONFIG.VOLTAGE_DEVIATION = false /\
    batteryData (exec detectAnomalies (worldOf boundaryPack)) !! 0%nat = Some c' /\
    anomalyStatus c' = NORMAL /\ anomalyStatus c' <> CRITICAL.
Proof.
  exists (uniformCell 55), (uniformCell 55).
  split; [reflexivity|]. split; [reflexivity|]. split; [vm_compute; discriminate|].
  split; [vm_compute; reflexivity|]. split; [vm_compute; reflexivity|].
  split; [reflexivity | discriminate].
Qed.

Lemma isThermalCluster_spec_witness :
  isThermalCluster (uniformPack 50) 13 = Normal true \/
  isThermalCluster (uniformPack 50) 13 = Normal false.
Proof.
  exact (proj1 (proj2 (isThermalCluster_spec (uniformPack 50) 13 eq_refl
                         ltac:(lia)))).
Defined.

Lemma isThermalCluster_40_counterexample :
  atLeast 40 (uniformPack 42) 13 /\
  (exists n1 n2, n1 <> n2 /\ adjacent 13 n1 /\ adjacent 13 n2 /\
                 atLeast 40 (uniformPack 42) n1 /\ atLeast 40 (uniformPack 42) n2) /\
  isThermalCluster (uniformPack 42) 13 = Normal false /\
  isThermalCluster (uniformPack 42) 13 <> Normal true.
Proof.
  assert (H40 : forall k, (0 <= k < 96)%Z -> atLeast 40 (uniformPack 42) k).
  { intros k Hk. exists (uniformCell 42). split.
    - apply index_get_Some. split; [lia|].
      apply lookup_replicate_2. lia.
    - vm_compute. discriminate. }
  split; [apply H40; lia|]. split.
  - exists 12%Z, 14%Z. split; [discriminate|].
    split; [apply adjacentb_spec; reflexivity|].
    split; [apply adjacentb_spec; reflexivity|].
    split; apply H40; lia.
  - split; [vm_compute; reflexivity|]. vm_compute. discriminate.
Qed.

Lemma detect_rule_precedence_witness :
  exists c', batteryData (exec detectAnomalies (worldOf weakPack)) !! 0%nat = Some c' /\
             anomalyStatus c' = CRITICAL.
Proof.
  destruct (detect_rule_precedence (worldOf weakPack) 0 weakCell eq_refl)
    as (c' & Hc' & _ & _ & _ & _ & H65 & _).
  exists c'. split; [exact Hc'|].
  apply H65; reflexivity.
Defined.
End Instances.

Section Banner.

Lemma filterIndexC_length {A} (p : Z -> Completion bool) (l : list A) : forall k : Z,
  (forall j, (k <= j < k + Z.of_nat (length l))%Z -> exists b, p j = Normal b) ->
  exists r, filterIndexC (fun _ j => p j) l k = Normal r /\
            length r = length (List.filter
                                 (fun j => match p j with Normal true => true | _ => false end)
                                 (seqZ k (Z.of_nat (length l)))).
Proof.
  induction l as [|x l IH]; intros k Hp.
  - exists []. split; reflexivity.
  - destruct (Hp k) as [b Hb]; [simpl; lia|].
    destruct (IH (k + 1)%Z) as (r & Hr & Hlen).
    { intros j Hj. apply Hp. simpl. lia. }
    cbn [filterIndexC]. rewrite Hb, Hr. cbn [cbind].
    eexists. split; [reflexivity|].
    rewrite seqZ_cons by (simpl; lia).
    cbn [List.filter]. rewrite Hb.
    replace (Z.succ k) with (k + 1)%Z by lia.
    replace (Z.pred (Z.of_nat (length (x :: l)))) with (Z.of_nat (length l))
      by (simpl; lia).
    destruct b; simpl; rewrite Hlen; reflexivity.
Qed.

Lemma clusterCells_length (data : list BatteryCell) :
  length data = 96%nat ->
  exists r, filterIndexC (fun _ index => isThermalCluster data index) data 0 = Normal r /\
            length r = clusterCount data.
Proof.
  intros Hlen. apply (filterIndexC_length (isThermalCluster data) data 0).
  intros j Hj. eexists. apply isThermalCluster_total; [exact Hlen | lia].
Qed.

Lemma filter_nonempty {A} (P : A -> Prop) `{forall x, Decision (P x)} (l : list A) :
  (0 <? length (filter P l))%nat = true <-> exists x, x ∈ l /\ P x.
Proof.
  rewrite Nat.ltb_lt. split.
  - intros Hl. destruct (filter P l) as [|x r] eqn:E; [simpl in Hl; lia|].
    assert (Hx : x ∈ filter P l) by (rewrite E; left).
    apply list_elem_of_filter in Hx. exists x. tauto.
  - intros (x & Hx & HP).
    assert (Hx' : x ∈ filter P l) by (apply list_elem_of_filter; tauto).
    destruct (filter P l); [inversion Hx' | simpl; lia].
Qed.

Lemma updateAnomalyStatus_run (w : World) :
  length (batteryData w) = 96%nat ->
  let data := batteryData w in
  let critical := (0 <? length (filter (fun cell => anomalyStatus cell = CRITICAL) data))%nat in
  let warning := (0 <? length (filter (fun cell => anomalyStatus cell = WARNING) data))%nat in
  updateAnomalyStatus w =
    (Normal tt,
     set_statusBanner
       (if critical then
          if (3 <=? clusterCount data)%nat
          then mkBanner ["anomaly-status"; "critical"] "THERMAL CLUSTER DETECTED"
          else mkBanner ["anomaly-status"; "critical"] "CRITICAL"
        else if warning then mkBanner ["anomaly-status"; "warning"] "WARNING"
        else mkBanner ["anomaly-status"] "NORMAL") w).
Proof.
  intros Hlen data critical warning.
  destruct (clusterCells_length data Hlen) as (r & Hr & Hcount).
  unfold updateAnomalyStatus, bind, gets, lift, modify.
  fold data. rewrite Hr. fold critical warning. rewrite Hcount.
  destruct w as [d h b g rc dr].
  destruct critical; [destruct (3 <=? clusterCount data)%nat | destruct warning];
    reflexivity.
Qed.

(** C5: the banner reads THERMAL CLUSTER DETECTED exactly when some cell is
    CRITICAL and at least 3 cells are cluster members, CRITICAL when some
    cell is CRITICAL and fewer than 3 are members, WARNING when no cell is
    CRITICAL and some cell is WARNING, NORMAL otherwise. *)
Theorem banner_text (w : World) :
  length (batteryData w) = 96%nat ->
  let data := batteryData w in
  let anyCritical := exists c, c ∈ data /\ anomalyStatus c = CRITICAL in
  let anyWarning := exists c, c ∈ data /\ anomalyStatus c = WARNING in
  let banner := textContent (statusBanner (exec updateAnomalyStatus w)) in
  fst (updateAnomalyStatus w) = Normal tt /\
  (banner = "THERMAL CLUSTER DETECTED" <-> anyCritical /\ (3 <= clusterCount data)%nat) /\
  (banner = "CRITICAL" <-> anyCritical /\ (clusterCount data < 3)%nat) /\
  (banner = "WARNING" <-> ~ anyCritical /\ anyWarning) /\
  (banner = "NORMAL" <-> ~ anyCritical /\ ~ anyWarning).
Proof.
  intros Hlen data anyCritical anyWarning banner.
  pose proof (updateAnomalyStatus_run w Hlen) as Hrun. cbv zeta in Hrun. fold data in Hrun.
  unfold banner, exec. rewrite Hrun. cbn [fst snd].
  pose proof (filter_nonempty (fun cell => anomalyStatus cell = CRITICAL) data) as Hc.
  pose proof (filter_nonempty (fun cell => anomalyStatus cell = WARNING) data) as Hw.
  fold anyCritical in Hc. fold anyWarning in Hw.
  destruct (0 <? length (filter (fun cell => anomalyStatus cell = CRITICAL) data))%nat.
  - assert (HC : anyCritical) by (apply Hc; reflexivity).
    destruct (3 <=? clusterCount data)%nat eqn:E;
      [apply Nat.leb_le in E | apply Nat.leb_gt in E];
      cbn [statusBanner set_statusBanner textContent];
      (split; [reflexivity|]);
      repeat split; try discriminate; try tauto; try (intros [? ?]; lia); auto.
  - assert (HC : ~ anyCritical) by (intros HC; apply Hc in HC; discriminate).
    destruct (0 <? length (filter (fun cell => anomalyStatus cell = WARNING) data))%nat.
    + assert (HW : anyWarning) by (apply Hw; reflexivity).
      cbn [statusBanner set_statusBanner textContent].
      (split; [reflexivity|]);
      repeat split; try discriminate; try tauto; auto.
    + assert (HW : ~ anyWarning) by (intros HW; apply Hw in HW; discriminate).
      cbn [statusBanner set_statusBanner textContent].
      (split; [reflexivity|]);
      repeat split; try discriminate; try tauto; auto.
Qed.

Lemma banner_text_witness :
  textContent (statusBanner (exec updateAnomalyStatus (worldOf (uniformPack 30)))) = "NORMAL".
Proof.
  destruct (banner_text (worldOf (uniformPack 30)) eq_refl) as (_ & _ & _ & _ & HN).
  apply HN. split.
  - intros (c & Hc & Hs). apply elem_of_replicate in Hc. destruct Hc as [-> _]. discriminate.
  - intros (c & Hc & Hs). apply elem_of_replicate in Hc. destruct Hc as [-> _]. discriminate.
Defined.
End Banner.

Section FaultInjection.
Variable rand : nat -> Q.
Hypothesis rand_unit : unitDraws rand.

Lemma bind_run {A B} (m : JS A) (k : A -> JS B) (w w' : World) (a : A) :
  m w = (Normal a, w') -> bind m k w = k a w'.
Proof. intros H. unfold bind. rewrite H. reflexivity. Qed.

Lemma Math_random_run (w : World) :
  Math_random rand w = (Normal (rand (randomCalls w)), advance 1 w).
Proof. reflexivity. Qed.

Lemma randomCellIndex_run (w : World) :
  randomCellIndex rand w =
    (Normal (Qfloor (rand (randomCalls w)
                     * inject_Z (Z.of_nat (length (batteryData w))))),
     advance 1 w).
Proof. reflexivity. Qed.

Lemma randomIndex_range (r : Q) (n : nat) :
  0 <= r -> r < 1 -> (0 < n)%nat ->
  (0 <= Qfloor (r * inject_Z (Z.of_nat n)) < Z.of_nat n)%Z.
Proof.
  intros H0 H1 Hn.
  assert (HN : 0 < inject_Z (Z.of_nat n)).
  { change 0 with (inject_Z 0). rewrite <- Zlt_Qlt. lia. }
  split.
  - change 0%Z with (Qfloor (inject_Z 0)). apply Qfloor_resp_le.
    change (inject_Z 0) with 0. apply Qmult_le_0_compat; [exact H0 | apply Qlt_le_weak, HN].
  - rewrite Zlt_Qlt. eapply Qle_lt_trans; [apply Qfloor_le|].
    assert (H : r * inject_Z (Z.of_nat n) < 1 * inject_Z (Z.of_nat n)).
    { apply Qmult_lt_compat_r; assumption. }
    rewrite Qmult_1_l in H. exact H.
Qed.

Lemma assignTemperature_run (index : Z) (t : Q) (w : World) (c : BatteryCell) :
  index_get (batteryData w) index = Some c ->
  assignTemperature index t w =
    (Normal tt, set_batteryData (alter (set_temperature t) (Z.to_nat index) (batteryData w)) w).
Proof.
  intros H. unfold assignTemperature, bind, gets, modify. rewrite H. reflexivity.
Qed.

Lemma assignVoltage_run (index : Z) (v : Q) (w : World) (c : BatteryCell) :
  index_get (batteryData w) index = Some c ->
  assignVoltage index v w =
    (Normal tt, set_batteryData (alter (set_voltage v) (Z.to_nat index) (batteryData w)) w).
Proof.
  intros H. unfold assignVoltage, bind, gets, modify. rewrite H. reflexivity.
Qed.

End FaultInjection.

Section History.
Variable rand : nat -> Q.
Variable localeTime : nat -> string.

Lemma advance_advance (a b : nat) (w : World) :
  advance a (advance b w) = advance (a + b) w.
Proof. unfold advance. cbn [batteryData tempHistory statusBanner gridClasses randomCalls dateReads]. f_equal. lia. Qed.

Lemma update_run (this : BatteryCell) (w : World) :
  exists this', update rand this w = (Normal this', advance 4 w) /\ inBounds this'.
Proof.
  destruct (update_inBounds rand this w) as (c & w' & Hrun & Hb).
  exists c. split; [|exact Hb]. rewrite Hrun. f_equal.
  unfold update, bind, Math_random, ret in Hrun. cbv beta iota zeta in Hrun.
  injection Hrun as _ <-. reflexivity.
Qed.

Lemma mapJS_update_run (l : list BatteryCell) : forall w : World,
  exists l', mapJS (update rand) l w = (Normal l', advance (4 * length l) w) /\
             length l' = length l /\ Forall inBounds l'.
Proof.
  induction l as [|c l IH]; intros w.
  - exists []. split; [|split; [reflexivity | constructor]].
    destruct w; reflexivity.
  - destruct (update_run c w) as (c' & Hc & Hb).
    destruct (IH (advance 4 w)) as (l' & Hl & Hlen & Hall).
    exists (c' :: l'). split; [|split].
    + cbn [mapJS]. rewrite (bind_run _ _ _ _ _ Hc), (bind_run _ _ _ _ _ Hl).
      unfold ret. rewrite advance_advance. do 2 f_equal. simpl. lia.
    + simpl. congruence.
    + constructor; assumption.
Qed.

Lemma detectAnomalies_run (w : World) :
  length (batteryData w) = 96%nat ->
  exists b,
    detectAnomalies w =
      (Normal tt,
       set_statusBanner b
         (set_batteryData (map (detectCell (avgVoltageOf (batteryData w))) (batteryData w)) w)).
Proof.
  intros Hlen. unfold detectAnomalies, bind at 1, gets. cbv beta iota zeta.
  unfold bind, modify.
  set (w1 := set_batteryData _ w).
  assert (H1 : length (batteryData w1) = 96%nat).
  { unfold w1. cbn [batteryData set_batteryData]. rewrite length_map. exact Hlen. }
  pose proof (updateAnomalyStatus_run w1 H1) as Hrun. cbv zeta in Hrun.
  rewrite Hrun. eexists. reflexivity.
Qed.

Lemma updateCellElement_run (index : nat) (w : World) :
  length (batteryData w) = 96%nat -> (index < 96)%nat ->
  exists g, updateCellElement index w = (Normal tt, set_gridClasses g w) /\
            length g = length (gridClasses w).
Proof.
  intros Hlen Hi.
  destruct (lookup_lt_is_Some_2 (batteryData w) index) as [c Hc]; [lia|].
  unfold updateCellElement, bind, gets, modify, lift, ret. cbv beta iota.
  cbn [batteryData gridClasses set_gridClasses]. rewrite Hc.
  rewrite (isThermalCluster_total (batteryData w) (Z.of_nat index) Hlen) by lia.
  destruct (_ && _).
  - eexists. split; [reflexivity|].
    repeat (rewrite ?length_alter, ?length_insert; cbn [gridClasses set_gridClasses]).
    reflexivity.
  - eexists. split; [reflexivity|].
    repeat (rewrite ?length_alter, ?length_insert; cbn [gridClasses set_gridClasses]).
    reflexivity.
Qed.

Lemma updateGrid_loop_run (l : list nat) : forall w : World,
  length (batteryData w) = 96%nat -> (forall i, i ∈ l -> (i < 96)%nat) ->
  exists g, forEachJS updateCellElement l w = (Normal tt, set_gridClasses g w) /\
            length g = length (gridClasses w).
Proof.
  induction l as [|i l IH]; intros w Hlen Hl.
  - exists (gridClasses w). split; [destruct w; reflexivity | reflexivity].
  - destruct (updateCellElement_run i w Hlen) as (g1 & H1 & Hg1); [apply Hl; left|].
    destruct (IH (set_gridClasses g1 w)) as (g & Hrun & Hg).
    { exact Hlen. }
    { intros j Hj. apply Hl. by right. }
    exists g. split.
    + cbn [forEachJS]. rewrite (bind_run _ _ _ _ _ H1). exact Hrun.
    + rewrite Hg. exact Hg1.
Qed.

Lemma trim_lastn {A} (h : list A) (s : A) :
  (length h <= 20)%nat ->
  (if (20 <? length (h ++ [s]))%nat then tail (h ++ [s]) else h ++ [s])
  = lastn 20 (h ++ [s]).
Proof.
  intros Hh. unfold lastn. rewrite length_app. simpl.
  destruct (20 <? length h + 1)%nat eqn:E;
    [apply Nat.ltb_lt in E | apply Nat.ltb_ge in E].
  - replace (length h + 1 - 20)%nat with 1%nat by lia.
    destruct h; [simpl in E; lia | reflexivity].
  - replace (length h + 1 - 20)%nat with 0%nat by lia. reflexivity.
Qed.

Lemma lastn_length {A} (n : nat) (l : list A) : length (lastn n l) = Nat.min n (length l).
Proof. unfold lastn. rewrite length_drop. lia. Qed.

Lemma lastn_snoc {A} (n : nat) (l : list A) (x : A) :
  (0 < n)%nat -> lastn n (lastn n l ++ [x]) = lastn n (l ++ [x]).
Proof.
  intros Hn. unfold lastn at 1 3. rewrite !length_app, lastn_length. simpl.
  unfold lastn.
  destruct (le_lt_dec (length l) n) as [Hle|Hgt].
  - replace (length l - n)%nat with 0%nat by lia. simpl.
    by replace (Nat.min n (length l)) with (length l) by lia.
  - replace (Nat.min n (length l) + 1 - n)%nat with 1%nat by lia.
    rewrite !drop_app_le by (rewrite ?length_drop; lia).
    rewrite drop_drop. f_equal. f_equal. lia.
Qed.

Lemma updateMetrics_run (w : World) :
  exists w', updateMetrics localeTime w = (Normal tt, w') /\
    batteryData w' = batteryData w /\ gridClasses w' = gridClasses w /\
    dateReads w' = S (dateReads w) /\
    tempHistory w' =
      (let h := tempHistory w ++ [metricsSample (batteryData w) (localeTime (dateReads w))] in
       if (20 <? length h)%nat then tail h else h).
Proof.
  unfold updateMetrics, bind, gets, modify, Date_toLocaleTimeString, ret.
  cbv beta iota zeta. cbn [batteryData tempHistory set_tempHistory dateReads].
  destruct (20 <? _)%nat; eexists; (split; [reflexivity|]); repeat split.
Qed.

Lemma tick_run (w : World) :
  length (batteryData w) = 96%nat -> (length (gridClasses w) <= 96)%nat ->
  exists w', tick rand localeTime w = (Normal tt, w') /\
    length (batteryData w') = 96%nat /\
    length (gridClasses w') = length (gridClasses w) /\
    dateReads w' = S (dateReads w) /\
    Forall inBounds (batteryData w') /\
    tempHistory w' =
      (let h := tempHistory w ++ [metricsSample (batteryData w') (localeTime (dateReads w))] in
       if (20 <? length h)%nat then tail h else h).
Proof.
  intros Hlen Hgrid.
  destruct (mapJS_update_run (batteryData w) w) as (d1 & Hmap & Hd1 & Hb1).
  set (w1 := set_batteryData d1 (advance (4 * length (batteryData w)) w)).
  assert (Hlen1 : length (batteryData w1) = 96%nat) by (unfold w1; cbn; congruence).
  destruct (detectAnomalies_run w1 Hlen1) as (b & Hdet).
  set (w2 := set_statusBanner b _) in Hdet.
  assert (Hlen2 : length (batteryData w2) = 96%nat).
  { unfold w2. cbn [batteryData set_statusBanner set_batteryData]. by rewrite length_map. }
  destruct (updateGrid_loop_run (seq 0 (length (gridClasses w2))) w2 Hlen2) as (g & Hloop & Hg).
  { intros i Hi. apply elem_of_seq in Hi.
    assert (length (gridClasses w2) = length (gridClasses w)) by reflexivity. lia. }
  destruct (updateMetrics_run (set_gridClasses g w2)) as (w' & Hmet & Hd' & Hg' & Hdr' & Hh').
  exists w'. split.
  { unfold tick. unfold bind at 1, gets. cbv beta iota.
    rewrite (bind_run _ _ _ _ _ Hmap).
    unfold bind at 1, modify. cbv beta iota. fold w1.
    rewrite (bind_run _ _ _ _ _ Hdet).
    unfold updateBatteryGrid. unfold bind at 1, gets. cbv beta iota.
    rewrite (bind_run _ _ _ _ _ Hloop). exact Hmet. }
  assert (Hdata : batteryData w' = map (detectCell (avgVoltageOf d1)) d1).
  { rewrite Hd'. reflexivity. }
  split; [rewrite Hd'; exact Hlen2|].
  split; [rewrite Hg'; exact Hg|].
  split; [rewrite Hdr'; reflexivity|].
  split.
  { rewrite Hdata. apply Forall_fmap. eapply Forall_impl; [exact Hb1|].
    intros c Hc. unfold compose. rewrite detectCell_verdict. exact Hc. }
  rewrite Hh', Hd'. reflexivity.
Qed.

Lemma ticks_invariant (w : World) (n : nat) :
  length (batteryData w) = 96%nat -> (length (gridClasses w) <= 96)%nat ->
  length (batteryData (ticks rand localeTime n w)) = 96%nat /\
  length (gridClasses (ticks rand localeTime n w)) = length (gridClasses w).
Proof.
  intros Hlen Hgrid. induction n as [|n [IH1 IH2]]; [split; [exact Hlen | reflexivity]|].
  destruct (tick_run (ticks rand localeTime n w) IH1) as (w' & Hrun & H1 & H2 & _);
    [lia|].
  cbn [ticks]. unfold exec. rewrite Hrun. cbn [snd]. split; [exact H1 | congruence].
Qed.

Lemma tickSamples_S (n : nat) (w : World) :
  tickSamples rand localeTime (S n) w =
    tickSamples rand localeTime n w ++
      [metricsSample (batteryData (ticks rand localeTime (S n) w))
                     (localeTime (dateReads (ticks rand localeTime n w)))].
Proof. unfold tickSamples. rewrite seq_S, map_app. reflexivity. Qed.

Lemma ticks_history (w : World) (n : nat) :
  length (batteryData w) = 96%nat -> (length (gridClasses w) <= 96)%nat ->
  (length (tempHistory w) <= 20)%nat ->
  tempHistory (ticks rand localeTime n w)
  = lastn 20 (tempHistory w ++ tickSamples rand localeTime n w).
Proof.
  intros Hlen Hgrid Hh. induction n as [|n IH].
  - cbn [ticks tickSamples seq map]. rewrite app_nil_r. unfold lastn.
    by replace (length (tempHistory w) - 20)%nat with 0%nat by lia.
  - destruct (ticks_invariant w n Hlen Hgrid) as [H1 H2].
    destruct (tick_run (ticks rand localeTime n w) H1) as (w' & Hrun & _ & _ & _ & _ & Hhist);
      [lia|].
    assert (Hw' : ticks rand localeTime (S n) w = w').
    { cbn [ticks]. unfold exec. rewrite Hrun. reflexivity. }
    rewrite tickSamples_S, Hw', Hhist. cbv zeta.
    rewrite trim_lastn by (rewrite IH, lastn_length; lia).
    rewrite IH, lastn_snoc by lia. by rewrite app_assoc.
Qed.

(** C7: on the 96-cell pack every tick completes and pushes exactly one
    sample; the history is always the last 20 of the samples pushed so far,
    oldest first, and never longer than 20; started empty, after 25 ticks it
    holds the samples of ticks 6 to 25 in order. *)
Theorem tempHistory_window (w : World) (n : nat) :
  length (batteryData w) = 96%nat -> length (gridClasses w) = 96%nat ->
  (length (tempHistory w) <= 20)%nat ->
  let run := ticks rand localeTime in
  let samples := tickSamples rand localeTime in
  fst (tick rand localeTime (run n w)) = Normal tt /\
  tempHistory (run (S n) w)
    = lastn 20 (tempHistory (run n w)
                ++ [metricsSample (batteryData (run (S n) w))
                                  (localeTime (dateReads (run n w)))]) /\
  tempHistory (run n w) = lastn 20 (tempHistory w ++ samples n w) /\
  (length (tempHistory (run n w)) <= 20)%nat /\
  length (samples n w) = n /\
  (tempHistory w = [] ->
     tempHistory (run 25%nat w) = drop 5 (samples 25%nat w) /\
     length (tempHistory (run 25%nat w)) = 20%nat).
Proof.
  intros Hlen Hgrid Hh run samples.
  assert (Hgrid' : (length (gridClasses w) <= 96)%nat) by lia.
  destruct (ticks_invariant w n Hlen Hgrid') as [H1 H2].
  pose proof (ticks_history w n Hlen Hgrid' Hh) as Hn.
  assert (Hlen_n : (length (tempHistory (run n w)) <= 20)%nat).
  { unfold run. rewrite Hn, lastn_length. lia. }
  destruct (tick_run (run n w) H1) as (w' & Hrun & _ & _ & _ & _ & Hhist);
    [unfold run; lia|].
  assert (Hw' : run (S n) w = w').
  { unfold run. cbn [ticks]. unfold exec. fold run. rewrite Hrun. reflexivity. }
  split; [rewrite Hrun; reflexivity|].
  split.
  { rewrite Hw', Hhist. cbv zeta. apply trim_lastn. exact Hlen_n. }
  split; [exact Hn|]. split; [exact Hlen_n|].
  split.
  { unfold samples, tickSamples. by rewrite length_map, length_seq. }
  intros Hempty.
  pose proof (ticks_history w 25 Hlen Hgrid' Hh) as H25.
  rewrite Hempty in H25. cbn [app] in H25.
  assert (HL : length (samples 25%nat w) = 25%nat).
  { unfold samples, tickSamples. by rewrite length_map, length_seq. }
  unfold run. rewrite H25. unfold lastn. fold samples. rewrite HL.
  split; [reflexivity|]. rewrite length_drop, HL. reflexivity.
Qed.
End History.

Lemma tempHistory_window_witness :
  length (tempHistory (ticks (fun _ => 0) (fun _ => "12:00:00") 25
                             (worldOf (uniformPack 30)))) = 20%nat.
Proof.
  destruct (tempHistory_window (fun _ => 0) (fun _ => "12:00:00")
              (worldOf (uniformPack 30)) 0 eq_refl eq_refl ltac:(simpl; lia))
    as (_ & _ & _ & _ & _ & H25).
  exact (proj2 (H25 eq_refl)).
Defined.

Section Generation.
Variable rand : nat -> Q.

Lemma set_advance_merge (d1 d2 : list BatteryCell) (a b : nat) (w : World) :
  set_batteryData d2 (advance a (set_batteryData d1 (advance b w)))
  = set_batteryData d2 (advance (a + b) w).
Proof.
  unfold set_batteryData, advance.
  cbn [batteryData tempHistory statusBanner gridClasses randomCalls dateReads].
  f_equal. lia.
Qed.

Lemma BatteryCell_new_spec (name : string) (r k : Z) (w : World) :
  exists c, BatteryCell_new rand name r k w = (Normal c, advance 7 w) /\
    id c = name /\ row c = r /\ col c = k /\ anomalyStatus c = NORMAL /\
    (unitDraws rand -> freshRanges c).
Proof.
  eexists. split; [apply BatteryCell_new_run|].
  cbn [id row col anomalyStatus]. repeat (split; [reflexivity|]).
  intros Hr. unfold freshRanges.
  cbn [temperature voltage current soc soh resistance cycles].
  destruct (Hr (0 + randomCalls w)%nat) as [? ?].
  destruct (Hr (1 + randomCalls w)%nat) as [? ?].
  destruct (Hr (2 + randomCalls w)%nat) as [? ?].
  destruct (Hr (3 + randomCalls w)%nat) as [? ?].
  destruct (Hr (4 + randomCalls w)%nat) as [? ?].
  destruct (Hr (5 + randomCalls w)%nat) as [? ?].
  destruct (Hr (6 + randomCalls w)%nat) as [? ?].
  repeat (split; [lra|]).
  set (x := rand (6 + randomCalls w)%nat * (1200 - 200) + 200).
  assert (Hx : 200 <= x /\ x < 1200) by (unfold x; split; lra).
  split.
  - change 200%Z with (Qfloor (inject_Z 200)). apply Qfloor_resp_le. apply Hx.
  - rewrite Zlt_Qlt. eapply Qle_lt_trans; [apply Qfloor_le|]. apply Hx.
Qed.

Lemma forCols_run (r : Z) (cols : list Z) : forall (cellId : nat) (w : World),
  exists cells,
    forCols rand r cols cellId w =
      (Normal (cellId + length cols)%nat,
       set_batteryData (batteryData w ++ cells) (advance (7 * length cols) w)) /\
    length cells = length cols /\
    forall (j : nat) (c : BatteryCell), cells !! j = Some c ->
      exists k, cols !! j = Some k /\ created rand (cellId + j) r k c.
Proof.
  induction cols as [|k cols IH]; intros cellId w.
  - exists []. split; [|split; [reflexivity|]].
    + cbn [forCols length]. unfold ret. rewrite app_nil_r, Nat.add_0_r.
      destruct w; reflexivity.
    + intros j c Hj. rewrite lookup_nil in Hj. discriminate.
  - destruct (BatteryCell_new_spec (cellName cellId) r k w) as (c0 & Hnew & Hc0).
    set (w1 := set_batteryData (batteryData (advance 7 w) ++ [c0]) (advance 7 w)).
    destruct (IH (S cellId) w1) as (cells & Hrun & Hlen & Hcells).
    exists (c0 :: cells). split; [|split].
    + cbn [forCols]. rewrite (bind_run _ _ _ _ _ Hnew).
      unfold bind at 1, modify. cbv beta iota. fold w1. rewrite Hrun.
      unfold w1. rewrite set_advance_merge.
      cbn [batteryData set_batteryData advance length].
      rewrite <- app_assoc. cbn [app].
      replace (S cellId + length cols)%nat with (cellId + S (length cols))%nat by lia.
      replace (7 * length cols + 7)%nat with (7 * S (length cols))%nat by lia.
      reflexivity.
    + simpl. congruence.
    + intros [|j] c Hj.
      * injection Hj as <-. exists k. split; [reflexivity|].
        rewrite Nat.add_0_r. exact Hc0.
      * destruct (Hcells j c Hj) as (k' & Hk' & Hcr). exists k'. split; [exact Hk'|].
        replace (cellId + S j)%nat with (S cellId + j)%nat by lia. exact Hcr.
Qed.

Lemma forRows_run (rows : list Z) : forall (cellId : nat) (w : World),
  exists cells,
    forRows rand rows cellId w =
      (Normal (cellId + 12 * length rows)%nat,
       set_batteryData (batteryData w ++ cells) (advance (84 * length rows) w)) /\
    length cells = (12 * length rows)%nat /\
    forall (j : nat) (c : BatteryCell), cells !! j = Some c ->
      exists r, rows !! (j / 12)%nat = Some r /\
                created rand (cellId + j) r (Z.of_nat (j mod 12)) c.
Proof.
  induction rows as [|r rows IH]; intros cellId w.
  - exists []. split; [|split; [reflexivity|]].
    + cbn [forRows length]. unfold ret. rewrite app_nil_r, Nat.mul_0_r, Nat.add_0_r.
      destruct w; reflexivity.
    + intros j c Hj. rewrite lookup_nil in Hj. discriminate.
  - destruct (forCols_run r (seqZ 0 CONFIG.COLS) cellId w) as (cs & Hcols & Hlen0 & Hcs).
    assert (L12 : length (seqZ 0 CONFIG.COLS) = 12%nat) by reflexivity.
    rewrite L12 in Hcols, Hlen0.
    set (w1 := set_batteryData (batteryData w ++ cs) (advance (7 * 12) w)) in Hcols.
    destruct (IH (cellId + 12)%nat w1) as (cells & Hrun & Hlen & Hcells).
    exists (cs ++ cells). split; [|split].
    + cbn [forRows]. rewrite (bind_run _ _ _ _ _ Hcols). rewrite Hrun.
      unfold w1. rewrite set_advance_merge.
      cbn [batteryData set_batteryData advance length].
      rewrite <- app_assoc.
      replace (cellId + 12 + 12 * length rows)%nat
        with (cellId + 12 * S (length rows))%nat by lia.
      replace (84 * length rows + 7 * 12)%nat with (84 * S (length rows))%nat by lia.
      reflexivity.
    + rewrite length_app. simpl. lia.
    + intros j c Hj.
      destruct (le_lt_dec 12 j) as [Hge|Hlt].
      * rewrite lookup_app_r in Hj by lia. rewrite Hlen0 in Hj.
        destruct (Hcells (j - 12)%nat c Hj) as (r' & Hr' & Hcr).
        assert (Hd : (j / 12 = S ((j - 12) / 12))%nat).
        { replace j with ((j - 12) + 1 * 12)%nat at 1 by lia.
          rewrite Nat.div_add by lia. lia. }
        assert (Hm : (j mod 12 = (j - 12) mod 12)%nat).
        { replace j with ((j - 12) + 1 * 12)%nat at 1 by lia.
          rewrite Nat.Div0.mod_add. reflexivity. }
        exists r'. split; [rewrite Hd; exact Hr'|].
        rewrite Hm. replace (cellId + j)%nat with (cellId + 12 + (j - 12))%nat by lia.
        exact Hcr.
      * rewrite lookup_app_l in Hj by lia.
        destruct (Hcs j c Hj) as (k & Hk & Hcr).
        apply lookup_seqZ in Hk. destruct Hk as [-> _].
        exists r. split.
        { rewrite Nat.div_small by lia. reflexivity. }
        rewrite Nat.mod_small by lia. rewrite Z.add_0_l in Hcr. exact Hcr.
Qed.

Lemma generateBatteryData_run (w : World) :
  exists cells,
    generateBatteryData rand w = (Normal tt, set_batteryData cells (advance 672 w)) /\
    length cells = 96%nat /\
    forall (i : nat) (c : BatteryCell), cells !! i = Some c ->
      id c = cellName (S i) /\
      row c = Z.of_nat (i / 12) /\ col c = Z.of_nat (i mod 12) /\
      (Z.of_nat i = row c * CONFIG.COLS + col c)%Z /\
      anomalyStatus c = NORMAL /\
      (unitDraws rand -> freshRanges c /\ inBounds c).
Proof.
  destruct (forRows_run (seqZ 0 CONFIG.ROWS) 1 (set_batteryData [] w))
    as (cells & Hrun & Hlen & Hcells).
  exists cells. split; [|split].
  - unfold generateBatteryData. unfold bind at 1, modify. cbv beta iota.
    rewrite (bind_run _ _ _ _ _ Hrun). unfold ret. reflexivity.
  - exact Hlen.
  - intros i c Hi.
    destruct (Hcells i c Hi) as (r & Hr & Hid & Hrow & Hcol & Hst & Hfresh).
    apply lookup_seqZ in Hr. destruct Hr as [-> _].
    split; [exact Hid|]. split; [rewrite Hrow; lia|]. split; [exact Hcol|].
    split.
    { rewrite Hrow, Hcol. unfold CONFIG.COLS.
      pose proof (Nat.div_mod_eq i 12). lia. }
    split; [exact Hst|].
    intros Hu. specialize (Hfresh Hu). split; [exact Hfresh|].
    destruct Hfresh as ((? & ?) & (? & ?) & _ & (? & ?) & _).
    unfold inBounds. repeat split; lra.
Qed.

Lemma cellNames_distinct : NoDup (map cellName (seq 1 96)).
Proof. apply (bool_decide_eq_true_1 _). vm_compute. reflexivity. Qed.

(** X1: whatever pack was there before, [generateBatteryData] leaves exactly
    96 cells in row-major order: the cell at index [i] sits at row [i / 12]
    and column [i mod 12], so that [i = row * COLS + col]; it is named
    CELL-nnn with the three-digit ordinal [i + 1], the names are pairwise
    distinct, and every cell starts NORMAL.  The call makes 672 draws and
    touches no other global. *)
Theorem generateBatteryData_layout (w : World) :
  exists cells,
    generateBatteryData rand w = (Normal tt, set_batteryData cells (advance 672 w)) /\
    length cells = 96%nat /\
    map id cells = map cellName (seq 1 96) /\
    NoDup (map id cells) /\
    forall (i : nat) (c : BatteryCell), cells !! i = Some c ->
      row c = Z.of_nat (i / 12) /\ col c = Z.of_nat (i mod 12) /\
      (Z.of_nat i = row c * CONFIG.COLS + col c)%Z /\
      anomalyStatus c = NORMAL.
Proof.
  destruct (generateBatteryData_run w) as (cells & Hrun & Hlen & Hcells).
  assert (Hids : map id cells = map cellName (seq 1 96)).
  { apply list_eq. intros i. rewrite !list_lookup_fmap.
    destruct (cells !! i) as [c|] eqn:E.
    - destruct (Hcells i c E) as (Hid & _).
      assert (Hi : (i < 96)%nat) by (apply lookup_lt_Some in E; lia).
      rewrite lookup_seq_lt by exact Hi. cbn [fmap option_fmap option_map].
      f_equal. exact Hid.
    - apply lookup_ge_None in E. rewrite lookup_seq_ge by lia. reflexivity. }
  exists cells. split; [exact Hrun|]. split; [exact Hlen|].
  split; [exact Hids|]. split; [rewrite Hids; apply cellNames_distinct|].
  intros i c Hi. destruct (Hcells i c Hi) as (_ & H1 & H2 & H3 & H4 & _). auto.
Qed.
End Generation.

Section DetectionFacts.

Lemma detectAnomalies_lookup (w : World) (i : nat) (c : BatteryCell) :
  batteryData w !! i = Some c ->
  batteryData (exec detectAnomalies w) !! i
  = Some (set_anomalyStatus (verdict (avgVoltageOf (batteryData w)) c) c).
Proof.
  intros Hc. rewrite detectAnomalies_data, list_lookup_fmap, Hc.
  cbn [fmap option_fmap option_map]. by rewrite detectCell_verdict.
Qed.

Lemma detectAnomalies_world (w : World) :
  exists r b,
    detectAnomalies w =
      (r, set_statusBanner b
            (set_batteryData (map (detectCell (avgVoltageOf (batteryData w))) (batteryData w)) w)).
Proof.
  unfold detectAnomalies, bind at 1, gets. cbv beta iota zeta.
  unfold bind, modify.
  destruct (updateAnomalyStatus_frame
              (set_batteryData (map (detectCell (avgVoltageOf (batteryData w))) (batteryData w)) w))
    as (r & b & ->).
  destruct r; eexists _, _; reflexivity.
Qed.

(** X2: a detection pass writes nothing but the status of the cells and the
    banner, also when the banner update throws: the pack keeps its length,
    every cell keeps all its other fields, and the history, the grid and the
    oracle counters are untouched. *)
Theorem detectAnomalies_frame (w : World) :
  let w' := exec detectAnomalies w in
  length (batteryData w') = length (batteryData w) /\
  (forall (i : nat) (c : BatteryCell), batteryData w !! i = Some c ->
     exists s, batteryData w' !! i = Some (set_anomalyStatus s c)) /\
  tempHistory w' = tempHistory w /\ gridClasses w' = gridClasses w /\
  randomCalls w' = randomCalls w /\ dateReads w' = dateReads w.
Proof.
  cbv zeta. split; [|split].
  - rewrite detectAnomalies_data. apply length_map.
  - intros i c Hc. eexists. apply detectAnomalies_lookup, Hc.
  - unfold exec. destruct (detectAnomalies_world w) as (r & b & ->).
    repeat split.
Qed.

Lemma Qlt_div_iff (a b c : Q) : 0 < c -> (a < b / c <-> a * c < b).
Proof.
  intros Hc. rewrite <- (Qmult_lt_r a (b / c) c Hc).
  assert (E : b / c * c == b).
  { field. intros E. rewrite E in Hc. apply (Qlt_irrefl 0 Hc). }
  rewrite E. reflexivity.
Qed.

Lemma voltage_band (a v : Q) :
  0 < a -> (0.1 < Qabs (v - a) / a <-> v < 0.9 * a \/ 1.1 * a < v).
Proof.
  intros Ha. split.
  - intros H. apply (Qlt_div_iff _ _ _ Ha) in H.
    destruct (Qlt_le_dec (v - a) 0) as [Hneg|Hpos].
    + rewrite Qabs_neg in H by (apply Qlt_le_weak, Hneg). left. lra.
    + rewrite Qabs_pos in H by exact Hpos. right. lra.
  - intros H. apply (Qlt_div_iff _ _ _ Ha).
    destruct H as [H|H].
    + rewrite Qabs_neg by lra. lra.
    + rewrite Qabs_pos by lra. lra.
Qed.

(** X3: what a pass decides.  A cell ends CRITICAL exactly when its
    temperature is above 55 or its soh below 70; it ends WARNING exactly when
    neither holds and the voltage test fires, so a temperature alone never
    gives WARNING; it ends NORMAL exactly when none applies.  For a positive
    average the voltage test fires when the voltage is below 0.9 or above
    1.1 times the average by more than the margin, and does not fire when
    the voltage is inside that band by the margin. *)
Theorem detect_verdict_iff (w : World) (i : nat) (c : BatteryCell) :
  batteryData w !! i = Some c ->
  let avg := avgVoltageOf (batteryData w) in
  let deviates := js_gt (voltageDeviation avg c) CONFIG.VOLTAGE_DEVIATION = true in
  exists c', batteryData (exec detectAnomalies w) !! i = Some c' /\
    (anomalyStatus c' = CRITICAL <-> 55 < temperature c \/ soh c < 70) /\
    (anomalyStatus c' = WARNING <->
       temperature c <= 55 /\ 70 <= soh c /\ deviates) /\
    (anomalyStatus c' = NORMAL <->
       temperature c <= 55 /\ 70 <= soh c /\ ~ deviates) /\
    (0 < avg ->
       (voltage c < (0.9 - roundoff) * avg \/ (1.1 + roundoff) * avg < voltage c ->
        deviates) /\
       ((0.9 + roundoff) * avg <= voltage c /\ voltage c <= (1.1 - roundoff) * avg ->
        ~ deviates)).
Proof.
  intros Hc avg deviates.
  eexists. split; [apply detectAnomalies_lookup, Hc|].
  change (anomalyStatus (set_anomalyStatus ?s c)) with s.
  fold avg. unfold verdict, CONFIG.SOH_CRITICAL, CONFIG.TEMP_THRESHOLDS.CRITICAL.
  unfold deviates.
  assert (Hband : 0 < avg ->
            (voltage c < (0.9 - roundoff) * avg \/ (1.1 + roundoff) * avg < voltage c ->
             js_gt (voltageDeviation avg c) CONFIG.VOLTAGE_DEVIATION = true) /\
            ((0.9 + roundoff) * avg <= voltage c /\ voltage c <= (1.1 - roundoff) * avg ->
             js_gt (voltageDeviation avg c) CONFIG.VOLTAGE_DEVIATION <> true)).
  { intros Ha. unfold roundoff. split.
    - intros H. apply (voltageDeviation_gt avg c Ha), (voltage_band avg (voltage c) Ha).
      destruct H as [H|H]; [left | right]; lra.
    - intros [H1 H2] H. apply (voltageDeviation_gt avg c Ha) in H.
      apply (voltage_band avg (voltage c) Ha) in H. destruct H as [H|H]; lra. }
  destruct (Qlt_bool (soh c) 70) eqn:Es;
    [apply Qlt_bool_iff in Es | apply Qlt_bool_false_iff in Es];
  (destruct (Qlt_bool 55 (temperature c)) eqn:Et;
    [apply Qlt_bool_iff in Et | apply Qlt_bool_false_iff in Et]);
  destruct (js_gt (voltageDeviation avg c) CONFIG.VOLTAGE_DEVIATION) eqn:Ed;
  (split; [|split; [|split]];
   [ split; [intros H; try discriminate H; auto | intros [H|H]; try reflexivity; exfalso; lra]
   | split; [intros H; try discriminate H; auto | intros (H1 & H2 & H3); try reflexivity; try discriminate H3; exfalso; lra]
   | split; [intros H; try discriminate H; repeat split; auto; discriminate
            | intros (H1 & H2 & H3); try reflexivity; try (exfalso; apply H3; reflexivity); exfalso; lra]
   | exact Hband ]).
Qed.

Lemma detect_verdict_iff_witness :
  exists c', batteryData (exec detectAnomalies (worldOf weakPack)) !! 0%nat = Some c' /\
             anomalyStatus c' = CRITICAL.
Proof.
  destruct (detect_verdict_iff (worldOf weakPack) 0 weakCell eq_refl)
    as (c' & Hc' & Hcrit & _).
  exists c'. split; [exact Hc'|]. apply Hcrit. right. reflexivity.
Defined.
End DetectionFacts.

Section HealthyPack.

Lemma sum_voltage_bounds (lo hi : Q) (d : list BatteryCell) :
  Forall (fun c => lo <= voltage c /\ voltage c <= hi) d ->
  forall z : Q,
    z + inject_Z (Z.of_nat (length d)) * lo
      <= fold_left (fun sum cell => sum + voltage cell) d z /\
    fold_left (fun sum cell => sum + voltage cell) d z
      <= z + inject_Z (Z.of_nat (length d)) * hi.
Proof.
  induction 1 as [|c d [Hlo Hhi] Hd IH]; intros z.
  - cbn [fold_left length]. change (inject_Z (Z.of_nat 0)) with 0. split; lra.
  - cbn [fold_left length]. destruct (IH (z + voltage c)) as [IH1 IH2].
    assert (E : inject_Z (Z.of_nat (S (length d))) == inject_Z (Z.of_nat (length d)) + 1).
    { rewrite Nat2Z.inj_succ, <- Z.add_1_r, inject_Z_plus. reflexivity. }
    rewrite E. split.
    + eapply Qle_trans; [|exact IH1]. lra.
    + eapply Qle_trans; [exact IH2|]. lra.
Qed.

Lemma avgVoltageOf_bounds (lo hi : Q) (d : list BatteryCell) :
  d <> [] ->
  Forall (fun c => lo <= voltage c /\ voltage c <= hi) d ->
  lo <= avgVoltageOf d /\ avgVoltageOf d <= hi.
Proof.
  intros Hne Hall. destruct (sum_voltage_bounds lo hi d Hall 0) as [H1 H2].
  assert (HN : 0 < inject_Z (Z.of_nat (length d))).
  { change 0 with (inject_Z 0). rewrite <- Zlt_Qlt. destruct d; [congruence | simpl; lia]. }
  unfold avgVoltageOf. split.
  - apply Qle_shift_div_l; [exact HN|]. lra.
  - apply Qle_shift_div_r; [exact HN|]. lra.
Qed.

Lemma verdict_normal (a : Q) (c : BatteryCell) :
  0 < a -> temperature c <= 55 -> 70 <= soh c ->
  0.9 * a <= voltage c -> voltage c <= 1.1 * a ->
  verdict a c = NORMAL.
Proof.
  intros Ha Ht Hs Hv1 Hv2.
  destruct (verdict_cases a c) as (_ & _ & _ & H4). apply H4; [exact Hs | exact Ht |].
  destruct (js_gt (voltageDeviation a c) CONFIG.VOLTAGE_DEVIATION) eqn:E; [|reflexivity].
  apply (voltageDeviation_gt a c Ha) in E. apply (voltage_band a (voltage c) Ha) in E.
  exfalso. destruct E; lra.
Qed.

(** A pack without hot or worn cells whose voltages lie in a band narrower
    than ten percent is left all NORMAL by a pass. *)
Lemma healthy_pack_normal (lo hi : Q) (w : World) :
  0 < lo -> hi <= 1.1 * lo ->
  Forall (fun c => temperature c <= 55 /\ 70 <= soh c /\
                   lo <= voltage c /\ voltage c <= hi) (batteryData w) ->
  Forall (fun c => anomalyStatus c = NORMAL) (batteryData (exec detectAnomalies w)).
Proof.
  intros Hlo Hband Hall. rewrite detectAnomalies_data.
  destruct (batteryData w) as [|c0 d] eqn:Ed; [constructor|]. rewrite <- Ed in *.
  assert (Hne : batteryData w <> []) by (rewrite Ed; discriminate).
  destruct (avgVoltageOf_bounds lo hi (batteryData w) Hne) as [Ha1 Ha2].
  { eapply Forall_impl; [exact Hall|]. intros c (_ & _ & ? & ?). auto. }
  apply Forall_fmap. eapply Forall_impl; [exact Hall|].
  intros c (Ht & Hs & Hv1 & Hv2). unfold compose. rewrite detectCell_verdict.
  cbn [anomalyStatus set_anomalyStatus].
  apply verdict_normal; [lra | exact Ht | exact Hs | lra | lra].
Qed.

Lemma no_cell_with_status (s : AnomalyStatus) (data : list BatteryCell) :
  s <> NORMAL ->
  Forall (fun c => anomalyStatus c = NORMAL) data ->
  (0 <? length (filter (fun cell => anomalyStatus cell = s) data))%nat = false.
Proof.
  intros Hs Hall.
  destruct (0 <? length (filter (fun cell => anomalyStatus cell = s) data))%nat eqn:E;
    [|reflexivity].
  apply filter_nonempty in E. destruct E as (c & Hin & Hc).
  rewrite Forall_forall in Hall. rewrite (Hall c Hin) in Hc. congruence.
Qed.

Lemma banner_of_normal_pack (w : World) :
  length (batteryData w) = 96%nat ->
  Forall (fun c => anomalyStatus c = NORMAL) (batteryData w) ->
  statusBanner (exec updateAnomalyStatus w) = mkBanner ["anomaly-status"] "NORMAL".
Proof.
  intros Hlen Hall. unfold exec.
  pose proof (updateAnomalyStatus_run w Hlen) as Hrun. cbv zeta in Hrun. rewrite Hrun.
  cbn [snd statusBanner set_statusBanner].
  rewrite (no_cell_with_status CRITICAL _ ltac:(discriminate) Hall).
  rewrite (no_cell_with_status WARNING _ ltac:(discriminate) Hall).
  reflexivity.
Qed.
End HealthyPack.

Section FreshPack.
Variable rand : nat -> Q.
Hypothesis rand_unit : unitDraws rand.

(** X4: a pack fresh from [generateBatteryData] has no anomaly: the pass
    that follows leaves every cell NORMAL and the banner reads NORMAL. *)
Theorem fresh_pack_is_normal (w : World) :
  let w' := exec detectAnomalies (exec (generateBatteryData rand) w) in
  fst (detectAnomalies (exec (generateBatteryData rand) w)) = Normal tt /\
  length (batteryData w') = 96%nat /\
  Forall (fun c => anomalyStatus c = NORMAL) (batteryData w') /\
  statusBanner w' = mkBanner ["anomaly-status"] "NORMAL".
Proof.
  cbv zeta. destruct (generateBatteryData_run rand w) as (cells & Hrun & Hlen & Hcells).
  set (w0 := set_batteryData cells (advance 672 w)) in *.
  assert (Hgen : exec (generateBatteryData rand) w = w0) by (unfold exec; rewrite Hrun; reflexivity).
  rewrite !Hgen.
  assert (Hlen0 : length (batteryData w0) = 96%nat) by exact Hlen.
  assert (Hall : Forall (fun c => temperature c <= 55 /\ 70 <= soh c /\
                                  3.6 <= voltage c /\ voltage c <= 3.8) (batteryData w0)).
  { apply Forall_lookup. intros i c Hi.
    destruct (Hcells i c Hi) as (_ & _ & _ & _ & _ & Hfresh).
    destruct (Hfresh rand_unit) as [((? & ?) & (? & ?) & _ & _ & (? & ?) & _) _].
    repeat split; lra. }
  pose proof (healthy_pack_normal 3.6 3.8 w0 ltac:(lra) ltac:(lra) Hall) as Hnormal.
  destruct (detectAnomalies_run w0 Hlen0) as (b & Hdet).
  split; [rewrite Hdet; reflexivity|].
  split; [rewrite detectAnomalies_data, length_map; exact Hlen0|].
  split; [exact Hnormal|].
  unfold detectAnomalies, exec, bind at 1, gets. cbv beta iota zeta.
  unfold bind at 1, modify. cbv beta iota.
  apply banner_of_normal_pack.
  - cbn [batteryData set_batteryData]. rewrite length_map. exact Hlen0.
  - rewrite detectAnomalies_data in Hnormal. exact Hnormal.
Qed.
End FreshPack.

Lemma fresh_pack_is_normal_witness :
  statusBanner (exec detectAnomalies (exec (generateBatteryData (fun _ => 0)) emptyWorld))
  = mkBanner ["anomaly-status"] "NORMAL".
Proof.
  exact (proj2 (proj2 (proj2 (fresh_pack_is_normal (fun _ => 0) zeroDraws_unit emptyWorld)))).
Defined.

Section Frames.
Context (R : World -> World -> Prop).
Hypothesis R_refl : forall w, R w w.
Hypothesis R_trans : forall w1 w2 w3, R w1 w2 -> R w2 w3 -> R w1 w3.

Lemma Preserves_ret {A} (a : A) : Preserves R (ret a).
Proof. intros w. apply R_refl. Qed.

Lemma Preserves_throw {A} (e : string) : Preserves R (@throw A e).
Proof. intros w. apply R_refl. Qed.

Lemma Preserves_gets {A} (f : World -> A) : Preserves R (gets f).
Proof. intros w. apply R_refl. Qed.

Lemma Preserves_lift {A} (f : World -> Completion A) : Preserves R (lift f).
Proof. intros w. apply R_refl. Qed.

Lemma Preserves_modify (f : World -> World) :
  (forall w, R w (f w)) -> Preserves R (modify f).
Proof. intros Hf w. apply Hf. Qed.

Lemma Preserves_bind {A B} (m : JS A) (k : A -> JS B) :
  Preserves R m -> (forall a, Preserves R (k a)) -> Preserves R (bind m k).
Proof.
  intros Hm Hk w. unfold bind. specialize (Hm w).
  destruct (m w) as [[a|e] w1]; cbn [snd] in *.
  - eapply R_trans; [exact Hm | apply Hk].
  - exact Hm.
Qed.

Lemma Preserves_forEachJS {A} (f : A -> JS unit) (l : list A) :
  (forall x, Preserves R (f x)) -> Preserves R (forEachJS f l).
Proof.
  intros Hf. induction l as [|x l IH]; cbn [forEachJS].
  - apply Preserves_ret.
  - apply Preserves_bind; [apply Hf | intros _; exact IH].
Qed.

Lemma Preserves_if {A} (b : bool) (m1 m2 : JS A) :
  Preserves R m1 -> Preserves R m2 -> Preserves R (if b then m1 else m2).
Proof. destruct b; auto. Qed.
End Frames.

Section FrameInstances.
Variable rand : nat -> Q.
Variable localeTime : nat -> string.

Lemma keepsPack_refl (w : World) : keepsPack w w.
Proof. reflexivity. Qed.

Lemma keepsPack_trans (w1 w2 w3 : World) :
  keepsPack w1 w2 -> keepsPack w2 w3 -> keepsPack w1 w3.
Proof. unfold keepsPack. congruence. Qed.

Lemma updateMetrics_keepsPack : Preserves keepsPack (updateMetrics localeTime).
Proof.
  intros w. destruct (updateMetrics_run localeTime w) as (w' & -> & H & _). exact H.
Qed.

Lemma updateCellElement_keepsPack (index : nat) : Preserves keepsPack (updateCellElement index).
Proof.
  unfold updateCellElement.
  apply (Preserves_bind _ keepsPack_trans); [apply Preserves_gets, keepsPack_refl|].
  intros data.
  apply (Preserves_bind _ keepsPack_trans);
    [apply Preserves_modify; intros w; reflexivity|].
  intros _. destruct (data !! index) as [cell|]; [|apply Preserves_throw, keepsPack_refl].
  apply (Preserves_bind _ keepsPack_trans);
    [apply Preserves_modify; intros w; reflexivity|].
  intros _.
  apply (Preserves_bind _ keepsPack_trans);
    [apply Preserves_lift, keepsPack_refl|].
  intros cluster. apply Preserves_if.
  - apply Preserves_modify. intros w. reflexivity.
  - apply Preserves_ret, keepsPack_refl.
Qed.

Lemma updateBatteryGrid_keepsPack : Preserves keepsPack (updateBatteryGrid localeTime).
Proof.
  unfold updateBatteryGrid.
  apply (Preserves_bind _ keepsPack_trans); [apply Preserves_gets, keepsPack_refl|].
  intros cells.
  apply (Preserves_bind _ keepsPack_trans).
  - apply (Preserves_forEachJS _ keepsPack_refl keepsPack_trans).
    apply updateCellElement_keepsPack.
  - intros _. apply updateMetrics_keepsPack.
Qed.

(** X5: a tick leaves every cell within the clamp ranges, whatever the pack
    held before (a fault may have pushed a temperature above 60 or a voltage
    above 4.2) and also when a later step of the handler throws; the pack
    keeps its length. *)
Theorem tick_restores_bounds (w : World) :
  let w' := exec (tick rand localeTime) w in
  length (batteryData w') = length (batteryData w) /\
  Forall inBounds (batteryData w').
Proof.
  cbv zeta.
  destruct (mapJS_update_run rand (batteryData w) w) as (d1 & Hmap & Hd1 & Hb1).
  set (w1 := set_batteryData d1 (advance (4 * length (batteryData w)) w)).
  destruct (detectAnomalies_world w1) as (r & b & Hdet).
  set (w2 := set_statusBanner b _) in Hdet.
  assert (Hdata2 : batteryData w2 = map (detectCell (avgVoltageOf d1)) d1) by reflexivity.
  assert (Hfinal : batteryData (exec (tick rand localeTime) w) = batteryData w2).
  { unfold exec, tick. unfold bind at 1, gets. cbv beta iota.
    rewrite (bind_run _ _ _ _ _ Hmap).
    unfold bind at 1, modify. cbv beta iota. fold w1.
    unfold bind. rewrite Hdet. destruct r as [[]|e]; [|reflexivity].
    apply updateBatteryGrid_keepsPack. }
  rewrite Hfinal, Hdata2. split.
  - rewrite length_map. exact Hd1.
  - apply Forall_fmap. eapply Forall_impl; [exact Hb1|].
    intros c Hc. unfold compose. rewrite detectCell_verdict. exact Hc.
Qed.
End FrameInstances.

Section FaultFacts.
Variable rand : nat -> Q.

Lemma sameButHeatAndVoltage_refl (c : BatteryCell) : sameButHeatAndVoltage c c.
Proof. unfold sameButHeatAndVoltage. repeat split. Qed.

Lemma sameButHeatAndVoltage_trans (c1 c2 c3 : BatteryCell) :
  sameButHeatAndVoltage c1 c2 -> sameButHeatAndVoltage c2 c3 -> sameButHeatAndVoltage c1 c3.
Proof.
  unfold sameButHeatAndVoltage. intros (?&?&?&?&?&?&?&?&?) (?&?&?&?&?&?&?&?&?).
  repeat split; congruence.
Qed.

Lemma faultFrame_refl (w : World) : faultFrame w w.
Proof.
  unfold faultFrame. repeat split.
  apply Forall2_same_length_lookup. split; [reflexivity|].
  intros i c c' H1 H2. rewrite H1 in H2. injection H2 as <-.
  apply sameButHeatAndVoltage_refl.
Qed.

Lemma faultFrame_trans (w1 w2 w3 : World) :
  faultFrame w1 w2 -> faultFrame w2 w3 -> faultFrame w1 w3.
Proof.
  unfold faultFrame. intros (F1 & ? & ? & ? & ?) (F2 & ? & ? & ? & ?).
  repeat split; try congruence.
  apply Forall2_same_length_lookup.
  pose proof (Forall2_length _ _ _ F1). pose proof (Forall2_length _ _ _ F2).
  split; [congruence|].
  intros i c c' Hi1 Hi3.
  destruct (lookup_lt_is_Some_2 (batteryData w2) i) as [c2 Hi2].
  { apply lookup_lt_Some in Hi1. lia. }
  eapply sameButHeatAndVoltage_trans.
  - eapply Forall2_lookup_lr; [exact F1 | exact Hi1 | exact Hi2].
  - eapply Forall2_lookup_lr; [exact F2 | exact Hi2 | exact Hi3].
Qed.

Lemma faultFrame_alter (f : BatteryCell -> BatteryCell) (i : nat) (w : World) :
  (forall c, sameButHeatAndVoltage c (f c)) ->
  faultFrame w (set_batteryData (alter f i (batteryData w)) w).
Proof.
  intros Hf. unfold faultFrame. cbn [batteryData tempHistory statusBanner gridClasses
                                     dateReads set_batteryData].
  repeat split.
  apply Forall2_same_length_lookup. split; [by rewrite length_alter|].
  intros j c c' H1 H2.
  destruct (decide (i = j)) as [->|Hne].
  - rewrite list_lookup_alter_eq, H1 in H2. injection H2 as <-. apply Hf.
  - rewrite list_lookup_alter_ne, H1 in H2 by exact Hne. injection H2 as <-.
    apply sameButHeatAndVoltage_refl.
Qed.

Lemma Math_random_faultFrame : Preserves faultFrame (Math_random rand).
Proof.
  intros w. unfold faultFrame. cbn. repeat split.
  apply Forall2_same_length_lookup. split; [reflexivity|].
  intros i c c' H1 H2. rewrite H1 in H2. injection H2 as <-.
  apply sameButHeatAndVoltage_refl.
Qed.

Lemma assignTemperature_faultFrame (index : Z) (t : Q) :
  Preserves faultFrame (assignTemperature index t).
Proof.
  intros w. unfold assignTemperature, bind, gets, modify, throw.
  destruct (index_get (batteryData w) index); cbn [snd].
  - apply faultFrame_alter. intros c. unfold sameButHeatAndVoltage. repeat split.
  - apply faultFrame_refl.
Qed.

Lemma assignVoltage_faultFrame (index : Z) (v : Q) :
  Preserves faultFrame (assignVoltage index v).
Proof.
  intros w. unfold assignVoltage, bind, gets, modify, throw.
  destruct (index_get (batteryData w) index); cbn [snd].
  - apply faultFrame_alter. intros c. unfold sameButHeatAndVoltage. repeat split.
  - apply faultFrame_refl.
Qed.

Lemma randomCellIndex_faultFrame : Preserves faultFrame (randomCellIndex rand).
Proof.
  unfold randomCellIndex.
  apply (Preserves_bind _ faultFrame_trans); [apply Math_random_faultFrame|]. intros r.
  apply (Preserves_bind _ faultFrame_trans); [apply Preserves_gets, faultFrame_refl|].
  intros data. apply Preserves_ret, faultFrame_refl.
Qed.

Lemma simulateFault_faultFrame : Preserves faultFrame (simulateFault rand).
Proof.
  unfold simulateFault.
  apply (Preserves_bind _ faultFrame_trans); [apply Math_random_faultFrame|].
  intros faultType. apply Preserves_if; [|apply Preserves_if].
  - apply (Preserves_bind _ faultFrame_trans); [apply randomCellIndex_faultFrame|].
    intros i. apply (Preserves_bind _ faultFrame_trans); [apply Math_random_faultFrame|].
    intros r. apply assignTemperature_faultFrame.
  - apply (Preserves_bind _ faultFrame_trans); [apply randomCellIndex_faultFrame|].
    intros i. cbv zeta.
    apply (Preserves_bind _ faultFrame_trans); [apply Math_random_faultFrame|].
    intros r.
    apply (Preserves_bind _ faultFrame_trans); [apply assignTemperature_faultFrame|].
    intros _. apply (Preserves_forEachJS _ faultFrame_refl faultFrame_trans).
    intros n. unfold heatNeighbor.
    apply (Preserves_bind _ faultFrame_trans); [apply Math_random_faultFrame|].
    intros r'. apply assignTemperature_faultFrame.
  - apply (Preserves_bind _ faultFrame_trans); [apply randomCellIndex_faultFrame|].
    intros i. apply (Preserves_bind _ faultFrame_trans); [apply Preserves_gets, faultFrame_refl|].
    intros data. apply assignVoltage_faultFrame.
Qed.

(** X6: whatever the pack and the draws, and whether it completes or throws,
    [simulateFault] changes at most temperatures and voltages: the pack
    keeps its length, every cell keeps its id, position, current, soc, soh,
    resistance, cycles and status, and the history, the banner and the grid
    are untouched. *)
Theorem simulateFault_frame (w : World) :
  let w' := exec (simulateFault rand) w in
  length (batteryData w') = length (batteryData w) /\
  (forall (i : nat) (c : BatteryCell), batteryData w !! i = Some c ->
     exists c', batteryData w' !! i = Some c' /\ sameButHeatAndVoltage c c') /\
  tempHistory w' = tempHistory w /\ statusBanner w' = statusBanner w /\
  gridClasses w' = gridClasses w /\ dateReads w' = dateReads w.
Proof.
  cbv zeta. destruct (simulateFault_faultFrame w) as (F & H1 & H2 & H3 & H4).
  fold (exec (simulateFault rand) w) in *.
  split; [symmetry; exact (Forall2_length _ _ _ F)|].
  split; [|auto].
  intros i c Hc.
  destruct (lookup_lt_is_Some_2 (batteryData (exec (simulateFault rand) w)) i) as [c' Hc'].
  { rewrite <- (Forall2_length _ _ _ F). eapply lookup_lt_Some, Hc. }
  exists c'. split; [exact Hc'|]. eapply Forall2_lookup_lr; eauto.
Qed.

(** X7: on an empty pack every fault throws a TypeError (there is no cell to
    write to) and the pack stays empty. *)
Theorem simulateFault_empty_pack (w : World) :
  batteryData w = [] ->
  fst (simulateFault rand w) = Throw TypeError /\
  batteryData (exec (simulateFault rand) w) = [].
Proof.
  intros Hempty.
  assert (Hget : forall (w0 : World) (i : Z), batteryData w0 = [] ->
                   index_get (batteryData w0) i = None).
  { intros w0 i ->. unfold index_get. destruct (0 <=? i)%Z; reflexivity. }
  assert (HT : forall (w0 : World) (i : Z) (t : Q), batteryData w0 = [] ->
                 assignTemperature i t w0 = (Throw TypeError, w0)).
  { intros w0 i t H0. unfold assignTemperature, bind, gets. rewrite (Hget w0 i H0). reflexivity. }
  assert (HV : forall (w0 : World) (i : Z) (v : Q), batteryData w0 = [] ->
                 assignVoltage i v w0 = (Throw TypeError, w0)).
  { intros w0 i v H0. unfold assignVoltage, bind, gets. rewrite (Hget w0 i H0). reflexivity. }
  unfold exec, simulateFault.
  rewrite (bind_run _ _ _ _ _ (Math_random_run rand w)).
  destruct (Qlt_bool _ 0.33); [|destruct (Qlt_bool _ 0.66)].
  - rewrite (bind_run _ _ _ _ _ (randomCellIndex_run rand _)).
    rewrite (bind_run _ _ _ _ _ (Math_random_run rand _)).
    rewrite HT by exact Hempty. split; [reflexivity | exact Hempty].
  - rewrite (bind_run _ _ _ _ _ (randomCellIndex_run rand _)). cbv zeta.
    rewrite (bind_run _ _ _ _ _ (Math_random_run rand _)).
    unfold bind. rewrite HT by exact Hempty. split; [reflexivity | exact Hempty].
  - rewrite (bind_run _ _ _ _ _ (randomCellIndex_run rand _)).
    unfold bind, gets. cbv beta iota.
    rewrite HV by exact Hempty. split; [reflexivity | exact Hempty].
Qed.
End FaultFacts.

Lemma simulateFault_empty_pack_witness :
  fst (simulateFault (fun _ => 0) emptyWorld) = Throw TypeError.
Proof. exact (proj1 (simulateFault_empty_pack (fun _ => 0) emptyWorld eq_refl)). Defined.

Section FaultDetection.
Variable rand : nat -> Q.
Hypothesis rand_unit : unitDraws rand.

Lemma simulateFault_hotspot_run (w : World) :
  batteryData w <> [] ->
  rand (randomCalls w) < 0.33 ->
  let index := Qfloor (rand (1 + randomCalls w)%nat
                       * inject_Z (Z.of_nat (length (batteryData w)))) in
  (0 <= index < Z.of_nat (length (batteryData w)))%Z /\
  simulateFault rand w =
    (Normal tt,
     set_batteryData
       (alter (set_temperature (CONFIG.TEMP_THRESHOLDS.CRITICAL
                                + rand (1 + (1 + randomCalls w))%nat * 10))
              (Z.to_nat index) (batteryData w))
       (advance 1 (advance 1 (advance 1 w)))).
Proof.
  intros Hne Hft index.
  assert (Hidx : (0 <= index < Z.of_nat (length (batteryData w)))%Z).
  { destruct (rand_unit (1 + randomCalls w)%nat) as [H0 H1].
    apply (randomIndex_range _ _ H0 H1). destruct (batteryData w); [congruence | simpl; lia]. }
  split; [exact Hidx|].
  destruct (index_get_in_range (batteryData w) index Hidx) as [ci Hci].
  unfold simulateFault.
  rewrite (bind_run _ _ _ _ _ (Math_random_run rand w)).
  apply Qlt_bool_iff in Hft. rewrite Hft.
  rewrite (bind_run _ _ _ _ _ (randomCellIndex_run rand _)).
  rewrite (bind_run _ _ _ _ _ (Math_random_run rand _)).
  erewrite assignTemperature_run by exact Hci. reflexivity.
Qed.

Lemma simulateFault_voltage_run (w : World) :
  batteryData w <> [] ->
  0.66 <= rand (randomCalls w) ->
  let index := Qfloor (rand (1 + randomCalls w)%nat
                       * inject_Z (Z.of_nat (length (batteryData w)))) in
  (0 <= index < Z.of_nat (length (batteryData w)))%Z /\
  simulateFault rand w =
    (Normal tt,
     set_batteryData
       (alter (set_voltage (avgVoltageOf (batteryData w)
                            * (1 + CONFIG.VOLTAGE_DEVIATION + 0.05)))
              (Z.to_nat index) (batteryData w))
       (advance 1 (advance 1 w))).
Proof.
  intros Hne Hft index.
  assert (Hidx : (0 <= index < Z.of_nat (length (batteryData w)))%Z).
  { destruct (rand_unit (1 + randomCalls w)%nat) as [H0 H1].
    apply (randomIndex_range _ _ H0 H1). destruct (batteryData w); [congruence | simpl; lia]. }
  split; [exact Hidx|].
  destruct (index_get_in_range (batteryData w) index Hidx) as [ci Hci].
  unfold simulateFault.
  rewrite (bind_run _ _ _ _ _ (Math_random_run rand w)).
  assert (H1 : Qlt_bool (rand (randomCalls w)) 0.33 = false) by (apply Qlt_bool_false_iff; lra).
  assert (H2 : Qlt_bool (rand (randomCalls w)) 0.66 = false) by (apply Qlt_bool_false_iff; lra).
  rewrite H1, H2.
  rewrite (bind_run _ _ _ _ _ (randomCellIndex_run rand _)).
  unfold bind, gets. cbv beta iota.
  erewrite assignVoltage_run by exact Hci. reflexivity.
Qed.

(** X8: an isolated-hotspot fault and the detection pass that follows it.
    The fault writes [CRITICAL + heat * 10], a temperature between 55 and
    65, to one cell of the pack and leaves the others as they are.  When
    the heat draw is at least the margin, the pass marks the struck cell
    CRITICAL.  When the heat draw is 0, the cell holds exactly 55.0, which
    the strict test does not flag: it is CRITICAL only if its soh is below
    70. *)
Theorem hotspot_fault_detected (w : World) :
  batteryData w <> [] ->
  rand (randomCalls w) < 0.33 ->
  let heat := rand (2 + randomCalls w)%nat in
  let t := CONFIG.TEMP_THRESHOLDS.CRITICAL + heat * 10 in
  let w1 := exec (simulateFault rand) w in
  exists (index : nat) (c c' : BatteryCell),
    batteryData w !! index = Some c /\
    batteryData w1 = alter (set_temperature t) index (batteryData w) /\
    batteryData (exec detectAnomalies w1) !! index = Some c' /\
    temperature c' = t /\ 55 <= t /\ t <= 65 /\
    (roundoff <= heat -> anomalyStatus c' = CRITICAL) /\
    (heat == 0 -> 70 <= soh c -> anomalyStatus c' <> CRITICAL).
Proof.
  intros Hne Hft heat t w1.
  destruct (simulateFault_hotspot_run w Hne Hft) as (Hidx & Hrun). cbv zeta in Hidx, Hrun.
  set (index := Z.to_nat (Qfloor (rand (1 + randomCalls w)%nat
                                  * inject_Z (Z.of_nat (length (batteryData w)))))) in *.
  destruct (lookup_lt_is_Some_2 (batteryData w) index) as [c Hc]; [unfold index; lia|].
  fold heat t in Hrun.
  assert (Hd1 : batteryData w1 = alter (set_temperature t) index (batteryData w)).
  { unfold w1, exec. rewrite Hrun. reflexivity. }
  assert (Hw1 : batteryData w1 !! index = Some (set_temperature t c)).
  { rewrite Hd1, list_lookup_alter_eq, Hc. reflexivity. }
  assert (Ht : 55 <= t /\ t <= 65).
  { unfold t, CONFIG.TEMP_THRESHOLDS.CRITICAL.
    destruct (rand_unit (2 + randomCalls w)%nat) as [H0 H1]. fold heat in H0, H1.
    split; lra. }
  exists index, c. eexists. split; [exact Hc|]. split; [exact Hd1|].
  split; [apply detectAnomalies_lookup, Hw1|].
  cbn [temperature anomalyStatus set_anomalyStatus set_temperature].
  split; [reflexivity|]. split; [apply Ht|]. split; [apply Ht|].
  split.
  - intros Hheat.
    destruct (verdict_cases (avgVoltageOf (batteryData w1)) (set_temperature t c))
      as (_ & H2 & _).
    apply H2. cbn [temperature set_temperature].
    unfold t, CONFIG.TEMP_THRESHOLDS.CRITICAL. unfold roundoff in Hheat. lra.
  - intros Hzero Hsoh. unfold verdict. cbn [soh temperature set_temperature].
    assert (E1 : Qlt_bool (soh c) CONFIG.SOH_CRITICAL = false)
      by (apply Qlt_bool_false_iff; exact Hsoh).
    assert (E2 : Qlt_bool CONFIG.TEMP_THRESHOLDS.CRITICAL t = false).
    { apply Qlt_bool_false_iff. unfold t, CONFIG.TEMP_THRESHOLDS.CRITICAL. lra. }
    rewrite E1, E2. destruct (js_gt _ _); discriminate.
Qed.

Lemma fold_left_voltageSum (d : list BatteryCell) : forall z : Q,
  fold_left (fun sum cell => sum + voltage cell) d z == z + voltageSum d.
Proof.
  induction d as [|c d IH]; intros z; cbn [fold_left].
  - unfold voltageSum. cbn [fold_right]. lra.
  - rewrite IH. unfold voltageSum. cbn [fold_right]. lra.
Qed.

Lemma voltageSum_alter (v : Q) (d : list BatteryCell) : forall (i : nat) (c : BatteryCell),
  d !! i = Some c ->
  voltageSum (alter (set_voltage v) i d) == voltageSum d - voltage c + v.
Proof.
  induction d as [|c0 d IH]; intros i c Hi; [rewrite lookup_nil in Hi; discriminate|].
  destruct i as [|i].
  - injection Hi as ->. cbn [alter list_alter voltageSum fold_right voltage set_voltage].
    fold (voltageSum d). lra.
  - cbn [alter list_alter voltageSum fold_right]. fold (voltageSum d).
    fold (voltageSum (alter (set_voltage v) i d)).
    rewrite (IH i c Hi). lra.
Qed.

Lemma voltageSum_ge (d : list BatteryCell) :
  Forall (fun c => 0 <= voltage c) d ->
  0 <= voltageSum d /\
  forall (i : nat) (c : BatteryCell), d !! i = Some c -> voltage c <= voltageSum d.
Proof.
  induction 1 as [|c0 d H0 Hd [IH0 IH]]; cbn [voltageSum fold_right].
  - split; [lra|]. intros i c Hi. rewrite lookup_nil in Hi. discriminate.
  - fold (voltageSum d). split; [lra|].
    intros [|i] c Hi.
    + injection Hi as ->. lra.
    + specialize (IH i c Hi). lra.
Qed.

Lemma avgVoltageOf_96 (d : list BatteryCell) :
  length d = 96%nat -> 96 * avgVoltageOf d == voltageSum d.
Proof.
  intros Hlen. unfold avgVoltageOf. rewrite Hlen, fold_left_voltageSum.
  change (inject_Z (Z.of_nat 96)) with 96. rewrite Qplus_0_l. field.
Qed.

(** X9: a voltage-imbalance fault on the 96-cell pack is caught by the next
    detection pass.  Whenever no voltage is negative and the average is
    positive, the fault sets one cell of the pack to 1.15 times the old
    average, up to the margin, and leaves the others as they are; the
    struck cell then fails the ten-percent test against the new average and
    ends the pass WARNING, or CRITICAL if its temperature or soh say so; it
    never stays NORMAL. *)
Theorem voltage_fault_detected (w : World) :
  length (batteryData w) = 96%nat ->
  Forall (fun c => 0 <= voltage c) (batteryData w) ->
  0 < avgVoltageOf (batteryData w) ->
  0.66 <= rand (randomCalls w) ->
  let avg := avgVoltageOf (batteryData w) in
  let w1 := exec (simulateFault rand) w in
  exists (index : nat) (v : Q) (c' : BatteryCell),
    (index < 96)%nat /\
    batteryData w1 = alter (set_voltage v) index (batteryData w) /\
    (1.15 - roundoff) * avg <= v /\ v <= (1.15 + roundoff) * avg /\
    batteryData (exec detectAnomalies w1) !! index = Some c' /\
    voltage c' = v /\
    anomalyStatus c' <> NORMAL /\
    (temperature c' <= 55 -> 70 <= soh c' -> anomalyStatus c' = WARNING).
Proof.
  intros Hlen Hpos Havg Hft avg w1.
  assert (Hne : batteryData w <> []) by (intros E; rewrite E in Hlen; discriminate).
  destruct (simulateFault_voltage_run w Hne Hft) as (Hidx & Hrun). cbv zeta in Hidx, Hrun.
  rewrite Hlen in Hidx, Hrun. change (inject_Z (Z.of_nat 96)) with 96 in Hidx, Hrun.
  set (index := Z.to_nat (Qfloor (rand (1 + randomCalls w)%nat * 96))) in *.
  destruct (lookup_lt_is_Some_2 (batteryData w) index) as [c Hc]; [unfold index; lia|].
  set (v := avgVoltageOf (batteryData w) * (1 + CONFIG.VOLTAGE_DEVIATION + 0.05)) in Hrun.
  set (d' := alter (set_voltage v) index (batteryData w)) in Hrun.
  assert (Hd' : batteryData w1 = d').
  { unfold w1, exec. rewrite Hrun. reflexivity. }
  assert (Hw1 : batteryData w1 !! index = Some (set_voltage v c)).
  { rewrite Hd'. unfold d'. rewrite list_lookup_alter_eq, Hc. reflexivity. }
  assert (Hv : v == 1.15 * avgVoltageOf (batteryData w)).
  { unfold v, CONFIG.VOLTAGE_DEVIATION. lra. }
  (* the average after the fault *)
  assert (Hlen' : length d' = 96%nat) by (unfold d'; rewrite length_alter; exact Hlen).
  pose proof (avgVoltageOf_96 _ Hlen) as HA.
  pose proof (avgVoltageOf_96 _ Hlen') as HA'.
  pose proof (voltageSum_alter v (batteryData w) index c Hc) as HS'. fold d' in HS'.
  destruct (voltageSum_ge (batteryData w) Hpos) as [HS0 HSc]. specialize (HSc index c Hc).
  assert (Hc0 : 0 <= voltage c).
  { rewrite Forall_forall in Hpos. apply Hpos. eapply list_elem_of_lookup_2, Hc. }
  unfold avg. clear avg.
  set (S0 := voltageSum (batteryData w)) in *.
  set (S1 := voltageSum d') in *.
  set (a0 := avgVoltageOf (batteryData w)) in *.
  set (a1 := avgVoltageOf d') in *.
  assert (Ha1 : 0 < a1 /\ 1.1 * a1 < v) by (split; lra).
  assert (Hdev : js_gt (voltageDeviation a1 (set_voltage v c)) CONFIG.VOLTAGE_DEVIATION = true).
  { apply (voltageDeviation_gt a1 _ (proj1 Ha1)).
    apply (voltage_band a1 _ (proj1 Ha1)). right. cbn [voltage set_voltage]. apply Ha1. }
  exists index, v. eexists.
  split; [unfold index; lia|]. split; [exact Hd'|].
  split; [unfold roundoff; lra|]. split; [unfold roundoff; lra|].
  split; [apply detectAnomalies_lookup, Hw1|].
  cbn [voltage temperature soh anomalyStatus set_anomalyStatus set_voltage].
  split; [reflexivity|].
  rewrite Hd'. fold a1.
  unfold verdict. cbn [soh temperature set_voltage]. rewrite Hdev.
  split.
  - destruct (Qlt_bool (soh c) CONFIG.SOH_CRITICAL); [discriminate|].
    destruct (Qlt_bool CONFIG.TEMP_THRESHOLDS.CRITICAL (temperature c)); discriminate.
  - intros Ht Hs.
    assert (E1 : Qlt_bool (soh c) CONFIG.SOH_CRITICAL = false)
      by (apply Qlt_bool_false_iff; exact Hs).
    assert (E2 : Qlt_bool CONFIG.TEMP_THRESHOLDS.CRITICAL (temperature c) = false)
      by (apply Qlt_bool_false_iff; exact Ht).
    rewrite E1, E2. reflexivity.
Qed.
End FaultDetection.

Lemma lateDraws_unit : unitDraws (fun n => match n with O => 0.9 | _ => 0.5 end).
Proof. intros [|n]; split; lra. Qed.

Lemma voltage_fault_detected_witness :
  exists (index : nat) (c' : BatteryCell),
    batteryData (exec detectAnomalies
                   (exec (simulateFault (fun n => match n with O => 0.9 | _ => 0.5 end))
                         (worldOf (uniformPack 30)))) !! index = Some c' /\
    anomalyStatus c' <> NORMAL.
Proof.
  destruct (voltage_fault_detected (fun n => match n with O => 0.9 | _ => 0.5 end) lateDraws_unit
              (worldOf (uniformPack 30)) eq_refl)
    as (index & v & c' & _ & _ & _ & _ & Hc' & _ & Hst & _).
  - apply Forall_forall. intros c Hc. apply elem_of_replicate in Hc.
    destruct Hc as [-> _]. vm_compute. discriminate.
  - vm_compute. reflexivity.
  - vm_compute. discriminate.
  - exists index, c'. split; [exact Hc' | exact Hst].
Defined.

Lemma halfDraws_unit : unitDraws (fun n => match n with O => 0 | _ => 0.5 end).
Proof. intros [|n]; split; lra. Qed.

Lemma hotspot_fault_detected_witness :
  exists (index : nat) (c' : BatteryCell),
    batteryData (exec detectAnomalies
                   (exec (simulateFault (fun n => match n with O => 0 | _ => 0.5 end))
                         (worldOf (uniformPack 30)))) !! index = Some c' /\
    anomalyStatus c' = CRITICAL.
Proof.
  destruct (hotspot_fault_detected (fun n => match n with O => 0 | _ => 0.5 end) halfDraws_unit
              (worldOf (uniformPack 30)) ltac:(discriminate) ltac:(reflexivity))
    as (index & c & c' & _ & _ & Hc' & _ & _ & _ & Hcrit & _).
  exists index, c'. split; [exact Hc'|]. apply Hcrit. vm_compute. discriminate.
Defined.

Section ClusterFault.
Variable rand : nat -> Q.
Hypothesis rand_unit : unitDraws rand.

Lemma seedCensus_all :
  Forall (fun index => (3 <=? seedCount index)%nat = true /\ seedMember index index = true)
         (seqZ 0 96).
Proof.
  apply Forall_forall. intros index Hin.
  apply elem_of_seqZ in Hin.
  assert (Hcases : exists k : nat, (k < 96)%nat /\ index = Z.of_nat k).
  { exists (Z.to_nat index). lia. }
  destruct Hcases as (k & Hk & ->). clear Hin.
  do 96 (destruct k as [|k]; [split; vm_compute; reflexivity|]).
  lia.
Qed.

Lemma seedCensus_at (index : Z) :
  (0 <= index < 96)%Z ->
  (3 <= seedCount index)%nat /\ seedMember index index = true.
Proof.
  intros Hi. pose proof seedCensus_all as H. rewrite Forall_forall in H.
  destruct (H index) as [H1 H2]; [apply elem_of_seqZ; lia|].
  split; [exact (proj1 (Nat.leb_le 3 (seedCount index)) H1) | exact H2].
Qed.

Lemma filter_length_le {A} (p q : A -> bool) (l : list A) :
  (forall x, In x l -> p x = true -> q x = true) ->
  (length (List.filter p l) <= length (List.filter q l))%nat.
Proof.
  induction l as [|x l IH]; intros H; [reflexivity|].
  cbn [List.filter].
  assert (IH' : (length (List.filter p l) <= length (List.filter q l))%nat).
  { apply IH. intros y Hy. apply H. by right. }
  destruct (p x) eqn:Ep.
  - rewrite (H x (or_introl eq_refl) Ep). simpl. lia.
  - destruct (q x); simpl; lia.
Qed.

Lemma clusterSeed_in_range (index j : Z) :
  (0 <= index < 96)%Z -> j ∈ clusterSeed index -> (0 <= j < 96)%Z.
Proof.
  intros Hi Hj. unfold clusterSeed in Hj. apply elem_of_cons in Hj.
  destruct Hj as [->|Hj]; [exact Hi|].
  apply elem_of_take in Hj. destruct Hj as (k & Hk & _).
  apply list_elem_of_lookup_2 in Hk. apply getNeighbors_in_range in Hk; tauto.
Qed.

(** Once every struck cell is hot, every seed member is a cluster member. *)
Lemma seedMember_clusterMember (data : list BatteryCell) (index j : Z) :
  length data = 96%nat -> (0 <= index < 96)%Z ->
  (forall k, k ∈ clusterSeed index -> hotAt data k = true) ->
  seedMember index j = true -> clusterMember data j = true.
Proof.
  intros Hlen Hi Hhot Hm. unfold seedMember in Hm.
  apply andb_prop in Hm. destruct Hm as [Hj Hn].
  apply bool_decide_eq_true_1 in Hj. apply Nat.leb_le in Hn.
  pose proof (clusterSeed_in_range index j Hi Hj) as Hjr.
  unfold clusterMember. rewrite (isThermalCluster_total data j Hlen Hjr).
  rewrite (Hhot j Hj). cbn [andb].
  assert (Hle : (2 <= length (List.filter (hotAt data) (getNeighbors j)))%nat).
  { eapply Nat.le_trans; [exact Hn|]. apply filter_length_le.
    intros n _ Hin. apply Hhot. exact (bool_decide_eq_true_1 _ Hin). }
  apply Nat.leb_le in Hle. rewrite Hle. reflexivity.
Qed.

(** The thermal-cluster fault with the range of the values it writes. *)
Lemma heatNeighbors_range_run (l : list Z) : forall w : World,
  (forall n, n ∈ l -> (0 <= n < Z.of_nat (length (batteryData w)))%Z) ->
  exists w',
    forEachJS (heatNeighbor rand) l w = (Normal tt, w') /\
    length (batteryData w') = length (batteryData w) /\
    forall (j : nat) (c : BatteryCell), batteryData w !! j = Some c ->
      exists c', batteryData w' !! j = Some c' /\
        ((Z.of_nat j ∈ l /\ exists t, (45 <= t /\ t < 50) /\ c' = set_temperature t c) \/
         ((Z.of_nat j ∉ l) /\ c' = c)).
Proof.
  induction l as [|n l IH]; intros w Hl.
  - exists w. split; [reflexivity|]. split; [reflexivity|].
    intros j c Hc. exists c. split; [exact Hc|]. right. split; [|reflexivity].
    apply not_elem_of_nil.
  - destruct (index_get_in_range (batteryData w) n) as [cn Hcn]; [apply Hl; left|].
    set (t := CONFIG.TEMP_THRESHOLDS.ELEVATED_MAX + rand (randomCalls w) * 5).
    set (w1 := set_batteryData (alter (set_temperature t) (Z.to_nat n) (batteryData w))
                               (advance 1 w)).
    assert (Hstep : heatNeighbor rand n w = (Normal tt, w1)).
    { unfold heatNeighbor, bind, Math_random. cbv beta iota.
      erewrite assignTemperature_run; [reflexivity | exact Hcn]. }
    assert (Hlen1 : length (batteryData w1) = length (batteryData w)).
    { unfold w1. cbn [batteryData set_batteryData]. apply length_alter. }
    destruct (IH w1) as (w' & Hrun & Hlen & Hcells).
    { intros m Hm. rewrite Hlen1. apply Hl. by right. }
    exists w'. split.
    { cbn [forEachJS]. unfold bind at 1. rewrite Hstep. exact Hrun. }
    split; [congruence|].
    intros j c Hc.
    assert (Ht : 45 <= t /\ t < 50).
    { unfold t, CONFIG.TEMP_THRESHOLDS.ELEVATED_MAX.
      destruct (rand_unit (randomCalls w)) as [? ?]. split; lra. }
    destruct (decide (j = Z.to_nat n)) as [->|Hne].
    + destruct (Hcells (Z.to_nat n) (set_temperature t c)) as (c' & Hc' & Hcase).
      { unfold w1. cbn [batteryData set_batteryData].
        rewrite list_lookup_alter_eq, Hc. reflexivity. }
      exists c'. split; [exact Hc'|]. left.
      assert (Hn0 : (0 <= n)%Z) by (apply index_get_Some in Hcn; tauto).
      split; [rewrite Z2Nat.id by exact Hn0; left|].
      destruct Hcase as [[_ (t' & Ht' & ->)] | [_ ->]].
      * exists t'. split; [exact Ht' | reflexivity].
      * exists t. split; [exact Ht | reflexivity].
    + destruct (Hcells j c) as (c' & Hc' & Hcase).
      { unfold w1. cbn [batteryData set_batteryData].
        rewrite list_lookup_alter_ne by congruence. exact Hc. }
      exists c'. split; [exact Hc'|].
      destruct Hcase as [[Hin Hex] | [Hnin ->]].
      * left. split; [by right | exact Hex].
      * right. split; [|reflexivity].
        intros Hin. apply elem_of_cons in Hin. destruct Hin as [Hj | Hin]; [|contradiction].
        apply Hne. rewrite <- Hj. by rewrite Nat2Z.id.
Qed.

Lemma simulateFault_cluster_run (w : World) :
  length (batteryData w) = 96%nat ->
  0.33 <= rand (randomCalls w) -> rand (randomCalls w) < 0.66 ->
  let index := Qfloor (rand (1 + randomCalls w)%nat * 96) in
  (0 <= index < 96)%Z /\
  exists w', simulateFault rand w = (Normal tt, w') /\
    length (batteryData w') = 96%nat /\
    forall (j : nat) (c : BatteryCell), batteryData w !! j = Some c ->
      exists c', batteryData w' !! j = Some c' /\
        ((Z.of_nat j ∈ clusterSeed index /\
          exists t, (45 <= t /\ t < 50) /\ c' = set_temperature t c) \/
         ((Z.of_nat j ∉ clusterSeed index) /\ c' = c)).
Proof.
  intros Hlen E1 E2 index.
  assert (Hidx : (0 <= index < 96)%Z).
  { destruct (rand_unit (1 + randomCalls w)%nat) as [H0 H1].
    exact (randomIndex_range _ 96 H0 H1 ltac:(lia)). }
  split; [exact Hidx|].
  destruct (index_get_in_range (batteryData w) index) as [ci Hci]; [lia|].
  unfold simulateFault.
  rewrite (bind_run _ _ _ _ _ (Math_random_run rand w)).
  assert (B1 : Qlt_bool (rand (randomCalls w)) 0.33 = false) by (apply Qlt_bool_false_iff; lra).
  assert (B2 : Qlt_bool (rand (randomCalls w)) 0.66 = true) by (apply Qlt_bool_iff; lra).
  rewrite B1, B2.
  rewrite (bind_run _ _ _ _ _ (randomCellIndex_run rand _)). cbv zeta.
  rewrite (bind_run _ _ _ _ _ (Math_random_run rand _)).
  cbn [batteryData randomCalls advance]. rewrite Hlen.
  change (inject_Z (Z.of_nat 96)) with 96.
  change (Qfloor (rand (1 + randomCalls w)%nat * 96)) with index.
  set (t0 := CONFIG.TEMP_THRESHOLDS.ELEVATED_MAX + _).
  match goal with
  | |- context [bind (assignTemperature index t0) ?k ?w0] =>
      rewrite (bind_run _ k w0 _ _ (assignTemperature_run index t0 w0 ci Hci))
  end.
  set (w1 := set_batteryData _ _).
  assert (Hlen1 : length (batteryData w1) = 96%nat).
  { unfold w1. cbn [batteryData set_batteryData]. rewrite length_alter. exact Hlen. }
  assert (Ht0 : 45 <= t0 /\ t0 < 50).
  { unfold t0, CONFIG.TEMP_THRESHOLDS.ELEVATED_MAX.
    destruct (rand_unit (1 + (1 + randomCalls w))%nat) as [? ?]. split; lra. }
  destruct (heatNeighbors_range_run (take 3 (getNeighbors index)) w1)
    as (w' & Hrun & Hlen' & Hcells).
  { intros n Hn. rewrite Hlen1. apply elem_of_take in Hn.
    destruct Hn as (k & Hk & _). apply list_elem_of_lookup_2 in Hk.
    apply getNeighbors_in_range in Hk; lia. }
  exists w'. split; [exact Hrun|]. split; [congruence|].
  intros j c Hc. unfold clusterSeed.
  destruct (decide (Z.of_nat j = index)) as [Hj|Hj].
  - destruct (Hcells j (set_temperature t0 c)) as (c' & Hc' & Hcase).
    { unfold w1. cbn [batteryData set_batteryData advance].
      rewrite <- Hj, Nat2Z.id, list_lookup_alter_eq, Hc. reflexivity. }
    exists c'. split; [exact Hc'|]. left. split; [rewrite Hj; left|].
    destruct Hcase as [[_ (t' & Ht' & ->)] | [_ ->]].
    + exists t'. split; [exact Ht' | reflexivity].
    + exists t0. split; [exact Ht0 | reflexivity].
  - destruct (Hcells j c) as (c' & Hc' & Hcase).
    { unfold w1. cbn [batteryData set_batteryData advance].
      rewrite list_lookup_alter_ne; [exact Hc|]. intros Heq. apply Hj.
      rewrite <- Heq. apply Z2Nat.id. lia. }
    exists c'. split; [exact Hc'|].
    destruct Hcase as [[Hin Hex] | [Hnin ->]].
    + left. split; [by right | exact Hex].
    + right. split; [|reflexivity].
      intros Hin. apply elem_of_cons in Hin. destruct Hin as [?|?]; contradiction.
Qed.

Lemma index_get_map {A B} (f : A -> B) (l : list A) (i : Z) :
  index_get (map f l) i = f <$> index_get l i.
Proof.
  unfold index_get. destruct (0 <=? i)%Z; [|reflexivity].
  apply (list_lookup_fmap f l).
Qed.

Lemma filterC_ext {A} (p q : A -> Completion bool) (l : list A) :
  (forall x, p x = q x) -> filterC p l = filterC q l.
Proof.
  intros H. induction l as [|x l IH]; [reflexivity|].
  cbn [filterC]. rewrite H, IH. reflexivity.
Qed.

(** Cluster membership looks at temperatures only. *)
Lemma isThermalCluster_map (f : BatteryCell -> BatteryCell) (d : list BatteryCell) (i : Z) :
  (forall c, temperature (f c) = temperature c) ->
  isThermalCluster (map f d) i = isThermalCluster d i.
Proof.
  intros Hf.
  assert (Hhot : forall n, isHot (map f d) n = isHot d n).
  { intros n. unfold isHot. rewrite index_get_map.
    destruct (index_get d n) as [c|]; [|reflexivity].
    cbn [fmap option_fmap option_map]. by rewrite Hf. }
  unfold isThermalCluster. rewrite index_get_map.
  destruct (index_get d i) as [c|]; [|reflexivity].
  cbn [fmap option_fmap option_map]. rewrite Hf.
  destruct (Qlt_bool _ _); [reflexivity|].
  cbv zeta. rewrite (filterC_ext _ _ _ Hhot). reflexivity.
Qed.

Lemma clusterCount_map (f : BatteryCell -> BatteryCell) (d : list BatteryCell) :
  (forall c, temperature (f c) = temperature c) ->
  clusterCount (map f d) = clusterCount d.
Proof.
  intros Hf. unfold clusterCount. rewrite length_map. f_equal.
  apply List.filter_ext. intros i. unfold clusterMember.
  by rewrite (isThermalCluster_map f d i Hf).
Qed.

Lemma cluster_fault_seed_hot (w w' : World) (index : Z) :
  length (batteryData w) = 96%nat -> (0 <= index < 96)%Z ->
  (forall (j : nat) (c : BatteryCell), batteryData w !! j = Some c ->
     exists c', batteryData w' !! j = Some c' /\
       ((Z.of_nat j ∈ clusterSeed index /\
         exists t, (45 <= t /\ t < 50) /\ c' = set_temperature t c) \/
        ((Z.of_nat j ∉ clusterSeed index) /\ c' = c))) ->
  forall k, k ∈ clusterSeed index ->
    exists c', index_get (batteryData w') k = Some c' /\
               45 <= temperature c' /\ temperature c' < 50.
Proof.
  intros Hlen Hi Hcells k Hk.
  pose proof (clusterSeed_in_range index k Hi Hk) as Hkr.
  destruct (lookup_lt_is_Some_2 (batteryData w) (Z.to_nat k)) as [c Hc]; [lia|].
  destruct (Hcells _ c Hc) as (c' & Hc' & [[_ (t & Ht & ->)] | [Hnin _]]).
  - exists (set_temperature t c). split; [|exact Ht].
    apply index_get_Some. split; [lia | exact Hc'].
  - exfalso. apply Hnin. rewrite Z2Nat.id by lia. exact Hk.
Qed.

Lemma cluster_fault_members_aux (w : World) :
  length (batteryData w) = 96%nat ->
  0.33 <= rand (randomCalls w) -> rand (randomCalls w) < 0.66 ->
  let index := Qfloor (rand (1 + randomCalls w)%nat * 96) in
  let data' := batteryData (exec (simulateFault rand) w) in
  fst (simulateFault rand w) = Normal tt /\
  (forall k, k ∈ clusterSeed index ->
     exists c', index_get data' k = Some c' /\ 45 <= temperature c' /\ temperature c' < 50) /\
  isThermalCluster data' index = Normal true /\
  (3 <= clusterCount data')%nat.
Proof.
  intros Hlen E1 E2 index data'.
  destruct (simulateFault_cluster_run w Hlen E1 E2) as (Hidx & w' & Hrun & Hlen' & Hcells).
  fold index in Hidx, Hcells.
  assert (Hd : data' = batteryData w') by (unfold data', exec; rewrite Hrun; reflexivity).
  rewrite Hd.
  pose proof (cluster_fault_seed_hot w w' index Hlen Hidx Hcells) as Hseed.
  assert (Hhot : forall k, k ∈ clusterSeed index -> hotAt (batteryData w') k = true).
  { intros k Hk. destruct (Hseed k Hk) as (c' & Hc' & Ht & _).
    unfold hotAt. rewrite Hc'. apply Qle_bool_iff. exact Ht. }
  destruct (seedCensus_at index Hidx) as [Hcount Hself].
  split; [rewrite Hrun; reflexivity|]. split; [exact Hseed|]. split.
  - pose proof (seedMember_clusterMember _ index index Hlen' Hidx Hhot Hself) as Hm.
    unfold clusterMember in Hm.
    destruct (isThermalCluster (batteryData w') index) as [[|]|]; congruence.
  - unfold clusterCount. rewrite Hlen'. change (Z.of_nat 96) with 96%Z.
    eapply Nat.le_trans; [exact Hcount|].
    unfold seedCount. apply filter_length_le.
    intros j _ Hj. exact (seedMember_clusterMember _ index j Hlen' Hidx Hhot Hj).
Qed.

(** X10: a thermal-cluster fault on the 96-cell pack always produces a
    cluster.  It completes; for some centre of the grid, the centre and the
    first three cells of its neighbour list end between 45 and 50 degrees
    and every other cell is as before; the centre is a cluster member, and
    at least three cells of the pack are. *)
Theorem cluster_fault_members (w : World) :
  length (batteryData w) = 96%nat ->
  0.33 <= rand (randomCalls w) -> rand (randomCalls w) < 0.66 ->
  let data' := batteryData (exec (simulateFault rand) w) in
  fst (simulateFault rand w) = Normal tt /\
  exists index : Z, (0 <= index < 96)%Z /\
    (forall k, k ∈ clusterSeed index ->
       exists c', index_get data' k = Some c' /\
                  45 <= temperature c' /\ temperature c' <= 50) /\
    (forall (j : nat) (c : BatteryCell),
       batteryData w !! j = Some c -> Z.of_nat j ∉ clusterSeed index ->
       data' !! j = Some c) /\
    isThermalCluster data' index = Normal true /\
    (3 <= clusterCount data')%nat.
Proof.
  intros Hlen E1 E2 data'.
  destruct (cluster_fault_members_aux w Hlen E1 E2) as (Hrun & Hseed & Hcentre & Hcount).
  destruct (simulateFault_cluster_run w Hlen E1 E2) as (Hidx & w' & Hrun' & _ & Hcells).
  cbv zeta in Hidx, Hcells.
  split; [exact Hrun|].
  eexists. split; [exact Hidx|]. split; [|split; [|split]].
  - intros k Hk. destruct (Hseed k Hk) as (c' & Hc' & Ht1 & Ht2).
    exists c'. split; [exact Hc'|]. split; [exact Ht1 | apply Qlt_le_weak, Ht2].
  - intros j c Hc Hnin. unfold data', exec. rewrite Hrun'. cbn [snd].
    destruct (Hcells j c Hc) as (c' & Hc' & [[Hin _] | [_ ->]]);
      [contradiction | exact Hc'].
  - exact Hcentre.
  - exact Hcount.
Qed.

(** X11: detection after a thermal-cluster fault.  The banner then never
    reads plain CRITICAL: it reads THERMAL CLUSTER DETECTED exactly when some
    cell of the pack is above 55 degrees or below 70 percent soh.  The fault
    itself writes temperatures below 50, so on a pack without such a cell
    the cluster is not announced. *)
Theorem cluster_fault_banner (w : World) :
  length (batteryData w) = 96%nat ->
  0.33 <= rand (randomCalls w) -> rand (randomCalls w) < 0.66 ->
  let w' := exec (simulateFault rand) w in
  let banner := textContent (statusBanner (exec detectAnomalies w')) in
  banner <> "CRITICAL" /\
  (banner = "THERMAL CLUSTER DETECTED" <->
     exists c, c ∈ batteryData w' /\ (55 < temperature c \/ soh c < 70)) /\
  ((forall c, c ∈ batteryData w -> temperature c <= 55 /\ 70 <= soh c) ->
     banner <> "THERMAL CLUSTER DETECTED").
Proof.
  intros Hlen E1 E2 w' banner.
  destruct (simulateFault_cluster_run w Hlen E1 E2) as (Hidx & w0 & Hrun & Hlen' & Hcells).
  assert (Hw' : w' = w0) by (unfold w', exec; rewrite Hrun; reflexivity).
  assert (Hmembers : (3 <= clusterCount (batteryData w'))%nat).
  { exact (proj2 (proj2 (proj2 (cluster_fault_members_aux w Hlen E1 E2)))). }
  unfold banner. clear banner. rewrite Hw' in *. clear Hw' w'.
  set (banner := textContent (statusBanner (exec detectAnomalies w0))).
  set (a := avgVoltageOf (batteryData w0)).
  set (w1 := set_batteryData (map (detectCell a) (batteryData w0)) w0).
  assert (Hlen1 : length (batteryData w1) = 96%nat).
  { unfold w1. cbn [batteryData set_batteryData]. by rewrite length_map. }
  assert (Hb : banner = textContent (statusBanner (exec updateAnomalyStatus w1))) by reflexivity.
  pose proof (updateAnomalyStatus_run w1 Hlen1) as Hup. cbv zeta in Hup.
  assert (Hcc : clusterCount (batteryData w1) = clusterCount (batteryData w0)).
  { unfold w1. cbn [batteryData set_batteryData]. apply clusterCount_map.
    intros c. rewrite detectCell_verdict. reflexivity. }
  assert (H3 : (3 <=? clusterCount (batteryData w1))%nat = true).
  { apply Nat.leb_le. rewrite Hcc. exact Hmembers. }
  rewrite H3 in Hup.
  pose proof (filter_nonempty (fun cell => anomalyStatus cell = CRITICAL) (batteryData w1)) as Hcrit.
  assert (Hany : (exists c, c ∈ batteryData w1 /\ anomalyStatus c = CRITICAL) <->
                 (exists c, c ∈ batteryData w0 /\ (55 < temperature c \/ soh c < 70))).
  { unfold w1. cbn [batteryData set_batteryData]. split.
    - intros (c1 & Hin & Hs). apply list_elem_of_fmap in Hin. destruct Hin as (c & -> & Hin).
      exists c. split; [exact Hin|].
      rewrite detectCell_verdict in Hs. cbn [anomalyStatus set_anomalyStatus] in Hs.
      unfold verdict, CONFIG.SOH_CRITICAL, CONFIG.TEMP_THRESHOLDS.CRITICAL in Hs.
      destruct (Qlt_bool (soh c) 70) eqn:Es; [right; by apply Qlt_bool_iff|].
      destruct (Qlt_bool 55 (temperature c)) eqn:Et; [left; by apply Qlt_bool_iff|].
      destruct (js_gt _ _); discriminate.
    - intros (c & Hin & Hc). exists (detectCell a c). split.
      + apply list_elem_of_fmap. exists c. auto.
      + rewrite detectCell_verdict. cbn [anomalyStatus set_anomalyStatus].
        destruct (verdict_cases a c) as (V1 & V2 & _). destruct Hc; auto. }
  assert (Hmain : banner <> "CRITICAL" /\
                  (banner = "THERMAL CLUSTER DETECTED" <->
                   exists c, c ∈ batteryData w0 /\ (55 < temperature c \/ soh c < 70))).
  { rewrite Hb. unfold exec. rewrite Hup. cbn [snd statusBanner set_statusBanner].
    rewrite <- Hany, <- Hcrit.
    destruct (0 <? length (filter (fun cell => anomalyStatus cell = CRITICAL) (batteryData w1)))%nat.
    - cbn [textContent]. split; [discriminate | tauto].
    - destruct (0 <? _)%nat; cbn [textContent];
        (split; [discriminate | split; discriminate]). }
  destruct Hmain as [Hm1 Hm2]. split; [exact Hm1|]. split; [exact Hm2|].
  intros Hhealthy Hb'. apply Hm2 in Hb'. destruct Hb' as (c' & Hin & Hc').
  apply list_elem_of_lookup in Hin. destruct Hin as (j & Hj).
  destruct (lookup_lt_is_Some_2 (batteryData w) j) as [c Hc].
  { rewrite Hlen, <- Hlen'. eapply lookup_lt_Some, Hj. }
  destruct (Hhealthy c ltac:(eapply list_elem_of_lookup_2, Hc)) as [Ht Hs].
  destruct (Hcells j c Hc) as (c2 & Hc2 & Hcase).
  rewrite Hj in Hc2. injection Hc2 as <-.
  destruct Hcase as [[_ (t & [_ Ht50] & ->)] | [_ ->]];
    cbn [temperature soh set_temperature] in Hc'; destruct Hc'; lra.
Qed.
End ClusterFault.

Section Archetypes.
Variable rand : nat -> Q.
Hypothesis rand_unit : unitDraws rand.

(** C6: one call of [simulateFault] on the 96-cell pack applies exactly one
    of three faults, selected by the first draw, to a cell [index] of the
    pack.  The isolated hotspot sets the temperature of that one cell to
    [CRITICAL + r * 10] for the next draw [r], a value between 55 and 65,
    and changes nothing else.  The thermal cluster sets the centre cell and
    the first three entries of its neighbour list to temperatures between
    45 and 50 (hence at least 40) and changes no other cell.  The voltage
    imbalance sets the voltage of that one cell to the average voltage of
    the pack before the call (the sum of the voltages divided by the number
    of cells) times [1 + VOLTAGE_DEVIATION + 0.05]; this is 1.15 times the
    average up to the rounding of the factor and of the product, for which
    the margin leaves room. *)
Theorem simulateFault_archetypes (w : World) :
  length (batteryData w) = 96%nat ->
  let data := batteryData w in
  let faultType := rand (randomCalls w) in
  exists (w' : World) (index : Z),
    simulateFault rand w = (Normal tt, w') /\ (0 <= index < 96)%Z /\
    (faultType < 0.33 ->
       exists t,
         t = CONFIG.TEMP_THRESHOLDS.CRITICAL + rand (2 + randomCalls w)%nat * 10 /\
         55 <= t /\ t <= 65 /\
         batteryData w' = alter (set_temperature t) (Z.to_nat index) data) /\
    (0.33 <= faultType -> faultType < 0.66 ->
       length (batteryData w') = 96%nat /\
       forall (j : nat) (c : BatteryCell), data !! j = Some c ->
         exists c', batteryData w' !! j = Some c' /\
           (((Z.of_nat j = index \/ Z.of_nat j ∈ take 3 (getNeighbors index)) /\
             exists t, 40 <= t /\ 45 <= t /\ t <= 50 /\ c' = set_temperature t c) \/
            (~ (Z.of_nat j = index \/ Z.of_nat j ∈ take 3 (getNeighbors index)) /\
             c' = c))) /\
    (0.66 <= faultType ->
       let avgVoltage :=
         fold_left (fun sum cell => sum + voltage cell) data 0
         / inject_Z (Z.of_nat (length data)) in
       exists v,
         v = avgVoltage * (1 + CONFIG.VOLTAGE_DEVIATION + 0.05) /\
         Qabs (v - 1.15 * avgVoltage) <= roundoff * Qabs avgVoltage /\
         batteryData w' = alter (set_voltage v) (Z.to_nat index) data).
Proof.
  intros Hlen data faultType.
  assert (Hne : batteryData w <> []) by (intros E; rewrite E in Hlen; discriminate).
  destruct (Qlt_le_dec faultType 0.33) as [E1|E1].
  - (* isolated hotspot *)
    destruct (simulateFault_hotspot_run rand rand_unit w Hne E1) as (Hidx & Hrun).
    cbv zeta in Hidx, Hrun. rewrite Hlen in Hidx, Hrun.
    eexists _, _. split; [exact Hrun|]. split; [exact Hidx|].
    split; [|split; [intros H; exfalso; unfold faultType in *; lra
                    |intros H; exfalso; unfold faultType in *; lra]].
    intros _. eexists. split; [reflexivity|].
    destruct (rand_unit (2 + randomCalls w)%nat) as [H0 H1].
    unfold CONFIG.TEMP_THRESHOLDS.CRITICAL.
    split; [lra|]. split; [lra|]. reflexivity.
  - destruct (Qlt_le_dec faultType 0.66) as [E2|E2].
    + (* thermal cluster *)
      destruct (simulateFault_cluster_run rand rand_unit w Hlen E1 E2)
        as (Hidx & w' & Hrun & Hlen' & Hcells).
      cbv zeta in Hidx, Hcells.
      eexists w', _. split; [exact Hrun|]. split; [exact Hidx|].
      split; [intros H; exfalso; unfold faultType in *; lra|].
      split; [|intros H; exfalso; unfold faultType in *; lra].
      intros _ _. split; [exact Hlen'|].
      intros j c Hc. destruct (Hcells j c Hc) as (c' & Hc' & Hcase).
      exists c'. split; [exact Hc'|]. unfold clusterSeed in Hcase.
      destruct Hcase as [[Hin (t & [Ht1 Ht2] & ->)] | [Hnin ->]].
      * left. split.
        -- apply elem_of_cons in Hin. exact Hin.
        -- exists t. split; [lra|]. split; [exact Ht1|]. split; [lra | reflexivity].
      * right. split; [|reflexivity].
        intros Hin. apply Hnin. apply elem_of_cons. exact Hin.
    + (* voltage imbalance *)
      destruct (simulateFault_voltage_run rand rand_unit w Hne E2) as (Hidx & Hrun).
      cbv zeta in Hidx, Hrun. rewrite Hlen in Hidx, Hrun.
      eexists _, _. split; [exact Hrun|]. split; [exact Hidx|].
      split; [intros H; exfalso; unfold faultType in *; lra|].
      split; [intros _ H; exfalso; unfold faultType in *; lra|].
      intros _. cbv zeta. eexists. split; [reflexivity|]. split; [|reflexivity].
      fold (avgVoltageOf data).
      generalize (avgVoltageOf data). intros a.
      assert (E : a * (1 + CONFIG.VOLTAGE_DEVIATION + 0.05) - 1.15 * a == 0).
      { unfold CONFIG.VOLTAGE_DEVIATION. ring. }
      rewrite E. change (Qabs 0) with 0.
      apply Qmult_le_0_compat; [unfold roundoff; lra | apply Qabs_nonneg].
Qed.
End Archetypes.

Lemma simulateFault_archetypes_witness :
  exists w',
    simulateFault (fun n => match n with O => 0.9 | _ => 0.5 end) (worldOf (uniformPack 30))
    = (Normal tt, w').
Proof.
  destruct (simulateFault_archetypes (fun n => match n with O => 0.9 | _ => 0.5 end)
              lateDraws_unit (worldOf (uniformPack 30)) eq_refl)
    as (w' & index & Hrun & _).
  exists w'. exact Hrun.
Defined.

Lemma midDraws_unit : unitDraws (fun _ => 0.5).
Proof. intros n; split; lra. Qed.

Lemma cluster_fault_members_witness :
  (3 <= clusterCount (batteryData (exec (simulateFault (fun _ => 0.5%Q))
                                        (worldOf (uniformPack 30%Q)))))%nat.
Proof.
  destruct (proj2 (cluster_fault_members (fun _ => 0.5) midDraws_unit
                     (worldOf (uniformPack 30)) eq_refl
                     ltac:(vm_compute; discriminate) ltac:(reflexivity)))
    as (index & _ & _ & _ & _ & H).
  exact H.
Defined.

Lemma cluster_fault_banner_witness :
  textContent (statusBanner (exec detectAnomalies
                               (exec (simulateFault (fun _ => 0.5))
                                     (worldOf (uniformPack 30)))))
  <> "THERMAL CLUSTER DETECTED".
Proof.
  apply (proj2 (proj2
    (cluster_fault_banner (fun _ => 0.5) midDraws_unit (worldOf (uniformPack 30)) eq_refl
       ltac:(vm_compute; discriminate) ltac:(reflexivity)))).
  intros c Hc. apply elem_of_replicate in Hc. destruct Hc as [-> _].
  split; vm_compute; discriminate.
Defined.

Section Readers.

Lemma getTempClass_bands_aux (c : BatteryCell) :
  (getTempClass c = "temp-cool" <-> temperature c < 28) /\
  (getTempClass c = "temp-normal" <-> 28 <= temperature c /\ temperature c < 40) /\
  (getTempClass c = "temp-elevated" <-> 40 <= temperature c /\ temperature c < 45) /\
  (getTempClass c = "temp-warning" <-> 45 <= temperature c /\ temperature c < 55) /\
  (getTempClass c = "temp-critical" <-> 55 <= temperature c).
Proof.
  unfold getTempClass, CONFIG.TEMP_THRESHOLDS.COOL_MAX, CONFIG.TEMP_THRESHOLDS.NORMAL_MAX,
    CONFIG.TEMP_THRESHOLDS.ELEVATED_MAX, CONFIG.TEMP_THRESHOLDS.WARNING_MAX.
  destruct (Qlt_bool (temperature c) 28) eqn:E1;
    [apply Qlt_bool_iff in E1 | apply Qlt_bool_false_iff in E1;
     destruct (Qlt_bool (temperature c) 40) eqn:E2;
       [apply Qlt_bool_iff in E2 | apply Qlt_bool_false_iff in E2;
        destruct (Qlt_bool (temperature c) 45) eqn:E3;
          [apply Qlt_bool_iff in E3 | apply Qlt_bool_false_iff in E3;
           destruct (Qlt_bool (temperature c) 55) eqn:E4;
             [apply Qlt_bool_iff in E4 | apply Qlt_bool_false_iff in E4]]]];
  repeat split; intros; try discriminate; try reflexivity; try lra;
    try (exfalso; lra);
    try (match goal with H : _ /\ _ |- _ => destruct H end; exfalso; lra).
Qed.

(** X12: [getTempClass] labels the five half-open temperature bands. *)
Theorem getTempClass_bands (c : BatteryCell) :
  (getTempClass c = "temp-cool" <-> temperature c < 28) /\
  (getTempClass c = "temp-normal" <-> 28 <= temperature c /\ temperature c < 40) /\
  (getTempClass c = "temp-elevated" <-> 40 <= temperature c /\ temperature c < 45) /\
  (getTempClass c = "temp-warning" <-> 45 <= temperature c /\ temperature c < 55) /\
  (getTempClass c = "temp-critical" <-> 55 <= temperature c).
Proof. exact (getTempClass_bands_aux c). Qed.

(** X13: the display class and the anomaly status disagree on the boundary:
    a cell is shown as temp-critical from 55.0 on, while the detection pass
    calls it CRITICAL for its temperature only above 55.0.  So every cell the
    pass marks CRITICAL for its temperature is shown temp-critical, and a
    cell at exactly 55.0 with a healthy soh is shown temp-critical without
    being CRITICAL. *)
Theorem display_class_vs_status (a : Q) (c : BatteryCell) :
  (55 < temperature c ->
     getTempClass c = "temp-critical" /\ anomalyStatus (detectCell a c) = CRITICAL) /\
  (temperature c == 55 -> 70 <= soh c ->
     getTempClass c = "temp-critical" /\ anomalyStatus (detectCell a c) <> CRITICAL).
Proof.
  destruct (getTempClass_bands_aux c) as (_ & _ & _ & _ & Hcrit).
  rewrite detectCell_verdict. cbn [anomalyStatus set_anomalyStatus].
  destruct (verdict_cases a c) as (V1 & V2 & V3 & V4).
  split.
  - intros Ht. split; [apply Hcrit; lra | apply V2, Ht].
  - intros Ht Hs. split; [apply Hcrit; lra|].
    destruct (js_gt (voltageDeviation a c) CONFIG.VOLTAGE_DEVIATION) eqn:E.
    + rewrite V3; [discriminate | exact Hs | lra | reflexivity].
    + rewrite V4; [discriminate | exact Hs | lra | reflexivity].
Qed.

(** X14: [getNeighbors] is the Moore neighbourhood of the 8x12 grid: inside
    the grid it returns, without repetition, exactly the cells whose row and
    column differ by at most one from those of the argument, the argument
    excluded; consequently being a neighbour is symmetric. *)
Theorem getNeighbors_moore (i n : Z) :
  (0 <= i < 96)%Z ->
  NoDup (getNeighbors i) /\
  (n ∈ getNeighbors i <->
     (0 <= n < 96)%Z /\ n <> i /\
     (Z.abs (n / 12 - i / 12) <= 1)%Z /\ (Z.abs (n mod 12 - i mod 12) <= 1)%Z) /\
  (n ∈ getNeighbors i -> i ∈ getNeighbors n).
Proof.
  intros Hi. split; [exact (getNeighbors_NoDup i Hi)|]. split.
  - exact (getNeighbors_adjacent i n Hi).
  - intros Hn. pose proof (getNeighbors_in_range i n Hi Hn) as [Hr _].
    apply (getNeighbors_adjacent i n Hi) in Hn.
    apply (getNeighbors_adjacent n i Hr).
    destruct Hn as (_ & Hne & Hrow & Hcol).
    unfold adjacent, rowOf, colOf in *. repeat split; lia.
Qed.

Lemma getNeighbors_moore_witness : NoDup (getNeighbors 13).
Proof. exact (proj1 (getNeighbors_moore 13 0 ltac:(lia))). Defined.

(** X15: outside the grid the neighbour index is silent rather than failing:
    for an index from 108 on (row 9 or more) and for an index below -12 it
    returns no neighbour at all. *)
Theorem getNeighbors_far_outside (i : Z) :
  (108 <= i \/ i < -12)%Z -> getNeighbors i = [].
Proof.
  intros Hfar. unfold getNeighbors, CONFIG.COLS, CONFIG.ROWS.
  assert (Hrow : (9 <= i / 12 \/ i / 12 < -1)%Z).
  { destruct Hfar as [H|H]; [left|right].
    - apply Z.div_le_lower_bound; lia.
    - apply Z.div_lt_upper_bound; lia. }
  cbn [flat_map app].
  repeat match goal with
  | |- context [(?x <? 8)%Z] =>
      lazymatch x with
      | (i / 12 + _)%Z =>
          let E := fresh "E" in
          destruct (x <? 8)%Z eqn:E;
          [apply Z.ltb_lt in E | apply Z.ltb_ge in E]
      end
  | |- context [(0 <=? ?x)%Z] =>
      lazymatch x with
      | (i / 12 + _)%Z =>
          let E := fresh "E" in
          destruct (0 <=? x)%Z eqn:E;
          [apply Z.leb_le in E | apply Z.leb_gt in E]
      end
  end;
  cbn [andb orb negb Z.eqb app]; try reflexivity; exfalso; lia.
Qed.

Lemma getNeighbors_far_outside_witness : getNeighbors 200 = [].
Proof. exact (getNeighbors_far_outside 200 ltac:(lia)). Defined.
End Readers.

Section Metrics.

Lemma fold_left_Qmax_ge (l : list Q) : forall x y : Q,
  (y == x \/ In y l) -> y <= fold_left Qmax l x.
Proof.
  induction l as [|z l IH]; intros x y H; cbn [fold_left].
  - destruct H as [H|[]]. rewrite H. apply Qle_refl.
  - destruct H as [H|[H|H]].
    + eapply Qle_trans; [|apply (IH (Qmax x z) (Qmax x z)); left; reflexivity].
      rewrite H. apply Q.le_max_l.
    + subst z. eapply Qle_trans; [|apply (IH (Qmax x y) (Qmax x y)); left; reflexivity].
      apply Q.le_max_r.
    + apply IH. right. exact H.
Qed.

Lemma fold_left_Qmin_le (l : list Q) : forall x y : Q,
  (y == x \/ In y l) -> fold_left Qmin l x <= y.
Proof.
  induction l as [|z l IH]; intros x y H; cbn [fold_left].
  - destruct H as [H|[]]. rewrite H. apply Qle_refl.
  - destruct H as [H|[H|H]].
    + eapply Qle_trans; [apply (IH (Qmin x z) (Qmin x z)); left; reflexivity|].
      rewrite H. apply Q.le_min_l.
    + subst z. eapply Qle_trans; [apply (IH (Qmin x y) (Qmin x y)); left; reflexivity|].
      apply Q.le_min_r.
    + apply IH. right. exact H.
Qed.

Lemma fold_left_Qmax_in (l : list Q) : forall x : Q,
  fold_left Qmax l x = x \/ In (fold_left Qmax l x) l.
Proof.
  induction l as [|z l IH]; intros x; cbn [fold_left]; [left; reflexivity|].
  destruct (IH (Qmax x z)) as [H|H].
  - rewrite H. unfold Qmax, GenericMinMax.gmax.
    destruct (x ?= z); solve [left; reflexivity | right; left; reflexivity].
  - right. right. exact H.
Qed.

Lemma fold_left_Qmin_in (l : list Q) : forall x : Q,
  fold_left Qmin l x = x \/ In (fold_left Qmin l x) l.
Proof.
  induction l as [|z l IH]; intros x; cbn [fold_left]; [left; reflexivity|].
  destruct (IH (Qmin x z)) as [H|H].
  - rewrite H. unfold Qmin, GenericMinMax.gmin.
    destruct (x ?= z); solve [left; reflexivity | right; left; reflexivity].
  - right. right. exact H.
Qed.

Lemma sumQ_bounds (lo hi : Q) (l : list Q) :
  Forall (fun x => lo <= x /\ x <= hi) l ->
  forall z : Q,
    z + inject_Z (Z.of_nat (length l)) * lo <= fold_left Qplus l z /\
    fold_left Qplus l z <= z + inject_Z (Z.of_nat (length l)) * hi.
Proof.
  induction 1 as [|x l [Hlo Hhi] Hl IH]; intros z.
  - cbn [fold_left length]. change (inject_Z (Z.of_nat 0)) with 0. split; lra.
  - cbn [fold_left length]. destruct (IH (z + x)) as [IH1 IH2].
    assert (E : inject_Z (Z.of_nat (S (length l))) == inject_Z (Z.of_nat (length l)) + 1).
    { rewrite Nat2Z.inj_succ, <- Z.add_1_r, inject_Z_plus. reflexivity. }
    rewrite E. split.
    + eapply Qle_trans; [|exact IH1]. lra.
    + eapply Qle_trans; [exact IH2|]. lra.
Qed.

Lemma metricsSample_statistics_aux (data : list BatteryCell) (time : string) :
  let s := metricsSample data time in
  Sample.time s = time /\
  (data = [] -> Sample.avg s = NaN /\ Sample.max s = NInf /\ Sample.min s = PInf) /\
  (data <> [] ->
     exists a hi lo,
       Sample.avg s = Fin a /\ Sample.max s = Fin hi /\ Sample.min s = Fin lo /\
       (exists c, c ∈ data /\ temperature c = hi) /\
       (exists c, c ∈ data /\ temperature c = lo) /\
       (forall c, c ∈ data -> lo <= temperature c /\ temperature c <= hi) /\
       lo <= a /\ a <= hi).
Proof.
  cbv zeta. split; [reflexivity|]. split.
  - intros ->. repeat split.
  - intros Hne. destruct data as [|c0 d]; [congruence|]. clear Hne.
    unfold metricsSample. cbn [Sample.avg Sample.max Sample.min].
    set (temps := map temperature (c0 :: d)).
    assert (Hlen : 0 < inject_Z (Z.of_nat (length temps))).
    { change 0 with (inject_Z 0). rewrite <- Zlt_Qlt. unfold temps. simpl. lia. }
    unfold js_div.
    assert (Hz : Qeq_bool (inject_Z (Z.of_nat (length temps))) 0 = false).
    { destruct (Qeq_bool _ 0) eqn:E; [|reflexivity].
      apply Qeq_bool_iff in E. rewrite E in Hlen. exfalso. apply (Qlt_irrefl _ Hlen). }
    rewrite Hz.
    unfold temps at 2 3. cbn [map Math_max Math_min].
    set (hi := fold_left Qmax (map temperature d) (temperature c0)).
    set (lo := fold_left Qmin (map temperature d) (temperature c0)).
    assert (Hin : forall x, (x = temperature c0 \/ In x (map temperature d)) ->
                    exists c, c ∈ c0 :: d /\ temperature c = x).
    { intros x [->|Hx].
      - exists c0. split; [left | reflexivity].
      - apply in_map_iff in Hx. destruct Hx as (c & <- & Hc).
        exists c. split; [right; by apply list_elem_of_In | reflexivity]. }
    assert (Hbounds : forall c, c ∈ c0 :: d -> lo <= temperature c /\ temperature c <= hi).
    { intros c Hc. apply elem_of_cons in Hc.
      assert (Hy : temperature c == temperature c0 \/ In (temperature c) (map temperature d)).
      { destruct Hc as [->|Hc]; [left; reflexivity|].
        right. apply in_map. by apply list_elem_of_In. }
      split; [apply fold_left_Qmin_le | apply fold_left_Qmax_ge]; exact Hy. }
    eexists _, hi, lo. split; [reflexivity|]. split; [reflexivity|]. split; [reflexivity|].
    split; [apply Hin, fold_left_Qmax_in|]. split; [apply Hin, fold_left_Qmin_in|].
    split; [exact Hbounds|].
    assert (Hall : Forall (fun x => lo <= x /\ x <= hi) temps).
    { unfold temps. apply Forall_fmap. apply Forall_forall. intros c Hc. apply Hbounds, Hc. }
    destruct (sumQ_bounds lo hi temps Hall 0) as [S1 S2]. unfold sumQ.
    change (temperature c0 :: map temperature d) with temps.
    split.
    + apply Qle_shift_div_l; [exact Hlen|]. lra.
    + apply Qle_shift_div_r; [exact Hlen|]. lra.
Qed.

Lemma metricsSample_avg (data : list BatteryCell) (time : string) :
  data <> [] ->
  Sample.avg (metricsSample data time)
  = Fin (sumQ (map temperature data)
         / inject_Z (Z.of_nat (length (map temperature data)))).
Proof.
  intros Hne. destruct data as [|c0 d]; [congruence|].
  unfold metricsSample, js_div. cbn [Sample.avg].
  assert (Hz : Qeq_bool (inject_Z (Z.of_nat (length (map temperature (c0 :: d))))) 0 = false).
  { destruct (Qeq_bool _ 0) eqn:E; [|reflexivity].
    apply Qeq_bool_iff in E. exfalso.
    assert (H : 0 < inject_Z (Z.of_nat (length (map temperature (c0 :: d))))).
    { change 0 with (inject_Z 0). rewrite <- Zlt_Qlt. simpl. lia. }
    rewrite E in H. apply (Qlt_irrefl _ H). }
  rewrite Hz. reflexivity.
Qed.

(** X16: the sample pushed on the history.  For a non-empty pack the three
    statistics are finite: [avg] is the sum of the temperatures divided by
    their number, and [max] and [min] are temperatures of cells of the pack
    that bound every temperature, so [min <= max].  For an empty pack the
    sample is NaN, -Infinity, +Infinity. *)
Theorem metricsSample_statistics (data : list BatteryCell) (time : string) :
  let s := metricsSample data time in
  let temps := map temperature data in
  Sample.time s = time /\
  (data = [] -> Sample.avg s = NaN /\ Sample.max s = NInf /\ Sample.min s = PInf) /\
  (data <> [] ->
     exists hi lo,
       Sample.avg s = Fin (sumQ temps / inject_Z (Z.of_nat (length temps))) /\
       Sample.max s = Fin hi /\ Sample.min s = Fin lo /\
       (exists c, c ∈ data /\ temperature c = hi) /\
       (exists c, c ∈ data /\ temperature c = lo) /\
       (forall c, c ∈ data -> lo <= temperature c /\ temperature c <= hi) /\
       lo <= hi).
Proof.
  cbv zeta.
  destruct (metricsSample_statistics_aux data time) as (Htime & Hempty & Hfull).
  split; [exact Htime|]. split; [exact Hempty|].
  intros Hne.
  destruct (Hfull Hne) as (a & hi & lo & _ & Hhi & Hlo & Hmax & Hmin & Hall & Hla & Hah).
  exists hi, lo. split; [apply metricsSample_avg, Hne|].
  split; [exact Hhi|]. split; [exact Hlo|]. split; [exact Hmax|]. split; [exact Hmin|].
  split; [exact Hall|]. eapply Qle_trans; [exact Hla | exact Hah].
Qed.

Lemma metricsSample_statistics_witness :
  exists hi lo,
    Sample.max (metricsSample boundaryPack "12:00:00") = Fin hi /\
    Sample.min (metricsSample boundaryPack "12:00:00") = Fin lo /\
    lo <= hi.
Proof.
  destruct (proj2 (proj2 (metricsSample_statistics boundaryPack "12:00:00"))
              ltac:(discriminate))
    as (hi & lo & _ & Hhi & Hlo & _ & _ & _ & Hle).
  exists hi, lo. split; [exact Hhi|]. split; [exact Hlo | exact Hle].
Defined.
End Metrics.

Section UpdateStep.
Variable rand : nat -> Q.
Hypothesis rand_unit : unitDraws rand.

Lemma clamp_near (lo hi x d e : Q) :
  lo <= x -> x <= hi -> - e <= d -> d <= e ->
  x - e <= Qmax lo (Qmin hi (x + d)) /\ Qmax lo (Qmin hi (x + d)) <= x + e.
Proof.
  intros H1 H2 H3 H4.
  destruct (Q.min_spec hi (x + d)) as [[Hm Em]|[Hm Em]];
  destruct (Q.max_spec lo (Qmin hi (x + d))) as [[HM EM]|[HM EM]];
  rewrite EM; try rewrite Em; rewrite ?Em in HM; split; lra.
Qed.

(** X17: one [update] moves a cell only a little: with draws in [0,1) and a
    cell inside the clamp ranges, the temperature and the soc change by at
    most 0.25 and the voltage by at most 0.005, each up to the margin (the
    sum of the old value and the perturbation is rounded once more). *)
Theorem update_small_step (this : BatteryCell) (w : World) :
  inBounds this ->
  exists this' w', update rand this w = (Normal this', w') /\
    (temperature this - (0.25 + roundoff) <= temperature this' /\
     temperature this' <= temperature this + (0.25 + roundoff)) /\
    (voltage this - (0.005 + roundoff) <= voltage this' /\
     voltage this' <= voltage this + (0.005 + roundoff)) /\
    (soc this - (0.25 + roundoff) <= soc this' /\
     soc this' <= soc this + (0.25 + roundoff)).
Proof.
  intros ((Ht1 & Ht2) & (Hv1 & Hv2) & (Hs1 & Hs2)).
  eexists _, _. split.
  { unfold update, bind, Math_random, ret. cbv beta iota zeta. reflexivity. }
  cbn [temperature voltage soc current randomCalls
       set_temperature set_voltage set_soc set_current].
  destruct (rand_unit (randomCalls w)) as [? ?].
  destruct (rand_unit (S (randomCalls w))) as [? ?].
  destruct (rand_unit (S (S (randomCalls w)))) as [? ?].
  destruct (rand_unit (S (S (S (randomCalls w))))) as [? ?].
  unfold roundoff.
  split; [apply clamp_near; lra|]. split; [apply clamp_near; lra|].
  apply clamp_near; lra.
Qed.
End UpdateStep.

Lemma uniformCell_inBounds : inBounds (uniformCell 30).
Proof. unfold inBounds. cbn. repeat split; lra. Qed.

Lemma update_small_step_witness :
  exists this' w', update (fun _ => 0) (uniformCell 30) emptyWorld = (Normal this', w').
Proof.
  destruct (update_small_step (fun _ => 0) zeroDraws_unit (uniformCell 30) emptyWorld
              uniformCell_inBounds) as (c & w' & H & _).
  exists c, w'. exact H.
Defined.

Section ClusterErrors.

Lemma filterC_throw {A} (p : A -> Completion bool) (l : list A) (x : A) (e : string) :
  In x l -> p x = Throw e ->
  (forall y, In y l -> p y = Throw e \/ exists b, p y = Normal b) ->
  filterC p l = Throw e.
Proof.
  intros Hx Hpx Hall. induction l as [|y l IH]; [destruct Hx|].
  cbn [filterC].
  destruct (Hall y (or_introl eq_refl)) as [Hy|[b Hy]]; rewrite Hy; [reflexivity|].
  cbn [cbind]. destruct Hx as [->|Hx]; [congruence|].
  rewrite IH; [reflexivity | exact Hx |]. intros z Hz. apply Hall. by right.
Qed.

(** X18: when [isThermalCluster] answers and when it fails, for a pack of
    any size.  An index outside the pack is a TypeError.  A cell below 45
    degrees is never a member, and the question is settled without reading a
    neighbour.  A cell at 45 degrees or more one of whose grid neighbours
    lies beyond the end of the pack is a TypeError. *)
Theorem isThermalCluster_errors (data : list BatteryCell) (index : Z) :
  ((index < 0 \/ Z.of_nat (length data) <= index)%Z ->
     isThermalCluster data index = Throw TypeError) /\
  (forall c, index_get data index = Some c -> temperature c < 45 ->
     isThermalCluster data index = Normal false) /\
  (forall c n, index_get data index = Some c -> 45 <= temperature c ->
     n ∈ getNeighbors index -> (Z.of_nat (length data) <= n)%Z ->
     isThermalCluster data index = Throw TypeError).
Proof.
  split; [|split].
  - intros Hout. unfold isThermalCluster.
    assert (E : index_get data index = None).
    { unfold index_get. destruct (0 <=? index)%Z eqn:E0; [|reflexivity].
      apply Z.leb_le in E0. apply lookup_ge_None. lia. }
    rewrite E. reflexivity.
  - intros c Hc Ht. unfold isThermalCluster. rewrite Hc.
    apply Qlt_bool_iff in Ht. unfold CONFIG.TEMP_THRESHOLDS.ELEVATED_MAX. rewrite Ht.
    reflexivity.
  - intros c n Hc Ht Hn Hfar. unfold isThermalCluster. rewrite Hc.
    assert (E : Qlt_bool (temperature c) CONFIG.TEMP_THRESHOLDS.ELEVATED_MAX = false)
      by (apply Qlt_bool_false_iff; exact Ht).
    rewrite E. cbv zeta.
    rewrite (filterC_throw (isHot data) (getNeighbors index) n TypeError); [reflexivity| | |].
    + by apply list_elem_of_In.
    + unfold isHot.
      assert (En : index_get data n = None).
      { unfold index_get. destruct (0 <=? n)%Z; [|reflexivity]. apply lookup_ge_None. lia. }
      rewrite En. reflexivity.
    + intros y _. unfold isHot. destruct (index_get data y); [right; eauto | left; reflexivity].
Qed.

Lemma isThermalCluster_errors_witness :
  isThermalCluster [uniformCell 50] 0 = Throw TypeError.
Proof.
  destruct (isThermalCluster_errors [uniformCell 50] 0) as (_ & _ & H).
  apply (H (uniformCell 50) 1%Z); [reflexivity | vm_compute; discriminate | | simpl; lia].
  apply list_elem_of_In. vm_compute. left. reflexivity.
Defined.
End ClusterErrors.

Section Charts.

Lemma sohCounts_fold (data : list BatteryCell) : forall a0 a1 a2 a3 a4 a5 : nat,
  fold_left countSoh data [a0; a1; a2; a3; a4; a5] =
    [a0 + sohBelow 75 data; a1 + sohBetween 75 80 data; a2 + sohBetween 80 85 data;
     a3 + sohBetween 85 90 data; a4 + sohBetween 90 95 data; a5 + sohFrom 95 data]%nat.
Proof.
  induction data as [|c d IH]; intros a0 a1 a2 a3 a4 a5.
  - unfold sohBelow, sohBetween, sohFrom. cbn [fold_left List.filter length].
    by rewrite !Nat.add_0_r.
  - cbn [fold_left]. unfold countSoh at 2.
    unfold sohBelow, sohBetween, sohFrom. cbn [List.filter].
    destruct (Qlt_bool (soh c) 75) eqn:E75;
      [apply Qlt_bool_iff in E75 | apply Qlt_bool_false_iff in E75];
    (destruct (Qlt_bool (soh c) 80) eqn:E80;
      [apply Qlt_bool_iff in E80 | apply Qlt_bool_false_iff in E80]);
    (destruct (Qlt_bool (soh c) 85) eqn:E85;
      [apply Qlt_bool_iff in E85 | apply Qlt_bool_false_iff in E85]);
    (destruct (Qlt_bool (soh c) 90) eqn:E90;
      [apply Qlt_bool_iff in E90 | apply Qlt_bool_false_iff in E90]);
    (destruct (Qlt_bool (soh c) 95) eqn:E95;
      [apply Qlt_bool_iff in E95 | apply Qlt_bool_false_iff in E95]);
    try (exfalso; lra);
    (destruct (Qle_bool 75 (soh c)) eqn:L75;
      [apply Qle_bool_iff in L75 | apply Qlt_bool_iff in L75 || (assert (soh c < 75) by (apply Qnot_le_lt; intros HH; apply Qle_bool_iff in HH; congruence))]);
    (destruct (Qle_bool 80 (soh c)) eqn:L80;
      [apply Qle_bool_iff in L80 | assert (soh c < 80) by (apply Qnot_le_lt; intros HH; apply Qle_bool_iff in HH; congruence)]);
    (destruct (Qle_bool 85 (soh c)) eqn:L85;
      [apply Qle_bool_iff in L85 | assert (soh c < 85) by (apply Qnot_le_lt; intros HH; apply Qle_bool_iff in HH; congruence)]);
    (destruct (Qle_bool 90 (soh c)) eqn:L90;
      [apply Qle_bool_iff in L90 | assert (soh c < 90) by (apply Qnot_le_lt; intros HH; apply Qle_bool_iff in HH; congruence)]);
    (destruct (Qle_bool 95 (soh c)) eqn:L95;
      [apply Qle_bool_iff in L95 | assert (soh c < 95) by (apply Qnot_le_lt; intros HH; apply Qle_bool_iff in HH; congruence)]);
    try (exfalso; lra);
    cbn [alter list_alter andb length]; rewrite IH;
    unfold sohBelow, sohBetween, sohFrom;
    repeat (f_equal; try lia).
Qed.

Lemma countSoh_sum (acc : list nat) (c : BatteryCell) :
  length acc = 6%nat ->
  length (countSoh acc c) = 6%nat /\ sum_list (countSoh acc c) = S (sum_list acc).
Proof.
  intros Hlen.
  destruct acc as [|a0 [|a1 [|a2 [|a3 [|a4 [|a5 [|a6 r]]]]]]]; try discriminate Hlen.
  unfold countSoh. cbv zeta.
  repeat match goal with
  | |- context [if Qlt_bool ?x ?y then _ else _] => destruct (Qlt_bool x y)
  end; simpl; (split; [reflexivity | lia]).
Qed.

Lemma sohCounts_total (data : list BatteryCell) : forall acc : list nat,
  length acc = 6%nat ->
  sum_list (fold_left countSoh data acc) = (sum_list acc + length data)%nat.
Proof.
  induction data as [|c d IH]; intros acc Hacc; cbn [fold_left length]; [lia|].
  destruct (countSoh_sum acc c Hacc) as [H6 Hs].
  rewrite (IH _ H6), Hs. lia.
Qed.

(** X19: the soh histogram handed to the chart has six buckets,
    [soh < 75], [75,80), [80,85), [85,90), [90,95) and [soh >= 95]; every cell
    is counted in exactly one of them, so the counts add up to the size of
    the pack.  The first bucket, labelled 70-75%, also takes every cell below
    70, and the last one every cell above 100.  The temperature chart gets
    one label and one value per history entry. *)
Theorem updateCharts_histogram (w : World) :
  let chart := updateCharts w in
  let data := batteryData w in
  sohData chart =
    [sohBelow 75 data; sohBetween 75 80 data; sohBetween 80 85 data;
     sohBetween 85 90 data; sohBetween 90 95 data; sohFrom 95 data] /\
  sum_list (sohData chart) = length data /\
  length (labels chart) = length (tempHistory w) /\
  length (avgData chart) = length (tempHistory w) /\
  length (maxData chart) = length (tempHistory w).
Proof.
  cbv zeta. unfold updateCharts. cbn [sohData labels avgData maxData].
  split; [apply (sohCounts_fold (batteryData w) 0 0 0 0 0 0)|].
  split; [apply (sohCounts_total (batteryData w) [0; 0; 0; 0; 0; 0]%nat); reflexivity|].
  rewrite !length_map. auto.
Qed.
End Charts.

Section ColdPack.

Lemma updateAnomalyStatus_run_gen (w : World) (r : list BatteryCell) :
  filterIndexC (fun _ index => isThermalCluster (batteryData w) index) (batteryData w) 0
    = Normal r ->
  let data := batteryData w in
  let critical := (0 <? length (filter (fun cell => anomalyStatus cell = CRITICAL) data))%nat in
  let warning := (0 <? length (filter (fun cell => anomalyStatus cell = WARNING) data))%nat in
  updateAnomalyStatus w =
    (Normal tt,
     set_statusBanner
       (if critical then
          if (3 <=? length r)%nat
          then mkBanner ["anomaly-status"; "critical"] "THERMAL CLUSTER DETECTED"
          else mkBanner ["anomaly-status"; "critical"] "CRITICAL"
        else if warning then mkBanner ["anomaly-status"; "warning"] "WARNING"
        else mkBanner ["anomaly-status"] "NORMAL") w).
Proof.
  intros Hr data critical warning.
  unfold updateAnomalyStatus, bind, gets, lift, modify.
  fold data. unfold data at 1 2. rewrite Hr. fold data. fold critical warning.
  destruct w as [d h b g rc dr].
  destruct critical; [destruct (3 <=? length r)%nat | destruct warning]; reflexivity.
Qed.

Lemma cold_pack_no_cluster (data : list BatteryCell) :
  (forall c, c ∈ data -> temperature c < 45) ->
  forall j, (0 <= j < 0 + Z.of_nat (length data))%Z -> isThermalCluster data j = Normal false.
Proof.
  intros Hcold j Hj.
  destruct (index_get_in_range data j ltac:(lia)) as [c Hc].
  unfold isThermalCluster. rewrite Hc.
  assert (Ht : temperature c < 45).
  { apply Hcold. apply index_get_Some in Hc. destruct Hc as [_ Hc].
    eapply list_elem_of_lookup_2, Hc. }
  apply Qlt_bool_iff in Ht. unfold CONFIG.TEMP_THRESHOLDS.ELEVATED_MAX. rewrite Ht. reflexivity.
Qed.

Lemma filter_all_false {A} (p : A -> bool) (l : list A) :
  (forall x, In x l -> p x = false) -> List.filter p l = [].
Proof.
  induction l as [|x l IH]; intros H; [reflexivity|].
  cbn [List.filter]. rewrite (H x (or_introl eq_refl)). apply IH.
  intros y Hy. apply H. by right.
Qed.

(** X20: a pack in which no cell reaches 45 degrees, of any size, the empty
    pack included: the banner update completes without reading a neighbour,
    no cell is a cluster member, and the banner reads CRITICAL, WARNING or
    NORMAL by the worst status present, never THERMAL CLUSTER DETECTED. *)
Theorem cold_pack_banner (w : World) :
  (forall c, c ∈ batteryData w -> temperature c < 45) ->
  let data := batteryData w in
  let anyCritical := exists c, c ∈ data /\ anomalyStatus c = CRITICAL in
  let anyWarning := exists c, c ∈ data /\ anomalyStatus c = WARNING in
  let banner := textContent (statusBanner (exec updateAnomalyStatus w)) in
  fst (updateAnomalyStatus w) = Normal tt /\
  clusterCount data = 0%nat /\
  (banner = "CRITICAL" <-> anyCritical) /\
  (banner = "WARNING" <-> ~ anyCritical /\ anyWarning) /\
  (banner = "NORMAL" <-> ~ anyCritical /\ ~ anyWarning).
Proof.
  intros Hcold data anyCritical anyWarning banner.
  pose proof (cold_pack_no_cluster data Hcold) as Hno.
  assert (Hcount : clusterCount data = 0%nat).
  { unfold clusterCount. rewrite filter_all_false; [reflexivity|].
    intros j Hj. apply list_elem_of_In, elem_of_seqZ in Hj.
    unfold clusterMember. rewrite Hno by lia. reflexivity. }
  destruct (filterIndexC_length (isThermalCluster data) data 0) as (r & Hr & Hlen).
  { intros j Hj. exists false. apply Hno. exact Hj. }
  assert (Hr0 : length r = 0%nat).
  { rewrite Hlen. fold (clusterMember data). exact Hcount. }
  pose proof (updateAnomalyStatus_run_gen w r Hr) as Hrun. cbv zeta in Hrun. fold data in Hrun.
  rewrite Hr0 in Hrun. cbn [Nat.leb] in Hrun.
  unfold banner, exec. rewrite Hrun. cbn [fst snd].
  pose proof (filter_nonempty (fun cell => anomalyStatus cell = CRITICAL) data) as Hc.
  pose proof (filter_nonempty (fun cell => anomalyStatus cell = WARNING) data) as Hw.
  fold anyCritical in Hc. fold anyWarning in Hw.
  split; [reflexivity|]. split; [exact Hcount|].
  destruct (0 <? length (filter (fun cell => anomalyStatus cell = CRITICAL) data))%nat.
  - assert (HC : anyCritical) by (apply Hc; reflexivity).
    cbn [statusBanner set_statusBanner textContent].
    repeat split; try discriminate; try tauto; auto.
  - assert (HC : ~ anyCritical) by (intros HC; apply Hc in HC; discriminate).
    destruct (0 <? length (filter (fun cell => anomalyStatus cell = WARNING) data))%nat.
    + assert (HW : anyWarning) by (apply Hw; reflexivity).
      cbn [statusBanner set_statusBanner textContent].
      repeat split; try discriminate; try tauto; auto.
    + assert (HW : ~ anyWarning) by (intros HW; apply Hw in HW; discriminate).
      cbn [statusBanner set_statusBanner textContent].
      repeat split; try discriminate; try tauto; auto.
Qed.

Lemma cold_pack_banner_witness :
  fst (updateAnomalyStatus (worldOf [uniformCell 30; uniformCell 30])) = Normal tt.
Proof.
  apply (cold_pack_banner (worldOf [uniformCell 30; uniformCell 30])).
  intros c Hc. apply elem_of_cons in Hc. destruct Hc as [->|Hc]; [reflexivity|].
  apply elem_of_cons in Hc. destruct Hc as [->|Hc]; [reflexivity|].
  inversion Hc.
Defined.
End ColdPack.

Section GridClasses.
Variable rand : nat -> Q.
Variable localeTime : nat -> string.

Lemma updateCellElement_classes (index : nat) (w : World) (c : BatteryCell) :
  length (batteryData w) = 96%nat -> batteryData w !! index = Some c ->
  exists g,
    updateCellElement index w = (Normal tt, set_gridClasses g w) /\
    length g = length (gridClasses w) /\
    (forall j, j <> index -> g !! j = gridClasses w !! j) /\
    ((index < length (gridClasses w))%nat ->
       g !! index = Some (cellClasses (batteryData w) index c)).
Proof.
  intros Hlen Hc.
  assert (Hi : (index < 96)%nat) by (apply lookup_lt_Some in Hc; lia).
  unfold updateCellElement, bind, gets, modify, lift, ret. cbv beta iota.
  cbn [batteryData gridClasses set_gridClasses]. rewrite Hc.
  unfold cellClasses, clusterMember.
  rewrite (isThermalCluster_total (batteryData w) (Z.of_nat index) Hlen) by lia.
  destruct (_ && _); cbn [gridClasses set_gridClasses];
    (eexists; split; [reflexivity|]; split; [|split]);
    [ by rewrite !length_alter, length_insert
    | intros j Hj; by rewrite !list_lookup_alter_ne, list_lookup_insert_ne by congruence
    | intros Hg; rewrite !list_lookup_alter_eq, list_lookup_insert_eq by exact Hg; reflexivity
    | by rewrite !length_alter, length_insert
    | intros j Hj; by rewrite !list_lookup_alter_ne, list_lookup_insert_ne by congruence
    | intros Hg; rewrite !list_lookup_alter_eq, list_lookup_insert_eq by exact Hg; reflexivity ].
Qed.

Lemma updateGrid_loop_classes (n : nat) : forall (k : nat) (w : World),
  length (batteryData w) = 96%nat -> (k + n <= 96)%nat ->
  (k + n <= length (gridClasses w))%nat ->
  exists g,
    forEachJS updateCellElement (seq k n) w = (Normal tt, set_gridClasses g w) /\
    length g = length (gridClasses w) /\
    (forall j, (j < k \/ k + n <= j)%nat -> g !! j = gridClasses w !! j) /\
    (forall j c, (k <= j < k + n)%nat -> batteryData w !! j = Some c ->
       g !! j = Some (cellClasses (batteryData w) j c)).
Proof.
  induction n as [|n IH]; intros k w Hlen Hk Hg.
  - exists (gridClasses w). split; [destruct w; reflexivity|].
    split; [reflexivity|]. split; [reflexivity|]. intros j c Hj. lia.
  - destruct (lookup_lt_is_Some_2 (batteryData w) k) as [ck Hck]; [lia|].
    destruct (updateCellElement_classes k w ck Hlen Hck) as (g1 & H1 & Hl1 & Ho1 & Hi1).
    destruct (IH (S k) (set_gridClasses g1 w)) as (g & Hrun & Hl & Ho & Hi).
    { exact Hlen. } { lia. }
    { cbn [gridClasses set_gridClasses]. lia. }
    cbn [batteryData gridClasses set_gridClasses] in Hl, Ho, Hi.
    exists g. split; [|split; [|split]].
    + cbn [seq forEachJS]. rewrite (bind_run _ _ _ _ _ H1). exact Hrun.
    + congruence.
    + intros j Hj. rewrite Ho by lia. apply Ho1. lia.
    + intros j c Hj Hc. destruct (decide (j = k)) as [->|Hne].
      * rewrite Ho by lia. rewrite Hi1 by lia. congruence.
      * apply Hi; [lia | exact Hc].
Qed.

(** X21: [updateBatteryGrid] on the 96-cell pack with its 96 grid elements
    completes, leaves the pack alone and gives the element of every cell the
    classes battery-cell and the temperature band of the cell, plus
    thermal-cluster exactly when the cell is a cluster member. *)
Theorem updateBatteryGrid_classes (w : World) :
  length (batteryData w) = 96%nat -> length (gridClasses w) = 96%nat ->
  let w' := exec (updateBatteryGrid localeTime) w in
  fst (updateBatteryGrid localeTime w) = Normal tt /\
  batteryData w' = batteryData w /\
  gridClasses w' = imap (cellClasses (batteryData w)) (batteryData w) /\
  (forall (i : nat) (cls : list string), gridClasses w' !! i = Some cls ->
     ("thermal-cluster" ∈ cls <-> isThermalCluster (batteryData w) (Z.of_nat i) = Normal true)).
Proof.
  intros Hlen Hgrid. cbv zeta.
  destruct (updateGrid_loop_classes 96 0 w Hlen ltac:(lia) ltac:(lia))
    as (g & Hloop & Hl & _ & Hcls).
  destruct (updateMetrics_run localeTime (set_gridClasses g w)) as (w' & Hmet & Hd & Hg & _).
  assert (Hrun : updateBatteryGrid localeTime w = (Normal tt, w')).
  { unfold updateBatteryGrid. unfold bind at 1, gets. cbv beta iota.
    rewrite Hgrid. rewrite (bind_run _ _ _ _ _ Hloop). exact Hmet. }
  unfold exec. rewrite Hrun. cbn [fst snd].
  cbn [batteryData gridClasses set_gridClasses] in Hd, Hg.
  assert (Hgrid' : gridClasses w' = imap (cellClasses (batteryData w)) (batteryData w)).
  { rewrite Hg. apply list_eq. intros i. rewrite list_lookup_imap.
    destruct (batteryData w !! i) as [c|] eqn:E.
    - rewrite (Hcls i c); [reflexivity | | exact E]. apply lookup_lt_Some in E. lia.
    - apply lookup_ge_None. apply lookup_ge_None in E. lia. }
  split; [reflexivity|]. split; [exact Hd|]. split; [exact Hgrid'|].
  intros i cls Hi. rewrite Hgrid', list_lookup_imap in Hi.
  destruct (batteryData w !! i) as [c|] eqn:E; [|discriminate].
  injection Hi as <-. unfold cellClasses, clusterMember.
  destruct (isThermalCluster (batteryData w) (Z.of_nat i)) as [[|]|e].
  - split; [reflexivity|]. intros _. apply elem_of_app. right. left.
  - split; [|discriminate]. intros Hin. exfalso.
    rewrite app_nil_r in Hin. apply elem_of_cons in Hin. destruct Hin as [Hin|Hin].
    + unfold getTempClass in Hin. discriminate.
    + apply elem_of_cons in Hin. destruct Hin as [Hin|Hin]; [|inversion Hin].
      unfold getTempClass in Hin.
      repeat match type of Hin with
      | context [if ?b then _ else _] => destruct b
      end; discriminate.
  - split; [|discriminate]. intros Hin. exfalso.
    rewrite app_nil_r in Hin. apply elem_of_cons in Hin. destruct Hin as [Hin|Hin].
    + discriminate.
    + apply elem_of_cons in Hin. destruct Hin as [Hin|Hin]; [|inversion Hin].
      unfold getTempClass in Hin.
      repeat match type of Hin with
      | context [if ?b then _ else _] => destruct b
      end; discriminate.
Qed.

End GridClasses.

Lemma updateBatteryGrid_classes_witness :
  fst (updateBatteryGrid (fun _ => "12:00:00") (worldOf (uniformPack 30))) = Normal tt.
Proof.
  exact (proj1 (updateBatteryGrid_classes (fun _ => "12:00:00") (worldOf (uniformPack 30))
                  eq_refl eq_refl)).
Defined.

Section Handlers.
Variable rand : nat -> Q.
Variable localeTime : nat -> string.
Hypothesis rand_unit : unitDraws rand.

Lemma simulateFault_completes (w : World) :
  length (batteryData w) = 96%nat ->
  exists w', simulateFault rand w = (Normal tt, w') /\
    length (batteryData w') = 96%nat /\
    tempHistory w' = tempHistory w /\ gridClasses w' = gridClasses w /\
    dateReads w' = dateReads w.
Proof.
  intros Hlen.
  assert (Hne : batteryData w <> []) by (intros E; rewrite E in Hlen; discriminate).
  destruct (simulateFault_faultFrame rand w) as (F & H1 & _ & H3 & H4).
  assert (Hrun : exists w', simulateFault rand w = (Normal tt, w')).
  { destruct (Qlt_le_dec (rand (randomCalls w)) 0.33) as [E1|E1].
    - destruct (simulateFault_hotspot_run rand rand_unit w Hne E1) as (_ & ->). eauto.
    - destruct (Qlt_le_dec (rand (randomCalls w)) 0.66) as [E2|E2].
      + destruct (simulateFault_cluster_run rand rand_unit w Hlen E1 E2)
          as (_ & w' & -> & _). eauto.
      + destruct (simulateFault_voltage_run rand rand_unit w Hne E2) as (_ & ->). eauto. }
  destruct Hrun as (w' & Hrun). rewrite Hrun in F, H1, H3, H4. cbn [snd] in *.
  exists w'. split; [exact Hrun|].
  split; [rewrite <- (Forall2_length _ _ _ F); exact Hlen|]. auto.
Qed.

Lemma updateBatteryGrid_run (w : World) :
  length (batteryData w) = 96%nat -> (length (gridClasses w) <= 96)%nat ->
  exists w', updateBatteryGrid localeTime w = (Normal tt, w') /\
    batteryData w' = batteryData w /\
    length (gridClasses w') = length (gridClasses w) /\
    dateReads w' = S (dateReads w) /\
    tempHistory w' =
      (let h := tempHistory w ++ [metricsSample (batteryData w) (localeTime (dateReads w))] in
       if (20 <? length h)%nat then tail h else h).
Proof.
  intros Hlen Hgrid.
  destruct (updateGrid_loop_run (seq 0 (length (gridClasses w))) w Hlen) as (g & Hloop & Hg).
  { intros i Hi. apply elem_of_seq in Hi. lia. }
  destruct (updateMetrics_run localeTime (set_gridClasses g w))
    as (w' & Hmet & Hd' & Hg' & Hdr' & Hh').
  exists w'. split.
  { unfold updateBatteryGrid. unfold bind at 1, gets. cbv beta iota.
    rewrite (bind_run _ _ _ _ _ Hloop). exact Hmet. }
  split; [exact Hd'|]. split; [rewrite Hg'; exact Hg|]. split; [exact Hdr'|]. exact Hh'.
Qed.

(** X22: the manual fault button on the 96-cell pack: the handler completes,
    and it too pushes one sample on the temperature history, computed from
    the pack as the fault left it and before the detection pass runs; the
    history stays the last 20 samples.  The pack it leaves is the faulted
    pack after one detection pass. *)
Theorem manualFaultSimulation_effect (w : World) :
  length (batteryData w) = 96%nat -> length (gridClasses w) = 96%nat ->
  (length (tempHistory w) <= 20)%nat ->
  let faulted := exec (simulateFault rand) w in
  let w' := exec (manualFaultSimulation rand localeTime) w in
  fst (manualFaultSimulation rand localeTime w) = Normal tt /\
  tempHistory w' =
    lastn 20 (tempHistory w
              ++ [metricsSample (batteryData faulted) (localeTime (dateReads w))]) /\
  (length (tempHistory w') <= 20)%nat /\
  batteryData w' = batteryData (exec detectAnomalies faulted).
Proof.
  intros Hlen Hgrid Hh. cbv zeta.
  destruct (simulateFault_completes w Hlen) as (w1 & Hsim & Hlen1 & Hh1 & Hg1 & Hd1).
  destruct (updateBatteryGrid_run w1 Hlen1 ltac:(rewrite Hg1; lia))
    as (w2 & Hgridrun & Hdata2 & Hg2 & Hdr2 & Hh2).
  assert (Hlen2 : length (batteryData w2) = 96%nat) by congruence.
  destruct (detectAnomalies_run w2 Hlen2) as (b & Hdet).
  assert (Hrun : manualFaultSimulation rand localeTime w
                 = (Normal tt,
                    set_statusBanner b
                      (set_batteryData
                         (map (detectCell (avgVoltageOf (batteryData w2))) (batteryData w2)) w2))).
  { unfold manualFaultSimulation.
    rewrite (bind_run _ _ _ _ _ Hsim), (bind_run _ _ _ _ _ Hgridrun). exact Hdet. }
  assert (Hfault : exec (simulateFault rand) w = w1) by (unfold exec; rewrite Hsim; reflexivity).
  rewrite Hfault. unfold exec at 1 2 3. rewrite Hrun. cbn [fst snd].
  cbn [tempHistory batteryData set_statusBanner set_batteryData].
  assert (Hhist : tempHistory w2 =
                  lastn 20 (tempHistory w
                            ++ [metricsSample (batteryData w1) (localeTime (dateReads w))])).
  { rewrite Hh2, Hh1, Hd1. cbv zeta. apply trim_lastn. exact Hh. }
  split; [reflexivity|]. split; [exact Hhist|].
  split; [rewrite Hhist, lastn_length; lia|].
  rewrite detectAnomalies_data, Hdata2. reflexivity.
Qed.
End Handlers.

Lemma manualFaultSimulation_effect_witness :
  fst (manualFaultSimulation (fun _ => 0) (fun _ => "12:00:00") (worldOf (uniformPack 30)))
  = Normal tt.
Proof.
  exact (proj1 (manualFaultSimulation_effect (fun _ => 0) (fun _ => "12:00:00") zeroDraws_unit
                  (worldOf (uniformPack 30)) eq_refl eq_refl ltac:(simpl; lia))).
Defined.

Section StartUp.
Variable rand : nat -> Q.
Variable localeTime : nat -> string.
Hypothesis rand_unit : unitDraws rand.

Lemma initialize_run (w : World) :
  exists cells,
    initialize rand w =
      (Normal tt,
       set_gridClasses (map (fun cell => ["battery-cell"; getTempClass cell]) cells)
                       (set_batteryData cells (advance 672 w))) /\
    length cells = 96%nat /\
    Forall (fun c => freshRanges c /\ inBounds c) cells.
Proof.
  destruct (generateBatteryData_run rand w) as (cells & Hrun & Hlen & Hcells).
  exists cells. split; [|split; [exact Hlen|]].
  - unfold initialize. rewrite (bind_run _ _ _ _ _ Hrun). reflexivity.
  - apply Forall_lookup. intros i c Hi.
    destruct (Hcells i c Hi) as (_ & _ & _ & _ & _ & Hf). exact (Hf rand_unit).
Qed.

(** X23: start-up and the update loop together.  [initialize] builds the 96
    cells and renders one grid element per cell, classed battery-cell and
    temp-cool or temp-normal (a new cell is between 25 and 35 degrees).
    From there every tick of the update loop completes, the pack keeps its
    96 cells inside the clamp ranges, and after [n] ticks the history, empty
    at start-up, holds [min n 20] samples. *)
Theorem initialize_then_ticks (w : World) (n : nat) :
  tempHistory w = [] ->
  let w0 := exec (initialize rand) w in
  let wn := ticks rand localeTime n w0 in
  fst (initialize rand w) = Normal tt /\
  length (batteryData w0) = 96%nat /\
  gridClasses w0 = map (fun cell => ["battery-cell"; getTempClass cell]) (batteryData w0) /\
  (forall cls, cls ∈ gridClasses w0 ->
     cls = ["battery-cell"; "temp-cool"] \/ cls = ["battery-cell"; "temp-normal"]) /\
  fst (tick rand localeTime wn) = Normal tt /\
  length (batteryData wn) = 96%nat /\
  Forall inBounds (batteryData wn) /\
  length (tempHistory wn) = Nat.min n 20.
Proof.
  intros Hempty. cbv zeta.
  destruct (initialize_run w) as (cells & Hrun & Hlen & Hfresh).
  set (w0 := set_gridClasses _ _) in Hrun.
  assert (Hw0 : exec (initialize rand) w = w0) by (unfold exec; rewrite Hrun; reflexivity).
  rewrite Hw0.
  assert (Hd0 : length (batteryData w0) = 96%nat) by exact Hlen.
  assert (Hg0 : length (gridClasses w0) = 96%nat).
  { unfold w0. cbn [gridClasses set_gridClasses]. rewrite length_map. exact Hlen. }
  assert (Hh0 : tempHistory w0 = []) by exact Hempty.
  split; [rewrite Hrun; reflexivity|]. split; [exact Hd0|]. split; [reflexivity|].
  split.
  { intros cls Hcls. unfold w0 in Hcls. cbn [gridClasses set_gridClasses] in Hcls.
    apply list_elem_of_fmap in Hcls. destruct Hcls as (c & -> & Hc).
    rewrite Forall_forall in Hfresh. destruct (Hfresh c Hc) as [((Ht1 & Ht2) & _) _].
    destruct (getTempClass_bands_aux c) as (Hcool & Hnormal & _).
    destruct (Qlt_le_dec (temperature c) 28) as [Hlt|Hge].
    - left. f_equal. f_equal. apply Hcool. exact Hlt.
    - right. f_equal. f_equal. apply Hnormal. split; [exact Hge | lra]. }
  destruct (ticks_invariant rand localeTime w0 n Hd0 ltac:(lia)) as [Hdn Hgn].
  destruct (tick_run rand localeTime (ticks rand localeTime n w0) Hdn ltac:(lia))
    as (w' & Htick & _).
  split; [rewrite Htick; reflexivity|]. split; [exact Hdn|].
  split.
  { destruct n as [|n].
    - cbn [ticks]. eapply Forall_impl; [exact Hfresh|]. intros c [_ Hc]. exact Hc.
    - destruct (ticks_invariant rand localeTime w0 n Hd0 ltac:(lia)) as [Hdn' Hgn'].
      destruct (tick_run rand localeTime (ticks rand localeTime n w0) Hdn' ltac:(lia))
        as (w1 & Htick1 & _ & _ & _ & Hb & _).
      cbn [ticks]. unfold exec. rewrite Htick1. exact Hb. }
  rewrite (ticks_history rand localeTime w0 n Hd0 ltac:(lia) ltac:(rewrite Hh0; simpl; lia)).
  rewrite lastn_length, Hh0. cbn [app].
  unfold tickSamples. rewrite length_map, length_seq. apply Nat.min_comm.
Qed.
End StartUp.

Lemma initialize_then_ticks_witness :
  length (tempHistory (ticks (fun _ => 0) (fun _ => "12:00:00") 25
                             (exec (initialize (fun _ => 0)) emptyWorld))) = 20%nat.
Proof.
  exact (proj2 (proj2 (proj2 (proj2 (proj2 (proj2 (proj2
    (initialize_then_ticks (fun _ => 0) (fun _ => "12:00:00") zeroDraws_unit
       emptyWorld 25 eq_refl)))))))).
Defined.

Section TickFacts.
Variable rand : nat -> Q.
Variable localeTime : nat -> string.

Lemma tick_data (w : World) :
  exists d1, length d1 = length (batteryData w) /\ Forall inBounds d1 /\
    batteryData (exec (tick rand localeTime) w) = map (detectCell (avgVoltageOf d1)) d1.
Proof.
  destruct (mapJS_update_run rand (batteryData w) w) as (d1 & Hmap & Hd1 & Hb1).
  set (w1 := set_batteryData d1 (advance (4 * length (batteryData w)) w)).
  destruct (detectAnomalies_world w1) as (r & b & Hdet).
  exists d1. split; [exact Hd1|]. split; [exact Hb1|].
  unfold exec, tick. unfold bind at 1, gets. cbv beta iota.
  rewrite (bind_run _ _ _ _ _ Hmap).
  unfold bind at 1, modify. cbv beta iota. fold w1.
  unfold bind. rewrite Hdet. destruct r as [[]|e]; [|reflexivity].
  rewrite (updateBatteryGrid_keepsPack localeTime _). reflexivity.
Qed.

(** X24: after a tick no status is stale: in the pack the tick leaves, of
    any size and also when the handler throws after the detection loop,
    every cell carries the status that the detection rules give for its own
    current temperature, voltage and soh and the current average voltage.
    (A timer-driven fault changes values without a pass, so between ticks a
    status can lag behind.) *)
Theorem tick_statuses_current (w : World) :
  let data' := batteryData (exec (tick rand localeTime) w) in
  Forall (fun c => anomalyStatus c = verdict (avgVoltageOf data') c) data'.
Proof.
  cbv zeta. destruct (tick_data w) as (d1 & _ & _ & ->).
  rewrite avgVoltageOf_detect.
  apply Forall_fmap, Forall_forall. intros c _. unfold compose.
  rewrite detectCell_verdict. reflexivity.
Qed.

(** X25: what a tick records.  On the 96-cell pack the sample a tick pushes
    on the history has finite statistics with [20 <= min <= max <= 60],
    whatever the pack held before the tick, and its mean lies between [min]
    and [max] up to the margin (the sum of the 96 temperatures is rounded at
    every step). *)
Theorem tick_sample_bounded (w : World) :
  length (batteryData w) = 96%nat -> length (gridClasses w) = 96%nat ->
  exists s a hi lo,
    last (tempHistory (exec (tick rand localeTime) w)) = Some s /\
    Sample.time s = localeTime (dateReads w) /\
    Sample.avg s = Fin a /\ Sample.max s = Fin hi /\ Sample.min s = Fin lo /\
    20 <= lo /\ lo <= hi /\ hi <= 60 /\
    lo - roundoff <= a /\ a <= hi + roundoff.
Proof.
  intros Hlen Hgrid.
  destruct (tick_run rand localeTime w Hlen ltac:(lia))
    as (w' & Hrun & Hlen' & _ & _ & Hb & Hh).
  assert (Hw' : exec (tick rand localeTime) w = w') by (unfold exec; rewrite Hrun; reflexivity).
  rewrite Hw'.
  set (s := metricsSample (batteryData w') (localeTime (dateReads w))) in *.
  assert (Hlast : last (tempHistory w') = Some s).
  { rewrite Hh. cbv zeta.
    destruct (20 <? length (tempHistory w ++ [s]))%nat eqn:E.
    - destruct (tempHistory w) as [|x h]; [discriminate E|].
      cbn [app tail]. apply last_snoc.
    - apply last_snoc. }
  assert (Hne : batteryData w' <> []).
  { intros E. rewrite E in Hlen'. discriminate. }
  destruct (metricsSample_statistics_aux (batteryData w') (localeTime (dateReads w)))
    as (Htime & _ & Hstat).
  destruct (Hstat Hne) as (a & hi & lo & Ha & Hhi & Hlo & (chi & Hchi & Ehi) & (clo & Hclo & Elo)
                           & _ & Hla & Hah).
  rewrite Forall_forall in Hb.
  destruct (Hb chi Hchi) as ((_ & Hhi60) & _).
  destruct (Hb clo Hclo) as ((Hlo20 & _) & _).
  exists s, a, hi, lo. fold s in Htime, Ha, Hhi, Hlo.
  split; [exact Hlast|]. split; [exact Htime|].
  split; [exact Ha|]. split; [exact Hhi|]. split; [exact Hlo|].
  subst hi lo. unfold roundoff.
  split; [assumption|]. split; [lra|]. split; [assumption|]. split; lra.
Qed.
End TickFacts.

Lemma tick_sample_bounded_witness :
  exists s, last (tempHistory (exec (tick (fun _ => 0) (fun _ => "12:00:00"))
                                    (worldOf (uniformPack 30)))) = Some s.
Proof.
  destruct (tick_sample_bounded (fun _ => 0) (fun _ => "12:00:00") (worldOf (uniformPack 30))
              eq_refl eq_refl) as (s & _ & _ & _ & H & _).
  exists s. exact H.
Defined.
